(** * swiss_army_llama: shared_resources.py

    A shallow embedding of the module [shared_resources.py]: the GPU probe
    [is_gpu_available], the model cache and [load_model], the guarded
    artifact download [download_models], the startup sequence
    [initialize_globals] and the registration of the expiry sweep.

    Python exceptions are values of [PyExn] carried by [Result]; stateful
    code is written in a state-and-exception monad; everything the module
    obtains from the operating system or from third-party libraries
    (glob, nvgpu, llama_cpp, urllib, filelock, ...) is an oracle field of a
    world record, so that every definition runs on a concrete world. *)

From stdpp Require Import base gmap strings list.
From Stdlib Require Import ZArith QArith Lia.

Local Open Scope Z_scope.
Local Open Scope string_scope.

(** ** Python exceptions and results *)

(** The subclasses of [Exception] that the module raises, catches or can
    receive from its collaborators. *)
Inductive PyExn : Type :=
| TypeError (msg : string)
| KeyError (key : string)
| IndexError (msg : string)
| FileNotFoundError (msg : string)
| HTTPException (status_code : Z) (detail : string)
| Timeout (lock_file : string)
| URLError (reason : string)
| ValueError (msg : string)
| OSError (msg : string)
| RuntimeError (msg : string).

Inductive Result (A : Type) : Type :=
| Ok (a : A)
| Raise (e : PyExn).
Arguments Ok {A} a.
Arguments Raise {A} e.

Definition is_TypeError (e : PyExn) : bool :=
  match e with TypeError _ => true | _ => false end.

Definition is_Timeout (e : PyExn) : bool :=
  match e with Timeout _ => true | _ => false end.

(** [str(e)] *)
Definition str_exn (e : PyExn) : string :=
  match e with
  | TypeError m | IndexError m | FileNotFoundError m | RuntimeError m
  | ValueError m | OSError m => m
  | KeyError k => "'" ++ k ++ "'"
  | HTTPException _ d => d
  | Timeout f => "The file lock '" ++ f ++ "' could not be acquired."
  | URLError r => "<urlopen error " ++ r ++ ">"
  end.

Definition raises {A} (r : Result A) : Prop :=
  match r with Ok _ => False | Raise _ => True end.

Module ResultMonad.
Definition bind {A B} (m : Result A) (k : A -> Result B) : Result B :=
  match m with
  | Ok a => k a
  | Raise e => Raise e
  end.

(** [try: body  except Exception as e: handler e] *)
Definition try_except {A} (body : Result A) (handler : PyExn -> Result A)
  : Result A :=
  match body with
  | Ok a => Ok a
  | Raise e => handler e
  end.
End ResultMonad.

Notation "x <-- m ;; k" := (ResultMonad.bind m (fun x => k))
  (at level 100, m at next level, right associativity).

(** ** Python values stored in the dictionaries of this module *)

Inductive Scalar : Type :=
| SBool (b : bool)
| SInt (n : Z)
| SStr (s : string).

(** One entry of [nvgpu.gpu_info()]: a dictionary of scalars. *)
Abbreviation GpuDict := (gmap string Scalar).

Inductive PyVal : Type :=
| VScalar (x : Scalar)
| VGpuList (l : list GpuDict).

Definition VBool (b : bool) : PyVal := VScalar (SBool b).
Definition VInt (n : Z) : PyVal := VScalar (SInt n).
Definition VStr (s : string) : PyVal := VScalar (SStr s).

(** Truth value of a Python object, as [if x:] takes it. *)
Definition truthy (v : PyVal) : bool :=
  match v with
  | VScalar (SBool b) => b
  | VScalar (SInt n) => negb (n =? 0)%Z
  | VScalar (SStr s) => negb (String.eqb s EmptyString)
  | VGpuList l => negb (Nat.eqb (length l) 0)
  end.

(** [d[k]] on a dictionary: [KeyError] when the key is absent. *)
Definition getitem {V} (d : gmap string V) (k : string) : Result V :=
  match d !! k with
  | Some v => Ok v
  | None => Raise (KeyError k)
  end.

(** [l[0]] on a list: [IndexError] when the list is empty. *)
Definition getitem0 {A} (l : list A) : Result A :=
  match l with
  | x :: _ => Ok x
  | [] => Raise (IndexError "list index out of range")
  end.

(** [acc + v] with an integer accumulator: [bool] is a subclass of [int],
    a string operand raises [TypeError]. *)
Definition int_add (acc : Z) (v : Scalar) : Result Z :=
  match v with
  | SInt n => Ok (acc + n)
  | SBool b => Ok (acc + Z.b2z b)
  | SStr _ => Raise (TypeError "unsupported operand type(s) for +: 'int' and 'str'")
  end.

(** [sum(gpu['mem_total'] for gpu in gpu_info)]: the generator is consumed
    one element at a time, starting from 0. *)
Fixpoint sum_mem_total (acc : Z) (gpu_info : list GpuDict) : Result Z :=
  match gpu_info with
  | [] => Ok acc
  | gpu :: rest =>
      v <-- getitem gpu "mem_total" ;;
      acc' <-- int_add acc v ;;
      sum_mem_total acc' rest
  end.

(** ** The GPU probe *)

(** What the probe sees: whether [import nvgpu] succeeded when the module
    was loaded, and what [nvgpu.gpu_info()] does when called. *)
Record GpuEnv : Type := {
  GPU_AVAILABLE : bool;
  nvgpu_gpu_info : Result (list GpuDict)
}.

Abbreviation PyDict := (gmap string PyVal).

Definition no_gpu_dict : PyDict :=
  <["gpu_found" := VBool false]>
  (<["num_gpus" := VInt 0]>
  (<["first_gpu_vram" := VInt 0]>
  (<["total_vram" := VInt 0]> ∅))).

Definition is_gpu_available (g : GpuEnv) : Result PyDict :=
  if negb (GPU_AVAILABLE g) then
    Ok (<["error" := VStr "nvgpu module not found"]> no_gpu_dict)
  else
    ResultMonad.try_except
      (gpu_info <-- nvgpu_gpu_info g ;;
       let num_gpus := Z.of_nat (length gpu_info) in
       if (num_gpus =? 0)%Z then Ok no_gpu_dict
       else
         first <-- getitem0 gpu_info ;;
         first_gpu_vram <-- getitem first "mem_total" ;;
         total_vram <-- sum_mem_total 0 gpu_info ;;
         Ok (<["gpu_found" := VBool true]>
             (<["num_gpus" := VInt num_gpus]>
             (<["first_gpu_vram" := VScalar first_gpu_vram]>
             (<["total_vram" := VInt total_vram]>
             (<["gpu_info" := VGpuList gpu_info]> ∅))))))
      (fun e => Ok (<["error" := VStr (str_exn e)]> no_gpu_dict)).

(** The four keys every answer of the probe carries, the first a boolean. *)
Definition well_formed_gpu_dict (d : PyDict) : Prop :=
  (exists b, d !! "gpu_found" = Some (VBool b)) /\
  is_Some (d !! "num_gpus") /\
  is_Some (d !! "first_gpu_vram") /\
  is_Some (d !! "total_vram").

(** ** State and exceptions *)

(** A computation that reads and writes a state of type [S] and either
    returns or raises. A raised exception keeps the state reached so far,
    as the side effects of a Python function survive its exception. *)
Definition M (S A : Type) : Type := S -> S * Result A.

Module StateExn.
Definition ret {S A} (a : A) : M S A := fun s => (s, Ok a).

Definition raise {S A} (e : PyExn) : M S A := fun s => (s, Raise e).

Definition bind {S A B} (m : M S A) (k : A -> M S B) : M S B :=
  fun s =>
    match m s with
    | (s', Ok a) => k a s'
    | (s', Raise e) => (s', Raise e)
    end.

Definition lift {S A} (r : Result A) : M S A := fun s => (s, r).

Definition get {S} : M S S := fun s => (s, Ok s).

Definition modify {S} (f : S -> S) : M S unit := fun s => (f s, Ok tt).

(** [try: body  except Exception as e: handler e] *)
Definition try_except {S A} (body : M S A) (handler : PyExn -> M S A)
  : M S A :=
  fun s =>
    match body s with
    | (s', Ok a) => (s', Ok a)
    | (s', Raise e) => handler e s'
    end.
End StateExn.

Notation "x <~ m ;; k" := (StateExn.bind m (fun x => k))
  (at level 100, m at next level, right associativity).
Notation "m ;;; k" := (StateExn.bind m (fun _ => k))
  (at level 100, right associativity).

(** ** Paths and strings *)

Definition slash : Ascii.ascii := Ascii.Ascii true true true true false true false false.

Fixpoint endswith_sep (s : string) : bool :=
  match s with
  | EmptyString => false
  | String c EmptyString => Ascii.eqb c slash
  | String _ s' => endswith_sep s'
  end.

(** [os.path.join(a, b)] of posixpath. *)
Definition os_path_join (a b : string) : string :=
  if String.prefix "/" b then b
  else if String.eqb a EmptyString || endswith_sep a then a ++ b
  else a ++ "/" ++ b.

Fixpoint has_sep (s : string) : bool :=
  match s with
  | EmptyString => false
  | String c s' => Ascii.eqb c slash || has_sep s'
  end.

(** [os.path.basename(p)]: what follows the last slash. *)
Fixpoint os_path_basename (p : string) : string :=
  match p with
  | EmptyString => EmptyString
  | String c p' =>
      if Ascii.eqb c slash then os_path_basename p'
      else if has_sep p' then os_path_basename p'
      else p
  end.

(** [sub in s] on strings. *)
Fixpoint contains (sub s : string) : bool :=
  String.prefix sub s ||
  match s with
  | EmptyString => false
  | String _ s' => contains sub s'
  end.

(** [l.sort(key=key, reverse=True)]: the sort is stable, and with
    [reverse=True] elements of equal key keep their original order. *)
Fixpoint insert_desc {A} (key : A -> Z) (x : A) (l : list A) : list A :=
  match l with
  | [] => [x]
  | y :: ys =>
      if (key y <=? key x)%Z then x :: y :: ys
      else y :: insert_desc key x ys
  end.

Definition sort_desc {A} (key : A -> Z) (l : list A) : list A :=
  foldr (insert_desc key) [] l.

Definition is_nil {A} (l : list A) : bool :=
  match l with [] => true | _ => false end.

(** The keys of [l.sort(key=key)]: they are computed for every element,
    in order, before anything is moved; the first error is raised. *)
Fixpoint sort_keys {A} (key : A -> Result Z) (l : list A) : Result (list Z) :=
  match l with
  | [] => Ok []
  | x :: rest =>
      k <-- key x ;;
      ks <-- sort_keys key rest ;;
      Ok (k :: ks)
  end.

(** [l.sort(key=key, reverse=True)], with a key that can raise. *)
Definition list_sort_reverse {A} (key : A -> Result Z) (l : list A)
  : Result (list A) :=
  keys <-- sort_keys key l ;;
  Ok (map snd (sort_desc fst (zip keys l))).

(** ** The model cache and [load_model] *)

(** The arguments of one [llama_cpp.Llama(...)] call; [n_gpu_layers] is
    [None] when the keyword is not passed. *)
Record LlamaArgs : Type := {
  model_path : string;
  embedding : bool;
  n_ctx : Z;
  verbose : bool;
  n_gpu_layers : option Z
}.

(** A constructed model: an object with an identity of its own. *)
Record Llama : Type := {
  obj_id : nat;
  llama_args : LlamaArgs
}.

(** The settings read with [config(...)] when the module is loaded. *)
Record Config : Type := {
  USE_RAMDISK : bool;
  RAMDISK_PATH : string;
  BASE_DIRECTORY : string;
  LLM_CONTEXT_SIZE_IN_TOKENS : Z;
  USE_VERBOSE : bool
}.

(** The global [embedding_model_cache], and the record of every
    [llama_cpp.Llama(...)] call made so far, oldest first. *)
Record ModelState : Type := {
  embedding_model_cache : gmap string Llama;
  llama_calls : list LlamaArgs
}.

(** What [load_model] obtains from outside: directory listing,
    modification times (ordered as the float timestamps are; [None] for a
    path that cannot be stat'ed, a dangling link for one, on which
    [os.path.getmtime] raises), the GPU probe's environment, and whether
    the n-th constructor call raises. *)
Record World : Type := {
  glob_glob : string -> list string;
  os_path_getmtime : string -> option Z;
  gpu_env : GpuEnv;
  llama_cpp_Llama : nat -> LlamaArgs -> option PyExn
}.

(** [os.path.getmtime(p)] *)
Definition getmtime_of (w : World) (p : string) : Result Z :=
  match os_path_getmtime w p with
  | Some t => Ok t
  | None => Raise (FileNotFoundError p)
  end.

(** The path can be stat'ed. *)
Definition can_stat (w : World) (p : string) : bool :=
  match os_path_getmtime w p with
  | Some _ => true
  | None => false
  end.

(** The modification time of a path that can be stat'ed; [load_model]
    never gets to compare a path that cannot. *)
Definition mtime_of (w : World) (p : string) : Z :=
  default 0 (os_path_getmtime w p).

(** One call of the constructor [llama_cpp.Llama] with arguments [a]. *)
Definition construct (w : World) (a : LlamaArgs) : M ModelState Llama :=
  fun st =>
    let n := length (llama_calls st) in
    let st' := {| embedding_model_cache := embedding_model_cache st;
                  llama_calls := llama_calls st ++ [a] |} in
    match llama_cpp_Llama w n a with
    | None => (st', Ok {| obj_id := n; llama_args := a |})
    | Some e => (st', Raise e)
    end.

(** [embedding_model_cache[name] = inst] *)
Definition cache_store (name : string) (inst : Llama) : M ModelState unit :=
  StateExn.modify (fun st =>
    {| embedding_model_cache := <[name := inst]> (embedding_model_cache st);
       llama_calls := llama_calls st |}).

Definition gpu_args (cfg : Config) (path : string) : LlamaArgs :=
  {| model_path := path; embedding := true;
     n_ctx := LLM_CONTEXT_SIZE_IN_TOKENS cfg; verbose := USE_VERBOSE cfg;
     n_gpu_layers := Some (-1)%Z |}.

Definition cpu_args (cfg : Config) (path : string) : LlamaArgs :=
  {| model_path := path; embedding := true;
     n_ctx := LLM_CONTEXT_SIZE_IN_TOKENS cfg; verbose := USE_VERBOSE cfg;
     n_gpu_layers := None |}.

Definition effective_models_dir (cfg : Config) : string :=
  if USE_RAMDISK cfg then os_path_join (RAMDISK_PATH cfg) "models"
  else os_path_join (BASE_DIRECTORY cfg) "models".

Definition model_pattern (cfg : Config) (llm_model_name : string) : string :=
  os_path_join (effective_models_dir cfg) (llm_model_name ++ "*").

(** The body of the [try] block of [load_model]. *)
Definition load_model_body (cfg : Config) (w : World) (llm_model_name : string)
  : M ModelState (option Llama) :=
  st <~ StateExn.get ;;
  match embedding_model_cache st !! llm_model_name with
  | Some cached => StateExn.ret (Some cached)
  | None =>
      let matching_files := glob_glob w (model_pattern cfg llm_model_name) in
      if is_nil matching_files then StateExn.raise (FileNotFoundError EmptyString)
      else
        matching_files <~
          StateExn.lift (list_sort_reverse (getmtime_of w) matching_files) ;;
        model_file_path <~ StateExn.lift (getitem0 matching_files) ;;
        gpu_info <~ StateExn.lift (is_gpu_available (gpu_env w)) ;;
        let is_llava_multimodal_model := contains "llava" llm_model_name in
        if negb is_llava_multimodal_model then
          gpu_found <~ StateExn.lift (getitem gpu_info "gpu_found") ;;
          model_instance <~
            (if truthy gpu_found then
               StateExn.try_except
                 (construct w (gpu_args cfg model_file_path))
                 (fun _ => construct w (cpu_args cfg model_file_path))
             else construct w (cpu_args cfg model_file_path)) ;;
          cache_store llm_model_name model_instance ;;;
          StateExn.ret (Some model_instance)
        else StateExn.ret None
  end.

(** [load_model(llm_model_name, raise_http_exception)]: [Ok None] is the
    Python value [None]. A [TypeError] is raised again as it is; any other
    exception becomes the not-found error. *)
Definition load_model (cfg : Config) (w : World) (llm_model_name : string)
    (raise_http_exception : bool) : M ModelState (option Llama) :=
  StateExn.try_except (load_model_body cfg w llm_model_name)
    (fun e =>
       if is_TypeError e then StateExn.raise e
       else if raise_http_exception then
         StateExn.raise (HTTPException 404 "Model file not found")
       else
         StateExn.raise
           (FileNotFoundError
              ("No model file found matching: " ++ llm_model_name))).

(** The file [load_model] picks among the matches: the first of the most
    recently modified ones. *)
Definition chosen_model_file (cfg : Config) (w : World)
    (llm_model_name : string) : string :=
  default EmptyString (head (sort_desc (mtime_of w)
                      (glob_glob w (model_pattern cfg llm_model_name)))).

(** The body of [load_model] past the cache check and the directory
    search, for a name that is not a llava model. *)
Definition construct_and_publish (cfg : Config) (w : World) (name : string)
  : M ModelState (option Llama) :=
  gpu_info <~ StateExn.lift (is_gpu_available (gpu_env w)) ;;
  gpu_found <~ StateExn.lift (getitem gpu_info "gpu_found") ;;
  model_instance <~
    (if truthy gpu_found then
       StateExn.try_except
         (construct w (gpu_args cfg (chosen_model_file cfg w name)))
         (fun _ => construct w (cpu_args cfg (chosen_model_file cfg w name)))
     else construct w (cpu_args cfg (chosen_model_file cfg w name))) ;;
  cache_store name model_instance ;;;
  StateExn.ret (Some model_instance).

(** The error [load_model] turns every exception but [TypeError] into. *)
Definition not_found_error (llm_model_name : string)
    (raise_http_exception : bool) : PyExn :=
  if raise_http_exception then HTTPException 404 "Model file not found"
  else FileNotFoundError ("No model file found matching: " ++ llm_model_name).

(** Every match of the name can be stat'ed. *)
Definition matches_can_be_stated (cfg : Config) (w : World)
    (llm_model_name : string) : bool :=
  forallb (can_stat w) (glob_glob w (model_pattern cfg llm_model_name)).

(** The probe reports a GPU. *)
Definition gpu_detected (g : GpuEnv) : Prop :=
  exists d, is_gpu_available g = Ok d /\ d !! "gpu_found" = Some (VBool true).

(** One later call of [load_model], made in whatever configuration and
    world the process is in by then. *)
Record Call : Type := {
  call_cfg : Config;
  call_world : World;
  call_name : string;
  call_raise_http_exception : bool
}.

(** The state after a sequence of [load_model] calls, whatever each call
    returned or raised. *)
Fixpoint run_calls (calls : list Call) (st : ModelState) : ModelState :=
  match calls with
  | [] => st
  | c :: rest =>
      run_calls rest
        (fst (load_model (call_cfg c) (call_world c) (call_name c)
                (call_raise_http_exception c) st))
  end.

(** *** Concrete worlds, to run the definitions on *)

Module Demo.
Definition cfg : Config :=
  {| USE_RAMDISK := false; RAMDISK_PATH := "/mnt/ramdisk";
     BASE_DIRECTORY := "/srv/app"; LLM_CONTEXT_SIZE_IN_TOKENS := 512;
     USE_VERBOSE := false |}.

Definition one_gpu : GpuEnv :=
  {| GPU_AVAILABLE := true;
     nvgpu_gpu_info := Ok [ {[ "mem_total" := SInt 24576 ]} ] |}.

(** A models directory holding two bge-m3 files and one llava file. *)
Definition glob (pattern : string) : list string :=
  if String.eqb pattern "/srv/app/models/bge-m3*" then
    ["/srv/app/models/bge-m3-q4_0.gguf"; "/srv/app/models/bge-m3-q8_0.gguf"]
  else if String.eqb pattern "/srv/app/models/llava-v1.5-7b*" then
    ["/srv/app/models/llava-v1.5-7b-Q4_K.gguf"]
  else [].

Definition getmtime (path : string) : Z :=
  if String.eqb path "/srv/app/models/bge-m3-q8_0.gguf" then 1700000500
  else 1700000000.

(** Construction with GPU layers fails, construction without succeeds. *)
Definition gpu_fails (n : nat) (a : LlamaArgs) : option PyExn :=
  match n_gpu_layers a with
  | Some _ => Some (RuntimeError "CUDA error: out of memory")
  | None => None
  end.

Definition always_fails (n : nat) (a : LlamaArgs) : option PyExn :=
  Some (RuntimeError "failed to load model from file").

Definition world (llama : nat -> LlamaArgs -> option PyExn) : World :=
  {| glob_glob := glob; os_path_getmtime := fun p => Some (getmtime p);
     gpu_env := one_gpu; llama_cpp_Llama := llama |}.

(** The same directory, where every match is a link whose target is gone:
    the listing shows it, it cannot be stat'ed. *)
Definition dangling_world : World :=
  {| glob_glob := glob; os_path_getmtime := fun _ => None;
     gpu_env := one_gpu; llama_cpp_Llama := fun _ _ => None |}.

(** The directory has been emptied since. *)
Definition empty_world : World :=
  {| glob_glob := fun _ => []; os_path_getmtime := fun _ => Some 0;
     gpu_env := one_gpu; llama_cpp_Llama := fun _ _ => None |}.

Definition st0 : ModelState :=
  {| embedding_model_cache := ∅; llama_calls := [] |}.

Definition bge_path : string := "/srv/app/models/bge-m3-q8_0.gguf".

Definition bge_handle : Llama :=
  {| obj_id := 1; llama_args := cpu_args cfg bge_path |}.

(** The state after [load_model("bge-m3")] in [world gpu_fails]. *)
Definition st1 : ModelState :=
  {| embedding_model_cache := {[ "bge-m3" := bge_handle ]};
     llama_calls := [gpu_args cfg bge_path; cpu_args cfg bge_path] |}.
End Demo.

(** ** The guarded download of model files *)

(** What a path of the file system holds: a directory, or a file with its
    size in bytes and, when its text is a JSON list of strings, that list. *)
Inductive Node : Type :=
| Dir
| File (size : Z) (json : option (list string)).

Abbreviation FS := (gmap string Node).

(** [os.path.exists(p)] *)
Definition os_path_exists (fs : FS) (p : string) : bool :=
  bool_decide (is_Some (fs !! p)).

Inductive Event : Type :=
| EvLockAcquire (lock_file : string) (timeout : Z) (acquired : bool)
| EvLockRelease (lock_file : string)
| EvDownload (url filename : string)
| EvRemove (filename : string).

(** The file system, and the record of the lock and download operations
    made so far, oldest first. *)
Record DlState : Type := {
  fs : FS;
  events : list Event
}.

(** What [download_models] obtains from outside. The first argument of an
    oracle is the number of events recorded before the call, so that the
    same request can be answered differently at different moments.
    [urlretrieve] answers the size of the file it wrote or the error it
    raised; [lock_acquire] whether the lock was obtained within the
    timeout; the two RAM disk helpers belong to [ramdisk_functions]. *)
Record DlWorld : Type := {
  urllib_request_urlretrieve : nat -> string -> string -> Result Z;
  lock_acquire : nat -> string -> Z -> bool;
  setup_ramdisk : FS -> Result FS;
  copy_models_to_ramdisk : string -> string -> FS -> Result FS
}.

Abbreviation Status := (gmap string string).

Definition set_fs (f : FS -> FS) : M DlState unit :=
  StateExn.modify (fun st => {| fs := f (fs st); events := events st |}).

Definition log_event (e : Event) : M DlState unit :=
  StateExn.modify (fun st => {| fs := fs st; events := events st ++ [e] |}).

(** [try: body  except Timeout: handler]; every other exception passes. *)
Definition try_except_Timeout {S A} (body : M S A) (handler : M S A) : M S A :=
  fun s =>
    match body s with
    | (s', Ok a) => (s', Ok a)
    | (s', Raise e) => if is_Timeout e then handler s' else (s', Raise e)
    end.

(** An attempt to take the lock creates the lock file, or empties it, as
    [filelock] opens it for writing before locking it. *)
Definition touch_lock_file (lock_file : string) (fs : FS) : FS :=
  match fs !! lock_file with
  | Some Dir => fs
  | _ => <[lock_file := File 0 None]> fs
  end.

(** [with lock.acquire(timeout=t): body]; the lock is released however the
    body ends. *)
Definition with_lock {A} (w : DlWorld) (lock_file : string) (t : Z)
    (body : M DlState A) : M DlState A :=
  fun st =>
    let acquired := lock_acquire w (length (events st)) lock_file t in
    let st1 := {| fs := touch_lock_file lock_file (fs st);
                  events := events st ++ [EvLockAcquire lock_file t acquired] |} in
    if acquired then
      let '(st2, res) := body st1 in
      ({| fs := fs st2; events := events st2 ++ [EvLockRelease lock_file] |},
       res)
    else (st1, Raise (Timeout lock_file)).

(** [urllib.request.urlretrieve(url, filename)] *)
Definition urlretrieve (w : DlWorld) (url filename : string) : M DlState unit :=
  fun st =>
    let st1 := {| fs := fs st; events := events st ++ [EvDownload url filename] |} in
    match urllib_request_urlretrieve w (length (events st)) url filename with
    | Ok size =>
        ({| fs := <[filename := File size None]> (fs st1);
            events := events st1 |}, Ok tt)
    | Raise e => (st1, Raise e)
    end.

(** [os.path.getsize(p)] *)
Definition os_path_getsize (p : string) : M DlState Z :=
  fun st =>
    match fs st !! p with
    | Some (File size _) => (st, Ok size)
    | Some Dir => (st, Ok 4096)
    | None => (st, Raise (FileNotFoundError p))
    end.

(** [os.remove(p)] *)
Definition os_remove (p : string) : M DlState unit :=
  fun st =>
    match fs st !! p with
    | Some (File _ _) =>
        ({| fs := delete p (fs st); events := events st ++ [EvRemove p] |},
         Ok tt)
    | Some Dir => (st, Raise (OSError p))
    | None => (st, Raise (FileNotFoundError p))
    end.

(** [os.path.getsize(filename) / (1024 * 1024) < 100]. The division is
    that of floats; dividing by a power of two is exact for every size
    below 2^53 bytes and rounds monotonically above, so the comparison is
    the one of the rationals. *)
Definition file_too_small (size_in_bytes : Z) : bool :=
  let file_size := (inject_Z size_in_bytes / inject_Z (1024 * 1024))%Q in
  if Qlt_le_dec file_size (inject_Z 100) then true else false.

Definition status_dict (url status message : string) : Status :=
  <["url" := url]> (<["status" := status]> (<["message" := message]> ∅)).

Definition lock_timeout_seconds : Z := 1200.

(** One turn of the loop of [download_models], for one URL and the file
    name taken from it. *)
Definition download_one (w : DlWorld) (models_dir lock_file : string)
    (url model_name_with_extension : string) : M DlState Status :=
  let status := status_dict url "success" "File already exists." in
  let filename := os_path_join models_dir model_name_with_extension in
  try_except_Timeout
    (with_lock w lock_file lock_timeout_seconds
       (st <~ StateExn.get ;;
        if negb (os_path_exists (fs st) filename) then
          urlretrieve w url filename ;;;
          size <~ os_path_getsize filename ;;
          if file_too_small size then
            os_remove filename ;;;
            StateExn.ret
              (<["message" :=
                   "Downloaded file is too small, probably not a valid model file."]>
                 (<["status" := "failure"]> status))
          else StateExn.ret status
        else StateExn.ret status))
    (StateExn.ret
       (<["message" := "Could not acquire lock for downloading."]>
          (<["status" := "failure"]> status))).

(** [for url, name in zip(urls, names): ... download_status.append(status)] *)
Fixpoint download_loop (w : DlWorld) (models_dir lock_file : string)
    (todo : list (string * string)) (download_status : list Status)
  : M DlState (list Status) :=
  match todo with
  | [] => StateExn.ret download_status
  | (url, name) :: rest =>
      status <~ download_one w models_dir lock_file url name ;;
      download_loop w models_dir lock_file rest (download_status ++ [status])
  end.

Definition initial_model_urls : list string :=
  ["https://huggingface.co/NousResearch/Hermes-2-Theta-Llama-3-8B-GGUF/resolve/main/Hermes-2-Pro-Llama-3-Instruct-Merged-DPO-Q4_K_M.gguf";
   "https://huggingface.co/QuantFactory/Meta-Llama-3-8B-Instruct-GGUF/resolve/main/Meta-Llama-3-8B-Instruct.Q3_K_S.gguf";
   "https://huggingface.co/vonjack/bge-m3-gguf/resolve/main/bge-m3-q8_0.gguf"].

(** The text [json.dump] writes for a list of plain strings. *)
Definition dquote : Ascii.ascii :=
  Ascii.Ascii false true false false false true false false.

Definition json_dump (l : list string) : string :=
  "[" ++ String.concat ", "
           (map (fun s => String dquote (s ++ String dquote EmptyString)) l)
      ++ "]".

(** [with open(json_path, "w") as f: json.dump(initial_model_urls, f)] *)
Definition write_initial_urls (json_path : string) : M DlState unit :=
  set_fs (fun fs =>
    <[json_path := File (Z.of_nat (String.length (json_dump initial_model_urls)))
                        (Some initial_model_urls)]> fs).

(** [with open(json_path, "r") as f: json.load(f)] *)
Definition read_urls (json_path : string) : M DlState (list string) :=
  fun st =>
    match fs st !! json_path with
    | Some (File _ (Some urls)) => (st, Ok urls)
    | Some (File _ None) => (st, Raise (ValueError "Expecting value"))
    | Some Dir => (st, Raise (OSError json_path))
    | None => (st, Raise (FileNotFoundError json_path))
    end.

(** [os.makedirs(d)] *)
Definition os_makedirs (d : string) : M DlState unit :=
  set_fs (fun fs => <[d := Dir]> fs).

Definition run_on_fs (f : FS -> Result FS) : M DlState unit :=
  fun st =>
    match f (fs st) with
    | Ok fs' => ({| fs := fs'; events := events st |}, Ok tt)
    | Raise e => (st, Raise e)
    end.

Definition models_dir_of (cfg : Config) : string :=
  os_path_join (BASE_DIRECTORY cfg) "models".

Definition lock_file_of (cfg : Config) : string :=
  os_path_join (models_dir_of cfg) "download.lock".

(** [download_models()]: the names of the model files and one status per
    URL. *)
Definition download_models (cfg : Config) (w : DlWorld)
  : M DlState (list string * list Status) :=
  let json_path := os_path_join (BASE_DIRECTORY cfg) "model_urls.json" in
  st <~ StateExn.get ;;
  (if negb (os_path_exists (fs st) json_path)
   then write_initial_urls json_path else StateExn.ret tt) ;;;
  list_of_model_download_urls <~ read_urls json_path ;;
  let model_names := map os_path_basename list_of_model_download_urls in
  let models_dir := models_dir_of cfg in
  let ramdisk_models_dir := os_path_join (RAMDISK_PATH cfg) "models" in
  found_in_ramdisk <~
    (if USE_RAMDISK cfg then
       st <~ StateExn.get ;;
       (if negb (os_path_exists (fs st) (RAMDISK_PATH cfg))
        then run_on_fs (setup_ramdisk w) else StateExn.ret tt) ;;;
       st <~ StateExn.get ;;
       StateExn.ret
         (forallb (fun llm_model_name =>
                     os_path_exists (fs st)
                       (os_path_join ramdisk_models_dir llm_model_name))
                  model_names)
     else StateExn.ret false) ;;
  if found_in_ramdisk : bool then
    StateExn.ret
      (model_names,
       map (fun url => status_dict url "success" "Model found in RAM Disk.")
           list_of_model_download_urls)
  else
    st <~ StateExn.get ;;
    (if negb (os_path_exists (fs st) models_dir)
     then os_makedirs models_dir else StateExn.ret tt) ;;;
    download_status <~
      download_loop w models_dir (lock_file_of cfg)
        (zip list_of_model_download_urls model_names) [] ;;
    (if USE_RAMDISK cfg
     then run_on_fs (copy_models_to_ramdisk w models_dir ramdisk_models_dir)
     else StateExn.ret tt) ;;;
    StateExn.ret (model_names, download_status).

(** The state in which the i-th URL is taken up: the state after the
    first [i] turns of the loop, when none of them raised. *)
Definition state_after_turns (w : DlWorld) (models_dir lock_file : string)
    (done_ : list (string * string)) (st : DlState) : option DlState :=
  match download_loop w models_dir lock_file done_ [] st with
  | (st', Ok _) => Some st'
  | (_, Raise _) => None
  end.

Module DemoDl.
Definition models_dir : string := "/srv/app/models".
Definition lock_file : string := "/srv/app/models/download.lock".
Definition url : string :=
  "https://huggingface.co/vonjack/bge-m3-gguf/resolve/main/bge-m3-q8_0.gguf".
Definition filename : string := "/srv/app/models/bge-m3-q8_0.gguf".

(** Every download yields [size] bytes; the lock is obtained iff
    [lock_ok]. *)
Definition world (size : Z) (lock_ok : bool) : DlWorld :=
  {| urllib_request_urlretrieve := fun _ _ _ => Ok size;
     lock_acquire := fun _ _ _ => lock_ok;
     setup_ramdisk := fun fs => Ok fs;
     copy_models_to_ramdisk := fun _ _ fs => Ok fs |}.

Definition fs_empty : FS :=
  {[ "/srv/app/model_urls.json" := File 78 (Some [url]);
     "/srv/app/models" := Dir ]}.

Definition fs_present : FS :=
  <[filename := File 635000000 None]> fs_empty.

Definition st_empty : DlState := {| fs := fs_empty; events := [] |}.
Definition st_present : DlState := {| fs := fs_present; events := [] |}.
End DemoDl.

Definition too_small_status (url : string) : Status :=
  <["message" :=
      "Downloaded file is too small, probably not a valid model file."]>
    (<["status" := "failure"]>
       (status_dict url "success" "File already exists.")).

Definition lock_timeout_status (url : string) : Status :=
  <["message" := "Could not acquire lock for downloading."]>
    (<["status" := "failure"]>
       (status_dict url "success" "File already exists.")).

Definition success_status (url : string) : Status :=
  status_dict url "success" "File already exists.".

(** The minimum size of a model file, in bytes: 100 MB. *)
Definition minimum_size_in_bytes : Z := 100 * 1024 * 1024.

(** The events a computation appended to the record. *)
Definition new_events (before after : DlState) : list Event :=
  drop (length (events before)) (events after).

(** ** Startup: [initialize_globals] *)

Record RedisPool : Type := { address : string }.

(** The lock manager: the Redis connections it was built over and the
    attributes of the object. *)
Record Aioredlock : Type := {
  redis_connections : list RedisPool;
  attributes : gmap string Scalar
}.

(** [lm.name = value] *)
Definition setattr (name : string) (value : Scalar) (lm : Aioredlock)
  : Aioredlock :=
  {| redis_connections := redis_connections lm;
     attributes := <[name := value]> (attributes lm) |}.

(** The indexes [build_faiss_indexes] returns and the items of the
    writer's queue are not looked into here. *)
Inductive Opaque : Type := opaque_value (id : nat).

(** [DatabaseWriter(queue)]: the object, with the queue it was built over.
    What [initialize_processing_hashes] does to the object happens inside
    the call, whose value [initialize_globals] does not use. *)
Record DatabaseWriter : Type := {
  queue : list Opaque
}.

Inductive Step : Type :=
| start_redis_server
| asyncio_sleep
| aioredis_create_redis_pool
| initialize_db
| initialize_processing_hashes
| setup_ramdisk_step
| download_models_step
| build_faiss_indexes.

(** What startup does, in order: calls that returned or raised, and tasks
    handed to the event loop. *)
Inductive StartupEvent : Type :=
| Returned (s : Step)
| Raised (s : Step)
| TaskCreated (coroutine : string).

(** The module's global variables, with the file system and the record of
    what startup has done so far. *)
Record Globals : Type := {
  config_now : Config;
  db_writer : option DatabaseWriter;
  redis : option RedisPool;
  lock_manager : option Aioredlock;
  faiss_indexes : option Opaque;
  associated_texts_by_model_and_pooling_method : option Opaque;
  disk : DlState;
  trace : list StartupEvent
}.

(** What startup obtains from the other modules and from outside. *)
Record StartupWorld : Type := {
  is_redis_running : bool;
  start_redis_server_result : Result unit;
  create_redis_pool_result : string -> Result RedisPool;
  Aioredlock_new : list RedisPool -> Aioredlock;
  initialize_db_result : Result unit;
  initialize_processing_hashes_result : Result unit;
  check_that_user_has_required_permissions_to_manage_ramdisks : bool;
  dl_world : DlWorld;
  build_faiss_indexes_result : Result (Opaque * Opaque)
}.

Definition log_startup (e : StartupEvent) : M Globals unit :=
  StateExn.modify (fun g =>
    {| config_now := config_now g; db_writer := db_writer g; redis := redis g;
       lock_manager := lock_manager g; faiss_indexes := faiss_indexes g;
       associated_texts_by_model_and_pooling_method :=
         associated_texts_by_model_and_pooling_method g;
       disk := disk g; trace := trace g ++ [e] |}).

(** A call of a collaborator, recorded with its outcome. *)
Definition call {A} (s : Step) (outcome : Result A) : M Globals A :=
  match outcome with
  | Ok a => log_startup (Returned s) ;;; StateExn.ret a
  | Raise e => log_startup (Raised s) ;;; StateExn.raise e
  end.

Definition set_redis (p : RedisPool) : M Globals unit :=
  StateExn.modify (fun g =>
    {| config_now := config_now g; db_writer := db_writer g; redis := Some p;
       lock_manager := lock_manager g; faiss_indexes := faiss_indexes g;
       associated_texts_by_model_and_pooling_method :=
         associated_texts_by_model_and_pooling_method g;
       disk := disk g; trace := trace g |}).

Definition set_lock_manager (lm : Aioredlock) : M Globals unit :=
  StateExn.modify (fun g =>
    {| config_now := config_now g; db_writer := db_writer g; redis := redis g;
       lock_manager := Some lm; faiss_indexes := faiss_indexes g;
       associated_texts_by_model_and_pooling_method :=
         associated_texts_by_model_and_pooling_method g;
       disk := disk g; trace := trace g |}).

(** [lock_manager.name = value], on the global object. *)
Definition lock_manager_setattr (name : string) (value : Scalar)
  : M Globals unit :=
  g <~ StateExn.get ;;
  match lock_manager g with
  | Some lm => set_lock_manager (setattr name value lm)
  | None =>
      StateExn.raise
        (RuntimeError "'NoneType' object has no attribute")
  end.

Definition set_db_writer (d : DatabaseWriter) : M Globals unit :=
  StateExn.modify (fun g =>
    {| config_now := config_now g; db_writer := Some d; redis := redis g;
       lock_manager := lock_manager g; faiss_indexes := faiss_indexes g;
       associated_texts_by_model_and_pooling_method :=
         associated_texts_by_model_and_pooling_method g;
       disk := disk g; trace := trace g |}).

Definition set_USE_RAMDISK (b : bool) : M Globals unit :=
  StateExn.modify (fun g =>
    {| config_now :=
         {| USE_RAMDISK := b;
            RAMDISK_PATH := RAMDISK_PATH (config_now g);
            BASE_DIRECTORY := BASE_DIRECTORY (config_now g);
            LLM_CONTEXT_SIZE_IN_TOKENS :=
              LLM_CONTEXT_SIZE_IN_TOKENS (config_now g);
            USE_VERBOSE := USE_VERBOSE (config_now g) |};
       db_writer := db_writer g; redis := redis g;
       lock_manager := lock_manager g; faiss_indexes := faiss_indexes g;
       associated_texts_by_model_and_pooling_method :=
         associated_texts_by_model_and_pooling_method g;
       disk := disk g; trace := trace g |}).

Definition set_faiss (indexes texts : Opaque) : M Globals unit :=
  StateExn.modify (fun g =>
    {| config_now := config_now g; db_writer := db_writer g; redis := redis g;
       lock_manager := lock_manager g; faiss_indexes := Some indexes;
       associated_texts_by_model_and_pooling_method := Some texts;
       disk := disk g; trace := trace g |}).

(** A computation on the file system, run on the one of the globals and
    recorded with its outcome. *)
Definition on_disk {A} (s : Step) (m : M DlState A) : M Globals A :=
  fun g =>
    let '(d, r) := m (disk g) in
    call s r
      {| config_now := config_now g; db_writer := db_writer g;
         redis := redis g; lock_manager := lock_manager g;
         faiss_indexes := faiss_indexes g;
         associated_texts_by_model_and_pooling_method :=
           associated_texts_by_model_and_pooling_method g;
         disk := d; trace := trace g |}.

(** [await initialize_globals()] *)
Definition initialize_globals (w : StartupWorld) : M Globals unit :=
  (if negb (is_redis_running w) then
     call start_redis_server (start_redis_server_result w) ;;;
     call asyncio_sleep (Ok tt)
   else StateExn.ret tt) ;;;
  pool <~ call aioredis_create_redis_pool
            (create_redis_pool_result w "redis://localhost") ;;
  set_redis pool ;;;
  set_lock_manager (Aioredlock_new w [pool]) ;;;
  lock_manager_setattr "default_lock_timeout" (SInt 20000) ;;;
  lock_manager_setattr "retry_count" (SInt 5) ;;;
  lock_manager_setattr "retry_delay_min" (SInt 100) ;;;
  lock_manager_setattr "retry_delay_max" (SInt 1000) ;;;
  call initialize_db (initialize_db_result w) ;;;
  let queue := [] in
  set_db_writer {| queue := queue |} ;;;
  call initialize_processing_hashes
    (initialize_processing_hashes_result w) ;;;
  log_startup (TaskCreated "dedicated_db_writer") ;;;
  g <~ StateExn.get ;;
  (if USE_RAMDISK (config_now g) &&
      negb (check_that_user_has_required_permissions_to_manage_ramdisks w)
   then set_USE_RAMDISK false
   else if USE_RAMDISK (config_now g)
   then on_disk setup_ramdisk_step (run_on_fs (setup_ramdisk (dl_world w)))
   else StateExn.ret tt) ;;;
  g <~ StateExn.get ;;
  on_disk download_models_step
    (download_models (config_now g) (dl_world w)) ;;;
  indexes <~ call build_faiss_indexes (build_faiss_indexes_result w) ;;
  set_faiss (fst indexes) (snd indexes).

(** The events startup appended to the record. *)
Definition new_trace (before after : Globals) : list StartupEvent :=
  drop (length (trace before)) (trace after).

(** The attributes the lock manager is given at startup. *)
Definition lock_manager_configured (lm : Aioredlock) : Prop :=
  attributes lm !! "default_lock_timeout" = Some (SInt 20000) /\
  attributes lm !! "retry_count" = Some (SInt 5) /\
  attributes lm !! "retry_delay_min" = Some (SInt 100) /\
  attributes lm !! "retry_delay_max" = Some (SInt 1000).

Module DemoStartup.
Definition world (hashes : Result unit) : StartupWorld :=
  {| is_redis_running := false;
     start_redis_server_result := Ok tt;
     create_redis_pool_result := fun a => Ok {| address := a |};
     Aioredlock_new := fun pools =>
       {| redis_connections := pools;
          attributes := {[ "retry_count" := SInt 3 ]} |};
     initialize_db_result := Ok tt;
     initialize_processing_hashes_result := hashes;
     check_that_user_has_required_permissions_to_manage_ramdisks := false;
     dl_world := DemoDl.world 635000000 true;
     build_faiss_indexes_result := Ok (opaque_value 0, opaque_value 1) |}.

Definition g0 : Globals :=
  {| config_now := Demo.cfg; db_writer := None; redis := None;
     lock_manager := None; faiss_indexes := None;
     associated_texts_by_model_and_pooling_method := None;
     disk := DemoDl.st_empty; trace := [] |}.
End DemoStartup.

(** A check of a record of startup events: every task creation comes
    after the return of [initialize_processing_hashes]. *)
Fixpoint writer_after_init (seen : bool) (evs : list StartupEvent) : bool :=
  match evs with
  | [] => true
  | Returned initialize_processing_hashes :: rest => writer_after_init true rest
  | TaskCreated _ :: rest => seen && writer_after_init seen rest
  | _ :: rest => writer_after_init seen rest
  end.

Fixpoint no_task_created (evs : list StartupEvent) : bool :=
  match evs with
  | [] => true
  | TaskCreated _ :: _ => false
  | _ :: rest => no_task_created rest
  end.

(** The calls that have returned when [initialize_globals] gets to
    [db_writer.initialize_processing_hashes()]. *)
Definition steps_before_dedup_index (w : StartupWorld) : list StartupEvent :=
  ((if is_redis_running w then []
    else [Returned start_redis_server; Returned asyncio_sleep])
   ++ [Returned aioredis_create_redis_pool; Returned initialize_db])%list.

(** ** The registration of the expiry sweep *)

(** The one effect that matters here: expired rows are deleted. *)
Inductive Effect : Type := DeleteExpiredRows.

(** A Python object handed to the scheduler, with what calling it does
    when it can be called. *)
Inductive PyObject : Type :=
| PyNone
| PyCoroutine (body : list Effect)
| PyCallable (body : list Effect).

(** A job of the scheduler: what it runs and every how many seconds. *)
Record Job : Type := {
  func : list Effect;
  interval_seconds : Z
}.

Record Scheduler : Type := {
  jobs : list Job;
  running : bool
}.

(** [AsyncIOScheduler()] *)
Definition AsyncIOScheduler : Scheduler := {| jobs := []; running := false |}.

(** [scheduler.add_job(obj, 'interval', hours=h)]: APScheduler refuses an
    object that cannot be called. *)
Definition add_job (obj : PyObject) (hours : Z) (s : Scheduler)
  : Result Scheduler :=
  match obj with
  | PyCallable body =>
      Ok {| jobs := jobs s ++ [{| func := body;
                                  interval_seconds := hours * 3600 |}];
            running := running s |}
  | _ => Raise (TypeError "func must be a callable or a textual reference to one")
  end.

(** [scheduler.start()] *)
Definition scheduler_start (s : Scheduler) : Scheduler :=
  {| jobs := jobs s; running := true |}.

(** What happened, with the time in seconds since the module was loaded. *)
Abbreviation Timeline := (list (Z * Effect)).

(** The first [n] runs of a job under APScheduler's interval trigger: one
    run at the end of each interval, none at registration. *)
Definition job_runs (n : nat) (j : Job) : Timeline :=
  flat_map (fun k => map (fun e => (Z.of_nat k * interval_seconds j, e)) (func j))
           (seq 1 n).

Definition scheduler_runs (n : nat) (s : Scheduler) : Timeline :=
  if running s then flat_map (job_runs n) (jobs s) else [].

Section ExpirySweep.
(** [delete_expired_rows], of [database_functions]: what calling it
    does at once, and the object it returns. *)
Context {SessionFactory : Type}
        (delete_expired_rows : SessionFactory -> list Effect * PyObject)
        (AsyncSessionLocal : SessionFactory).

(** The statements run when the module is loaded: the argument of
    [add_job] is evaluated there and then. *)
Definition register_expiry_sweep
    (USE_AUTOMATIC_PURGING_OF_EXPIRED_RECORDS : bool)
  : Timeline * Result (option Scheduler) :=
  if USE_AUTOMATIC_PURGING_OF_EXPIRED_RECORDS then
    let scheduler := AsyncIOScheduler in
    let '(effects, job) := delete_expired_rows AsyncSessionLocal in
    (map (fun e => (0, e)) effects,
     scheduler <-- add_job job 1 scheduler ;;
     Ok (Some (scheduler_start scheduler)))
  else ([], Ok None).

(** Everything that deletes rows up to the end of the [n]-th interval. *)
Definition sweep_timeline (USE_AUTOMATIC_PURGING_OF_EXPIRED_RECORDS : bool)
    (n : nat) : Timeline :=
  let '(at_registration, r) :=
    register_expiry_sweep USE_AUTOMATIC_PURGING_OF_EXPIRED_RECORDS in
  at_registration ++
  match r with
  | Ok (Some scheduler) => scheduler_runs n scheduler
  | _ => []
  end.
End ExpirySweep.

(** Modelled from the spec: [delete_expired_rows] belongs to
    [database_functions], which is not among the sources. The module hands
    the value of [delete_expired_rows(AsyncSessionLocal)] to [add_job],
    which takes nothing but a callable, and the spec has the sweep as a
    callable that is registered and invoked anew each interval, to delete
    the expired records: the function is taken to delete nothing when it
    is called and to return the operation that does. *)
Definition delete_expired_rows_factory (session_factory : unit)
  : list Effect * PyObject :=
  ([], PyCallable [DeleteExpiredRows]).

(** The state in which the loop of [download_models] starts: the models
    directory has been created if it was not there. *)
Definition state_before_loop (cfg : Config) (st : DlState) : DlState :=
  if os_path_exists (fs st) (models_dir_of cfg) then st
  else {| fs := <[models_dir_of cfg := Dir]> (fs st); events := events st |}.

(** ** Further definitions, for the properties beyond the claims *)

(** The integer a scalar counts as in a sum, when it counts as one. *)
Definition scalar_int (v : Scalar) : option Z :=
  match v with
  | SInt n => Some n
  | SBool b => Some (Z.b2z b)
  | SStr _ => None
  end.

(** The memory an entry of [nvgpu.gpu_info()] reports, when the entry has
    the key 'mem_total' with a number under it. *)
Definition mem_total_of (gpu : GpuDict) : option Z :=
  match gpu !! "mem_total" with
  | Some v => scalar_int v
  | None => None
  end.

Definition sum_Z (l : list Z) : Z := foldr Z.add 0 l.

(** The answer of the probe when it reports a GPU. *)
Definition gpu_dict (gpu_info : list GpuDict) (first_gpu_vram : Scalar)
    (total_vram : Z) : PyDict :=
  <["gpu_found" := VBool true]>
  (<["num_gpus" := VInt (Z.of_nat (length gpu_info))]>
  (<["first_gpu_vram" := VScalar first_gpu_vram]>
  (<["total_vram" := VInt total_vram]>
  (<["gpu_info" := VGpuList gpu_info]> ∅)))).

Module DemoGpu.
(** Two GPUs with their memory. *)
Definition two_gpus : GpuEnv :=
  {| GPU_AVAILABLE := true;
     nvgpu_gpu_info :=
       Ok [ {[ "mem_total" := SInt 24576 ]}; {[ "mem_total" := SInt 8192 ]} ] |}.

(** Two GPUs, the second entry without 'mem_total'. *)
Definition broken_entry : GpuEnv :=
  {| GPU_AVAILABLE := true;
     nvgpu_gpu_info :=
       Ok [ {[ "mem_total" := SInt 24576 ]}; {[ "index" := SInt 1 ]} ] |}.
End DemoGpu.

(** The truth value [load_model] reads under 'gpu_found'. *)
Definition gpu_found_now (g : GpuEnv) : bool :=
  match is_gpu_available g with
  | Ok d =>
      match d !! "gpu_found" with
      | Some v => truthy v
      | None => false
      end
  | Raise _ => false
  end.

(** The state after one more constructor call, with or without a new
    cache entry. *)
Definition after_calls (st : ModelState) (calls : list LlamaArgs)
    (entry : option (string * Llama)) : ModelState :=
  {| embedding_model_cache :=
       match entry with
       | Some (name, h) => <[name := h]> (embedding_model_cache st)
       | None => embedding_model_cache st
       end;
     llama_calls := llama_calls st ++ calls |}.

(** What the construction step of [load_model] comes to, written out by
    the answers of the constructor. *)
Definition construct_outcome (cfg : Config) (w : World) (name : string)
    (st : ModelState) : ModelState * Result (option Llama) :=
  let path := chosen_model_file cfg w name in
  let n := length (llama_calls st) in
  let with_gpu := gpu_args cfg path in
  let without_gpu := cpu_args cfg path in
  if gpu_found_now (gpu_env w) then
    match llama_cpp_Llama w n with_gpu with
    | None =>
        let h := {| obj_id := n; llama_args := with_gpu |} in
        (after_calls st [with_gpu] (Some (name, h)), Ok (Some h))
    | Some _ =>
        match llama_cpp_Llama w (S n) without_gpu with
        | None =>
            let h := {| obj_id := S n; llama_args := without_gpu |} in
            (after_calls st [with_gpu; without_gpu] (Some (name, h)),
             Ok (Some h))
        | Some e => (after_calls st [with_gpu; without_gpu] None, Raise e)
        end
    end
  else
    match llama_cpp_Llama w n without_gpu with
    | None =>
        let h := {| obj_id := n; llama_args := without_gpu |} in
        (after_calls st [without_gpu] (Some (name, h)), Ok (Some h))
    | Some e => (after_calls st [without_gpu] None, Raise e)
    end.

(** The outer handler of [load_model], on a result. *)
Definition handle_load_error (name : string) (r : bool)
    (res : Result (option Llama)) : Result (option Llama) :=
  match res with
  | Ok v => Ok v
  | Raise e => Raise (if is_TypeError e then e else not_found_error name r)
  end.

(** No name in the cache contains 'llava'. *)
Definition no_llava_cached (st : ModelState) : Prop :=
  forall k, is_Some (embedding_model_cache st !! k) ->
            contains "llava" k = false.

Module DemoCpu.
(** The world of [Demo], without nvgpu. *)
Definition no_gpu : GpuEnv :=
  {| GPU_AVAILABLE := false; nvgpu_gpu_info := Ok [] |}.

Definition world (llama : nat -> LlamaArgs -> option PyExn) : World :=
  {| glob_glob := Demo.glob;
     os_path_getmtime := fun p => Some (Demo.getmtime p);
     gpu_env := no_gpu; llama_cpp_Llama := llama |}.

Definition out_of_memory (n : nat) (a : LlamaArgs) : option PyExn :=
  Some (RuntimeError "failed to allocate buffer").
End DemoCpu.

(** [load_model], written out by cases. *)
Definition load_model_outcome (cfg : Config) (w : World) (name : string)
    (r : bool) (st : ModelState) : ModelState * Result (option Llama) :=
  match embedding_model_cache st !! name with
  | Some h => (st, Ok (Some h))
  | None =>
      if is_nil (glob_glob w (model_pattern cfg name)) then
        (st, Raise (not_found_error name r))
      else if negb (matches_can_be_stated cfg w name) then
        (st, Raise (not_found_error name r))
      else if contains "llava" name then (st, Ok None)
      else
        (fst (construct_outcome cfg w name st),
         handle_load_error name r (snd (construct_outcome cfg w name st)))
  end.

(** The constructor calls [load_model] made. *)
Definition new_calls (before after : ModelState) : list LlamaArgs :=
  drop (length (llama_calls before)) (llama_calls after).

(** One turn of the loop of [download_models], written out by the answers
    of the lock and of the download. *)
Definition download_one_outcome (w : DlWorld) (models_dir lock_file : string)
    (url name : string) (st : DlState) : DlState * Result Status :=
  let filename := os_path_join models_dir name in
  let fs1 := touch_lock_file lock_file (fs st) in
  let n := length (events st) in
  let acquire := EvLockAcquire lock_file 1200 in
  let release := EvLockRelease lock_file in
  if lock_acquire w n lock_file 1200 then
    if os_path_exists fs1 filename then
      ({| fs := fs1; events := events st ++ [acquire true; release] |},
       Ok (success_status url))
    else
      match urllib_request_urlretrieve w (S n) url filename with
      | Ok size =>
          if (size <? minimum_size_in_bytes)%Z then
            ({| fs := delete filename (<[filename := File size None]> fs1);
                events := events st ++ [acquire true; EvDownload url filename;
                                        EvRemove filename; release] |},
             Ok (too_small_status url))
          else
            ({| fs := <[filename := File size None]> fs1;
                events := events st ++ [acquire true; EvDownload url filename;
                                        release] |},
             Ok (success_status url))
      | Raise e =>
          ({| fs := fs1;
              events := events st ++ [acquire true; EvDownload url filename;
                                      release] |},
           if is_Timeout e then Ok (lock_timeout_status url) else Raise e)
      end
  else
    ({| fs := fs1; events := events st ++ [acquire false] |},
     Ok (lock_timeout_status url)).

(** A check of a record of events against the discipline of the lock:
    the lock is taken only when it is not held, released only when it is,
    and files are downloaded or removed only while it is held. The answer
    is whether the lock is held at the end, or [None] if the record breaks
    the discipline. *)
Fixpoint lock_discipline (held : bool) (evs : list Event) : option bool :=
  match evs with
  | [] => Some held
  | EvLockAcquire _ _ acquired :: rest =>
      if held then None else lock_discipline acquired rest
  | EvLockRelease _ :: rest =>
      if held then lock_discipline false rest else None
  | EvDownload _ _ :: rest | EvRemove _ :: rest =>
      if held then lock_discipline true rest else None
  end.

(** Every lock event is for the given lock file, with the timeout of 1200
    seconds. *)
Definition on_lock (lock_file : string) (ev : Event) : Prop :=
  match ev with
  | EvLockAcquire f t _ => f = lock_file /\ t = 1200
  | EvLockRelease f => f = lock_file
  | _ => True
  end.

Module DemoFail.
(** The transfer breaks off. *)
Definition world : DlWorld :=
  {| urllib_request_urlretrieve := fun _ _ _ =>
       Raise (URLError "Connection reset by peer");
     lock_acquire := fun _ _ _ => true;
     setup_ramdisk := fun fs => Ok fs;
     copy_models_to_ramdisk := fun _ _ fs => Ok fs |}.

(** The first download is too small, the later ones are not. *)
Definition second_try : DlWorld :=
  {| urllib_request_urlretrieve := fun n _ _ =>
       if (n <? 3)%nat then Ok 5000 else Ok 635000000;
     lock_acquire := fun _ _ _ => true;
     setup_ramdisk := fun fs => Ok fs;
     copy_models_to_ramdisk := fun _ _ fs => Ok fs |}.
End DemoFail.

(** The URLs [download_models] works on: those of model_urls.json, or the
    three initial ones when the file is not there; none when the path
    holds something else. *)
Definition configured_urls (cfg : Config) (st : DlState)
  : option (list string) :=
  match fs st !! os_path_join (BASE_DIRECTORY cfg) "model_urls.json" with
  | None => Some initial_model_urls
  | Some (File _ (Some urls)) => Some urls
  | Some _ => None
  end.

(** The state once [download_models] has made sure of model_urls.json:
    the file is written, with the three initial URLs, when it is not there;
    otherwise nothing changes. *)
Definition state_with_url_list (cfg : Config) (st : DlState) : DlState :=
  if os_path_exists (fs st) (os_path_join (BASE_DIRECTORY cfg) "model_urls.json")
  then st
  else {| fs := <[os_path_join (BASE_DIRECTORY cfg) "model_urls.json" :=
                    File (Z.of_nat (String.length
                                      (json_dump initial_model_urls)))
                         (Some initial_model_urls)]> (fs st);
          events := events st |}.

(** Every download and removal of the record is for the file of a pair
    of the list: the models directory joined with the name. *)
Definition targets_of (models_dir : string) (todo : list (string * string))
    (ev : Event) : Prop :=
  match ev with
  | EvDownload u f =>
      exists name, (u, name) ∈ todo /\ f = os_path_join models_dir name
  | EvRemove f =>
      exists u name, (u, name) ∈ todo /\ f = os_path_join models_dir name
  | _ => True
  end.

(** Every path other than [but] that held something still holds it. *)
Definition files_kept (but : string) (st st' : DlState) : Prop :=
  forall p node, p <> but -> fs st !! p = Some node -> fs st' !! p = Some node.

Module DemoRam.
Definition cfg : Config :=
  {| USE_RAMDISK := true; RAMDISK_PATH := "/mnt/ramdisk";
     BASE_DIRECTORY := "/srv/app"; LLM_CONTEXT_SIZE_IN_TOKENS := 512;
     USE_VERBOSE := false |}.

Definition st : DlState :=
  {| fs := {[ "/srv/app/model_urls.json" := File 78 (Some [DemoDl.url]);
              "/mnt/ramdisk" := Dir;
              "/mnt/ramdisk/models/bge-m3-q8_0.gguf" := File 635000000 None ]};
     events := [] |}.
End DemoRam.

(** Every download and removal of the record is for the models directory
    joined with the last component of one of the URLs, a name with no
    separator in it. *)
Definition in_models_dir (models_dir : string) (urls : list string)
    (ev : Event) : Prop :=
  match ev with
  | EvDownload u f =>
      u ∈ urls /\ f = os_path_join models_dir (os_path_basename u) /\
      has_sep (os_path_basename u) = false
  | EvRemove f =>
      exists u, u ∈ urls /\ f = os_path_join models_dir (os_path_basename u) /\
                has_sep (os_path_basename u) = false
  | _ => True
  end.

(** A record of startup events without a failure. *)
Fixpoint no_failure (evs : list StartupEvent) : bool :=
  match evs with
  | [] => true
  | Raised _ :: _ => false
  | _ :: rest => no_failure rest
  end.

(** A record of startup events whose last event, and no other, is a
    failure. *)
Fixpoint ends_in_failure (evs : list StartupEvent) : bool :=
  match evs with
  | [] => false
  | Raised _ :: rest => is_nil rest
  | _ :: rest => ends_in_failure rest
  end.

Definition is_failure (ev : StartupEvent) : Prop :=
  match ev with Raised _ => True | _ => False end.

(** The event is about starting Redis. *)
Definition about_starting_redis (ev : StartupEvent) : Prop :=
  match ev with
  | Returned start_redis_server | Raised start_redis_server
  | Returned asyncio_sleep | Raised asyncio_sleep => True
  | _ => False
  end.

(** The event is about setting up the RAM disk. *)
Definition about_ramdisk_setup (ev : StartupEvent) : Prop :=
  match ev with
  | Returned setup_ramdisk_step | Raised setup_ramdisk_step => True
  | _ => False
  end.

(** The lock manager as startup leaves it, over the given connection. *)
Definition configured_lock_manager (w : StartupWorld) (pool : RedisPool)
  : Aioredlock :=
  setattr "retry_delay_max" (SInt 1000)
    (setattr "retry_delay_min" (SInt 100)
       (setattr "retry_count" (SInt 5)
          (setattr "default_lock_timeout" (SInt 20000)
             (Aioredlock_new w [pool])))).

Module DemoStartup2.
(** Redis is running, the RAM disk is wanted but not permitted. *)
Definition world : StartupWorld :=
  {| is_redis_running := true;
     start_redis_server_result := Ok tt;
     create_redis_pool_result := fun a => Ok {| address := a |};
     Aioredlock_new := fun pools =>
       {| redis_connections := pools; attributes := ∅ |};
     initialize_db_result := Ok tt;
     initialize_processing_hashes_result := Ok tt;
     check_that_user_has_required_permissions_to_manage_ramdisks := false;
     dl_world := DemoDl.world 635000000 true;
     build_faiss_indexes_result := Ok (opaque_value 0, opaque_value 1) |}.

Definition g0 : Globals :=
  {| config_now := DemoRam.cfg; db_writer := None; redis := None;
     lock_manager := None; faiss_indexes := None;
     associated_texts_by_model_and_pooling_method := None;
     disk := DemoDl.st_empty; trace := [] |}.
End DemoStartup2.

(** What the collaborator of a step raised, for the steps whose outcome
    is an answer of the world. *)
Definition blamed (w : StartupWorld) (s : Step) (e : PyExn) : Prop :=
  match s with
  | start_redis_server => start_redis_server_result w = Raise e
  | aioredis_create_redis_pool =>
      create_redis_pool_result w "redis://localhost" = Raise e
  | initialize_db => initialize_db_result w = Raise e
  | initialize_processing_hashes =>
      initialize_processing_hashes_result w = Raise e
  | build_faiss_indexes => build_faiss_indexes_result w = Raise e
  | setup_ramdisk_step | download_models_step => True
  | asyncio_sleep => False
  end.

(** How a record of startup events fits the result of startup. *)
Definition fails_fast (w : StartupWorld) (evs : list StartupEvent)
    (res : Result unit) : Prop :=
  match res with
  | Ok _ => no_failure evs = true
  | Raise e =>
      ends_in_failure evs = true /\
      exists s, last evs = Some (Raised s) /\ blamed w s e
  end.

Fixpoint no_redis_start (evs : list StartupEvent) : bool :=
  match evs with
  | [] => true
  | Returned start_redis_server :: _ | Raised start_redis_server :: _
  | Returned asyncio_sleep :: _ | Raised asyncio_sleep :: _ => false
  | _ :: rest => no_redis_start rest
  end.

Fixpoint no_ramdisk_setup (evs : list StartupEvent) : bool :=
  match evs with
  | [] => true
  | Returned setup_ramdisk_step :: _ | Raised setup_ramdisk_step :: _ => false
  | _ :: rest => no_ramdisk_setup rest
  end.

(** How a record of startup events fits the state of Redis. *)
Definition redis_start_as_needed (w : StartupWorld)
    (evs : list StartupEvent) : Prop :=
  if is_redis_running w then no_redis_start evs = true
  else
    match start_redis_server_result w with
    | Ok _ =>
        exists rest,
          evs = Returned start_redis_server :: Returned asyncio_sleep :: rest /\
          no_redis_start rest = true
    | Raise _ => evs = [Raised start_redis_server]
    end.

(** The settings other than [USE_RAMDISK] are the same. *)
Definition same_but_ramdisk (c c' : Config) : Prop :=
  RAMDISK_PATH c' = RAMDISK_PATH c /\
  BASE_DIRECTORY c' = BASE_DIRECTORY c /\
  LLM_CONTEXT_SIZE_IN_TOKENS c' = LLM_CONTEXT_SIZE_IN_TOKENS c /\
  USE_VERBOSE c' = USE_VERBOSE c.

(** The last character of a string. *)
Fixpoint string_last (s : string) : option Ascii.ascii :=
  match s with
  | EmptyString => None
  | String c EmptyString => Some c
  | String _ s' => string_last s'
  end.

(** The record of events grows by a stretch that keeps the discipline of
    the lock and leaves the lock free. *)
Definition lock_kept (lock_file : string) (st st' : DlState) : Prop :=
  exists evs,
    events st' = (events st ++ evs)%list /\
    lock_discipline false evs = Some false /\
    Forall (on_lock lock_file) evs.

Lemma no_gpu_dict_well_formed : well_formed_gpu_dict no_gpu_dict.
Proof.
  unfold well_formed_gpu_dict, no_gpu_dict.
  split; [exists false|]; repeat split; by simplify_map_eq.
Qed.

Lemma error_dict_well_formed (msg : string) :
  well_formed_gpu_dict (<["error" := VStr msg]> no_gpu_dict).
Proof.
  unfold well_formed_gpu_dict, no_gpu_dict.
  split; [exists false|]; repeat split; by simplify_map_eq.
Qed.

(** C10. [is_gpu_available] is total: whatever the environment (nvgpu not
    importable, no GPU reported, the query raising, malformed entries), it
    returns a dictionary with the boolean key 'gpu_found' and the keys
    'num_gpus', 'first_gpu_vram' and 'total_vram'; it never raises. *)
Theorem is_gpu_available_total (g : GpuEnv) :
  exists d : PyDict,
    is_gpu_available g = Ok d /\
    (exists b, d !! "gpu_found" = Some (VBool b)) /\
    is_Some (d !! "num_gpus") /\
    is_Some (d !! "first_gpu_vram") /\
    is_Some (d !! "total_vram").
Proof.
  unfold is_gpu_available.
  destruct (GPU_AVAILABLE g); simpl.
  - destruct (nvgpu_gpu_info g) as [gpu_info|e]; simpl.
    + destruct (Z.of_nat (length gpu_info) =? 0)%Z eqn:Hn.
      * eexists; split; [reflexivity | apply no_gpu_dict_well_formed].
      * destruct (getitem0 gpu_info) as [first|e1]; simpl;
          [|eexists; split; [reflexivity | apply error_dict_well_formed]].
        destruct (getitem first "mem_total") as [v|e2]; simpl;
          [|eexists; split; [reflexivity | apply error_dict_well_formed]].
        destruct (sum_mem_total 0 gpu_info) as [t|e3]; simpl;
          [|eexists; split; [reflexivity | apply error_dict_well_formed]].
        eexists; split; [reflexivity|].
        split; [exists true|]; repeat split; by simplify_map_eq.
    + eexists; split; [reflexivity | apply error_dict_well_formed].
  - eexists; split; [reflexivity | apply error_dict_well_formed].
Qed.

(** The probe never raises. *)
Lemma is_gpu_available_returns (g : GpuEnv) :
  exists d : PyDict, is_gpu_available g = Ok d.
Proof.
  unfold is_gpu_available, ResultMonad.try_except.
  destruct (negb (GPU_AVAILABLE g)); [eauto|].
  destruct (_ <-- nvgpu_gpu_info g ;; _); eauto.
Qed.

(** ** [load_model] *)

Section LoadModel.
Context (cfg : Config) (w : World).

Lemma insert_desc_nonempty {A} (key : A -> Z) (x : A) (l : list A) :
  insert_desc key x l <> [].
Proof. destruct l as [|y ys]; simpl; [done|]. by case_match. Qed.

Lemma sort_desc_nonempty {A} (key : A -> Z) (l : list A) :
  l <> [] -> sort_desc key l <> [].
Proof.
  destruct l as [|x xs]; [done|]. intros _. apply insert_desc_nonempty.
Qed.

(** With a match in the directory, indexing the sorted list succeeds. *)
Lemma chosen_model_file_ok (name : string) :
  glob_glob w (model_pattern cfg name) <> [] ->
  getitem0 (sort_desc (mtime_of w)
              (glob_glob w (model_pattern cfg name)))
  = Ok (chosen_model_file cfg w name).
Proof.
  intros Hne. unfold chosen_model_file.
  pose proof (sort_desc_nonempty (mtime_of w) _ Hne) as Hs.
  destruct (sort_desc _ _); [done | reflexivity].
Qed.

(** Sorting the elements paired with their keys is sorting the elements. *)
Lemma insert_desc_decorated {A} (key : A -> Z) (x : A) (l : list A) :
  insert_desc fst (key x, x) (map (fun y => (key y, y)) l)
  = map (fun y => (key y, y)) (insert_desc key x l).
Proof.
  induction l as [|y ys IH]; [done|]. cbn.
  destruct (key y <=? key x)%Z; [done|]. cbn. by rewrite IH.
Qed.

Lemma sort_desc_decorated {A} (key : A -> Z) (l : list A) :
  map snd (sort_desc fst (zip (map key l) l)) = sort_desc key l.
Proof.
  assert (Hz : forall l0 : list A,
             zip (map key l0) l0 = map (fun y => (key y, y)) l0)
    by (intros l0; induction l0 as [|a l0 IH]; [done|]; cbn; by rewrite IH).
  assert (Hs : forall l0 : list A,
             sort_desc fst (map (fun y => (key y, y)) l0)
             = map (fun y => (key y, y)) (sort_desc key l0)).
  { intros l0. induction l0 as [|a l0 IH]; [done|].
    unfold sort_desc in *. cbn [map foldr]. rewrite IH.
    apply insert_desc_decorated. }
  rewrite Hz, Hs, map_map. cbn. apply map_id.
Qed.

(** The keys of the sort are all there when every path can be stat'ed;
    otherwise computing them raises. *)
Lemma sort_keys_stated (l : list string) :
  forallb (can_stat w) l = true ->
  sort_keys (getmtime_of w) l = Ok (map (mtime_of w) l).
Proof.
  induction l as [|p l IH]; [done|]. cbn [forallb sort_keys map].
  intros [Hp Hl]%andb_true_iff. rewrite (IH Hl).
  unfold can_stat in Hp. unfold getmtime_of, mtime_of.
  by destruct (os_path_getmtime w p).
Qed.

Lemma sort_keys_unstated (l : list string) :
  forallb (can_stat w) l = false ->
  exists p, sort_keys (getmtime_of w) l = Raise (FileNotFoundError p).
Proof.
  induction l as [|p l IH]; [done|]. cbn [forallb sort_keys].
  unfold can_stat at 1, getmtime_of at 1.
  destruct (os_path_getmtime w p) as [t|]; cbn; [|eauto].
  intros Hl. destruct (IH Hl) as [q Hq]. rewrite Hq. eauto.
Qed.

Lemma list_sort_reverse_stated (l : list string) :
  forallb (can_stat w) l = true ->
  list_sort_reverse (getmtime_of w) l = Ok (sort_desc (mtime_of w) l).
Proof.
  intros H. unfold list_sort_reverse. rewrite (sort_keys_stated _ H).
  cbn. by rewrite sort_desc_decorated.
Qed.

Lemma list_sort_reverse_unstated (l : list string) :
  forallb (can_stat w) l = false ->
  exists p, list_sort_reverse (getmtime_of w) l = Raise (FileNotFoundError p).
Proof.
  intros H. unfold list_sort_reverse.
  destruct (sort_keys_unstated _ H) as [p Hp]. rewrite Hp. eauto.
Qed.

Lemma is_nil_false {A} (l : list A) : l <> [] -> is_nil l = false.
Proof. by destruct l. Qed.

(** A cache hit returns the entry and touches nothing. *)
Lemma load_model_cache_hit (name : string) (r : bool) (st : ModelState)
    (h : Llama) :
  embedding_model_cache st !! name = Some h ->
  load_model cfg w name r st = (st, Ok (Some h)).
Proof.
  intros Hc.
  unfold load_model, load_model_body, StateExn.try_except, StateExn.bind,
    StateExn.get, StateExn.ret.
  by rewrite Hc.
Qed.

(** A miss in the cache and a match that cannot be stat'ed: the sort
    raises, and the state is as it was. *)
Lemma load_model_body_unstated (name : string) (st : ModelState) :
  embedding_model_cache st !! name = None ->
  glob_glob w (model_pattern cfg name) <> [] ->
  matches_can_be_stated cfg w name = false ->
  exists p,
    load_model_body cfg w name st = (st, Raise (FileNotFoundError p)).
Proof.
  intros Hc Hg Hs.
  destruct (list_sort_reverse_unstated _ Hs) as [p Hp]. exists p.
  unfold load_model_body.
  unfold StateExn.bind at 1. unfold StateExn.get at 1. rewrite Hc.
  rewrite (is_nil_false _ Hg).
  unfold StateExn.bind at 1. unfold StateExn.lift at 1. by rewrite Hp.
Qed.

Lemma load_model_body_miss (name : string) (st : ModelState) :
  embedding_model_cache st !! name = None ->
  glob_glob w (model_pattern cfg name) <> [] ->
  matches_can_be_stated cfg w name = true ->
  load_model_body cfg w name st =
    if contains "llava" name then (st, Ok None)
    else construct_and_publish cfg w name st.
Proof.
  intros Hc Hg Hs.
  unfold load_model_body, construct_and_publish.
  unfold StateExn.bind at 1. unfold StateExn.get at 1. rewrite Hc.
  rewrite (is_nil_false _ Hg).
  unfold StateExn.bind at 1. unfold StateExn.lift at 1.
  rewrite (list_sort_reverse_stated _ Hs).
  unfold StateExn.bind at 1. unfold StateExn.lift at 1.
  rewrite (chosen_model_file_ok _ Hg).
  destruct (is_gpu_available_returns (gpu_env w)) as (d & Hd).
  unfold StateExn.bind at 1. unfold StateExn.lift at 1. rewrite Hd.
  destruct (contains "llava" name); simpl; reflexivity.
Qed.

(** A miss in the cache and no file in the directory: the body raises
    a bare [FileNotFoundError] and leaves the state as it was. *)
Lemma load_model_body_no_file (name : string) (st : ModelState) :
  embedding_model_cache st !! name = None ->
  glob_glob w (model_pattern cfg name) = [] ->
  load_model_body cfg w name st = (st, Raise (FileNotFoundError EmptyString)).
Proof.
  intros Hc Hg.
  unfold load_model_body, StateExn.bind, StateExn.get, StateExn.raise.
  by rewrite Hc, Hg.
Qed.
End LoadModel.

(** C9, as the code has it. For a model name containing 'llava' that is
    not in the cache and has a matching model file, every match being a
    path that can be stat'ed, [load_model] constructs no handle, stores
    nothing in the cache (the state is unchanged) and returns [None]
    without raising. *)
Theorem load_model_llava_returns_None (cfg : Config) (w : World)
    (name : string) (r : bool) (st : ModelState) :
  contains "llava" name = true ->
  embedding_model_cache st !! name = None ->
  glob_glob w (model_pattern cfg name) <> [] ->
  matches_can_be_stated cfg w name = true ->
  load_model cfg w name r st = (st, Ok None).
Proof.
  intros Hl Hc Hg Hs.
  unfold load_model, StateExn.try_except.
  rewrite load_model_body_miss by assumption.
  by rewrite Hl.
Qed.

Lemma load_model_llava_returns_None_witness :
  load_model Demo.cfg (Demo.world Demo.always_fails) "llava-v1.5-7b" true
    Demo.st0 = (Demo.st0, Ok None).
Proof.
  apply load_model_llava_returns_None.
  - reflexivity.
  - reflexivity.
  - vm_compute. discriminate.
  - reflexivity.
Defined.

(** C9 as stated fails: the one match of a llava name is a link whose
    target is gone; the sort by modification time raises and [load_model]
    raises the not-found error instead of returning [None]. *)
Lemma load_model_llava_dangling_counterexample :
  contains "llava" "llava-v1.5-7b" = true /\
  embedding_model_cache Demo.st0 !! "llava-v1.5-7b" = None /\
  glob_glob Demo.dangling_world (model_pattern Demo.cfg "llava-v1.5-7b")
  = ["/srv/app/models/llava-v1.5-7b-Q4_K.gguf"] /\
  load_model Demo.cfg Demo.dangling_world "llava-v1.5-7b" true Demo.st0
  = (Demo.st0, Raise (HTTPException 404 "Model file not found")).
Proof. repeat split; vm_compute; reflexivity. Qed.




(** The construction step, when the probe reports a GPU. *)
Lemma construct_and_publish_gpu (cfg : Config) (w : World) (name : string)
    (st : ModelState) :
  gpu_detected (gpu_env w) ->
  construct_and_publish cfg w name st =
    (model_instance <~
       StateExn.try_except
         (construct w (gpu_args cfg (chosen_model_file cfg w name)))
         (fun _ => construct w (cpu_args cfg (chosen_model_file cfg w name))) ;;
     cache_store name model_instance ;;;
     StateExn.ret (Some model_instance)) st.
Proof.
  intros (d & Hd & Hf).
  unfold construct_and_publish.
  unfold StateExn.bind at 1. unfold StateExn.lift at 1. rewrite Hd.
  unfold StateExn.bind at 1. unfold StateExn.lift at 1.
  unfold getitem. rewrite Hf. reflexivity.
Qed.

(** C3, as the code has it. For a model name without 'llava' that is not
    in the cache and has a matching file, every match being a path that can
    be stat'ed, when a GPU is detected: the first constructor call asks for
    GPU acceleration; if it raises, whatever the error, the constructor is
    called again without GPU acceleration and the outcome of [load_model]
    is that of the second call alone; an error leaves [load_model] only
    when the second call raises too. *)
Theorem load_model_gpu_then_cpu (cfg : Config) (w : World) (name : string)
    (r : bool) (st : ModelState) :
  contains "llava" name = false ->
  embedding_model_cache st !! name = None ->
  glob_glob w (model_pattern cfg name) <> [] ->
  matches_can_be_stated cfg w name = true ->
  gpu_detected (gpu_env w) ->
  let path := chosen_model_file cfg w name in
  let n := length (llama_calls st) in
  let st' := fst (load_model cfg w name r st) in
  let res := snd (load_model cfg w name r st) in
  match llama_cpp_Llama w n (gpu_args cfg path) with
  | None =>
      llama_calls st' = (llama_calls st ++ [gpu_args cfg path])%list /\
      res = Ok (Some {| obj_id := n; llama_args := gpu_args cfg path |})
  | Some _ =>
      llama_calls st' =
        (llama_calls st ++ [gpu_args cfg path; cpu_args cfg path])%list /\
      match llama_cpp_Llama w (S n) (cpu_args cfg path) with
      | None =>
          res = Ok (Some {| obj_id := S n; llama_args := cpu_args cfg path |})
      | Some e2 =>
          res = Raise (if is_TypeError e2 then e2 else not_found_error name r)
      end
  end.
Proof.
  intros Hl Hc Hg Hs Hgpu path n st' res.
  subst st' res.
  unfold load_model, StateExn.try_except.
  rewrite load_model_body_miss by assumption. rewrite Hl.
  rewrite construct_and_publish_gpu by assumption.
  fold path.
  unfold StateExn.bind, StateExn.try_except, construct, cache_store,
    StateExn.modify, StateExn.ret, StateExn.raise.
  cbn [llama_calls embedding_model_cache]. fold n.
  destruct (llama_cpp_Llama w n (gpu_args cfg path)) as [e1|]; cbn.
  - rewrite length_app. cbn [length].
    replace (length (llama_calls st) + 1)%nat with (S n) by (subst n; lia).
    destruct (llama_cpp_Llama w (S n) (cpu_args cfg path)) as [e2|]; cbn.
    + unfold not_found_error.
      destruct e2, r; cbn; rewrite <- app_assoc; split; reflexivity.
    + rewrite <- app_assoc. split; reflexivity.
  - split; reflexivity.
Qed.

Lemma demo_gpu_detected : gpu_detected Demo.one_gpu.
Proof. eexists. split; reflexivity. Qed.

Lemma load_model_gpu_then_cpu_witness :
  snd (load_model Demo.cfg (Demo.world Demo.gpu_fails) "bge-m3" true Demo.st0)
  = Ok (Some Demo.bge_handle).
Proof.
  assert (Hg : glob_glob (Demo.world Demo.gpu_fails)
                 (model_pattern Demo.cfg "bge-m3") <> [])
    by (vm_compute; discriminate).
  exact (proj2 (load_model_gpu_then_cpu Demo.cfg (Demo.world Demo.gpu_fails)
                  "bge-m3" true Demo.st0 eq_refl eq_refl Hg eq_refl
                  demo_gpu_detected)).
Defined.

(** C3 as stated fails, in two ways. For a llava name that is not in the
    cache and has a matching file, with a GPU detected, no construction is
    attempted. And for a name without 'llava' whose matches are links with
    the target gone, with a GPU detected, the sort by modification time
    raises: no construction is attempted either, and the not-found error
    is raised. *)
Lemma load_model_gpu_first_llava_counterexample :
  (embedding_model_cache Demo.st0 !! "llava-v1.5-7b" = None /\
   glob_glob (Demo.world Demo.gpu_fails)
     (model_pattern Demo.cfg "llava-v1.5-7b") <> [] /\
   gpu_detected (gpu_env (Demo.world Demo.gpu_fails)) /\
   llama_calls
     (fst (load_model Demo.cfg (Demo.world Demo.gpu_fails) "llava-v1.5-7b"
             true Demo.st0)) = [] /\
   snd (load_model Demo.cfg (Demo.world Demo.gpu_fails) "llava-v1.5-7b"
          true Demo.st0) = Ok None) /\
  (embedding_model_cache Demo.st0 !! "bge-m3" = None /\
   glob_glob Demo.dangling_world (model_pattern Demo.cfg "bge-m3") <> [] /\
   gpu_detected (gpu_env Demo.dangling_world) /\
   llama_calls
     (fst (load_model Demo.cfg Demo.dangling_world "bge-m3" true Demo.st0))
   = [] /\
   snd (load_model Demo.cfg Demo.dangling_world "bge-m3" true Demo.st0)
   = Raise (HTTPException 404 "Model file not found")).
Proof.
  split.
  - split; [reflexivity|].
    split; [vm_compute; discriminate|].
    split; [apply demo_gpu_detected|].
    split; reflexivity.
  - split; [reflexivity|].
    split; [vm_compute; discriminate|].
    split; [apply demo_gpu_detected|].
    split; reflexivity.
Qed.

(** What the construction step leaves behind: a fresh entry under the
    name on success, the cache as it was on failure. *)
Lemma construct_and_publish_cache (cfg : Config) (w : World) (name : string)
    (st : ModelState) :
  (exists h,
     snd (construct_and_publish cfg w name st) = Ok (Some h) /\
     embedding_model_cache (fst (construct_and_publish cfg w name st))
     = <[name := h]> (embedding_model_cache st)) \/
  (exists e,
     snd (construct_and_publish cfg w name st) = Raise e /\
     embedding_model_cache (fst (construct_and_publish cfg w name st))
     = embedding_model_cache st).
Proof.
  unfold construct_and_publish, StateExn.bind, StateExn.lift,
    StateExn.try_except, construct, cache_store, StateExn.modify,
    StateExn.ret.
  destruct (is_gpu_available (gpu_env w)) as [d|e]; [|right; eauto].
  destruct (getitem d "gpu_found") as [v|e]; [|right; eauto].
  destruct (truthy v); cbn.
  - destruct (llama_cpp_Llama w _ (gpu_args _ _)); cbn; [|left; eauto].
    destruct (llama_cpp_Llama w _ (cpu_args _ _)); cbn;
      [right; eauto | left; eauto].
  - destruct (llama_cpp_Llama w _ (cpu_args _ _)); cbn;
      [right; eauto | left; eauto].
Qed.

(** The outer handler of [load_model] raises in the state it is given. *)
Lemma load_model_unfold (cfg : Config) (w : World) (name : string) (r : bool)
    (st : ModelState) :
  load_model cfg w name r st =
    match load_model_body cfg w name st with
    | (st', Ok v) => (st', Ok v)
    | (st', Raise e) =>
        (st', Raise (if is_TypeError e then e else not_found_error name r))
    end.
Proof.
  unfold load_model, StateExn.try_except, not_found_error, StateExn.raise.
  destruct (load_model_body cfg w name st) as [st' [v|e]]; [reflexivity|].
  destruct (is_TypeError e), r; reflexivity.
Qed.

(** [load_model] only ever adds to the cache: an entry, once there, stays
    there with the same handle. *)
Lemma load_model_preserves_cache (cfg : Config) (w : World) (name : string)
    (r : bool) (st : ModelState) (k : string) (v : Llama) :
  embedding_model_cache st !! k = Some v ->
  embedding_model_cache (fst (load_model cfg w name r st)) !! k = Some v.
Proof.
  intros Hk.
  destruct (embedding_model_cache st !! name) as [h|] eqn:Hc.
  { by rewrite (load_model_cache_hit cfg w name r st h Hc). }
  destruct (glob_glob w (model_pattern cfg name)) as [|f fs] eqn:Hg.
  { by rewrite load_model_unfold, load_model_body_no_file. }
  destruct (matches_can_be_stated cfg w name) eqn:Hstat.
  2:{ destruct (load_model_body_unstated cfg w name st Hc) as [p Hp];
        [by rewrite Hg | done |].
      by rewrite load_model_unfold, Hp. }
  rewrite load_model_unfold, load_model_body_miss;
    [|done|by rewrite Hg|done].
  destruct (contains "llava" name); [done|].
  destruct (construct_and_publish_cache cfg w name st)
    as [(h & Hr & Hs)|(e & Hr & Hs)];
    destruct (construct_and_publish cfg w name st) as [st' res];
    simpl in *; subst res; simpl; rewrite Hs; [|done].
  rewrite lookup_insert_ne; [done|]. intros ->. congruence.
Qed.

(** A handle returned by [load_model] is the one the cache holds under the
    name afterwards. *)
Lemma load_model_ok_cached (cfg : Config) (w : World) (name : string)
    (r : bool) (st st1 : ModelState) (h : Llama) :
  load_model cfg w name r st = (st1, Ok (Some h)) ->
  embedding_model_cache st1 !! name = Some h.
Proof.
  destruct (embedding_model_cache st !! name) as [h0|] eqn:Hc.
  { rewrite (load_model_cache_hit cfg w name r st h0 Hc). congruence. }
  destruct (glob_glob w (model_pattern cfg name)) as [|f fs] eqn:Hg.
  { rewrite load_model_unfold, load_model_body_no_file by done. congruence. }
  destruct (matches_can_be_stated cfg w name) eqn:Hstat.
  2:{ destruct (load_model_body_unstated cfg w name st Hc) as [p Hp];
        [by rewrite Hg | done |].
      rewrite load_model_unfold, Hp. congruence. }
  rewrite load_model_unfold, load_model_body_miss;
    [|done|by rewrite Hg|done].
  destruct (contains "llava" name); [congruence|].
  destruct (construct_and_publish_cache cfg w name st)
    as [(h1 & Hr & Hs)|(e & Hr & Hs)];
    destruct (construct_and_publish cfg w name st) as [st' res];
    simpl in *; subst res; intros [= <- <-] || intros [=].
  rewrite Hs. apply lookup_insert_eq.
Qed.

Lemma run_calls_preserves_cache (calls : list Call) (st : ModelState)
    (k : string) (v : Llama) :
  embedding_model_cache st !! k = Some v ->
  embedding_model_cache (run_calls calls st) !! k = Some v.
Proof.
  revert st. induction calls as [|c rest IH]; intros st Hk; [done|].
  simpl. apply IH. by apply load_model_preserves_cache.
Qed.

(** C6. Once a call [load_model(name)] has returned a handle, which the
    cache then holds: after any further sequence of [load_model] calls,
    every entry the cache held is still there with the same handle (nothing
    is evicted or replaced), and [load_model(name)] returns that same
    handle without calling the constructor or changing the state. *)
Theorem load_model_idempotent (cfg : Config) (w : World) (name : string)
    (r : bool) (st st1 : ModelState) (h : Llama)
    (calls : list Call) (cfg' : Config) (w' : World) (r' : bool) :
  load_model cfg w name r st = (st1, Ok (Some h)) ->
  let st2 := run_calls calls st1 in
  embedding_model_cache st1 !! name = Some h /\
  (forall k v, embedding_model_cache st1 !! k = Some v ->
               embedding_model_cache st2 !! k = Some v) /\
  load_model cfg' w' name r' st2 = (st2, Ok (Some h)).
Proof.
  intros Hload st2.
  pose proof (load_model_ok_cached _ _ _ _ _ _ _ Hload) as Hc.
  split; [exact Hc|]. split.
  - intros k v Hk. by apply run_calls_preserves_cache.
  - apply load_model_cache_hit. by apply run_calls_preserves_cache.
Qed.

Lemma load_model_idempotent_witness :
  load_model Demo.cfg Demo.empty_world "bge-m3" false
    (run_calls
       [ {| call_cfg := Demo.cfg; call_world := Demo.world Demo.always_fails;
            call_name := "llava-v1.5-7b"; call_raise_http_exception := true |};
         {| call_cfg := Demo.cfg; call_world := Demo.empty_world;
            call_name := "mistral"; call_raise_http_exception := false |} ]
       Demo.st1)
  = (run_calls
       [ {| call_cfg := Demo.cfg; call_world := Demo.world Demo.always_fails;
            call_name := "llava-v1.5-7b"; call_raise_http_exception := true |};
         {| call_cfg := Demo.cfg; call_world := Demo.empty_world;
            call_name := "mistral"; call_raise_http_exception := false |} ]
       Demo.st1,
     Ok (Some Demo.bge_handle)).
Proof.
  assert (H : load_model Demo.cfg (Demo.world Demo.gpu_fails) "bge-m3" true
                Demo.st0 = (Demo.st1, Ok (Some Demo.bge_handle)))
    by (vm_compute; reflexivity).
  exact (proj2 (proj2 (load_model_idempotent _ _ _ _ _ _ _ _ Demo.cfg
                         Demo.empty_world false H))).
Defined.

(** ** [download_models] *)

(** The size test of [download_models] is the comparison with 100 MB. *)
Lemma file_too_small_spec (size : Z) :
  file_too_small size = (size <? minimum_size_in_bytes)%Z.
Proof.
  unfold file_too_small, minimum_size_in_bytes.
  destruct (Qlt_le_dec _ _) as [Hlt|Hle]; symmetry.
  - apply Z.ltb_lt.
    unfold Qlt, Qdiv, Qmult, Qinv, inject_Z in Hlt. simpl in Hlt. lia.
  - apply Z.ltb_ge.
    unfold Qle, Qdiv, Qmult, Qinv, inject_Z in Hle. simpl in Hle. lia.
Qed.

Section DownloadLoop.
Context (w : DlWorld) (models_dir lock_file : string).

Lemma touch_lock_file_None (fs0 : FS) (p : string) :
  touch_lock_file lock_file fs0 !! p = None -> fs0 !! p = None.
Proof.
  unfold touch_lock_file.
  destruct (fs0 !! lock_file) as [[|sz js]|] eqn:Hl; [done| |];
    (destruct (decide (lock_file = p)) as [->|Hne];
     [by rewrite lookup_insert_eq | by rewrite lookup_insert_ne]).
Qed.

Lemma touch_lock_file_is_Some (fs0 : FS) (p : string) :
  is_Some (fs0 !! p) -> is_Some (touch_lock_file lock_file fs0 !! p).
Proof.
  intros Hs. destruct (touch_lock_file lock_file fs0 !! p) eqn:Ht; [eauto|].
  apply touch_lock_file_None in Ht. rewrite Ht in Hs. by destruct Hs.
Qed.

(** The loop over a list that is split in two runs the first part, then
    the second from where the first arrived. *)
Lemma download_loop_app (l1 l2 : list (string * string))
    (acc : list Status) (st : DlState) :
  download_loop w models_dir lock_file (l1 ++ l2) acc st =
    match download_loop w models_dir lock_file l1 acc st with
    | (st', Ok ss) => download_loop w models_dir lock_file l2 ss st'
    | (st', Raise e) => (st', Raise e)
    end.
Proof.
  revert acc st. induction l1 as [|[url name] l1 IH]; intros acc st.
  - reflexivity.
  - simpl. unfold StateExn.bind.
    destruct (download_one w models_dir lock_file url name st)
      as [st' [status|e]]; [apply IH | reflexivity].
Qed.

Lemma download_loop_snoc (l1 : list (string * string)) (url name : string)
    (st0 st1 : DlState) (ss : list Status) :
  download_loop w models_dir lock_file l1 [] st0 = (st1, Ok ss) ->
  download_loop w models_dir lock_file (l1 ++ [(url, name)]) [] st0 =
    match download_one w models_dir lock_file url name st1 with
    | (st2, Ok status) => (st2, Ok (ss ++ [status])%list)
    | (st2, Raise e) => (st2, Raise e)
    end.
Proof.
  intros H. rewrite download_loop_app, H. simpl. unfold StateExn.bind.
  by destruct (download_one w models_dir lock_file url name st1)
    as [st2 [status|e]].
Qed.

(** The three ways one turn of the loop goes. *)
Lemma download_one_timeout (url name : string) (st : DlState) :
  lock_acquire w (length (events st)) lock_file 1200 = false ->
  download_one w models_dir lock_file url name st =
    ({| fs := touch_lock_file lock_file (fs st);
        events := (events st ++ [EvLockAcquire lock_file 1200 false])%list |},
     Ok (lock_timeout_status url)).
Proof.
  intros Hl.
  unfold download_one, try_except_Timeout, with_lock, lock_timeout_seconds.
  by rewrite Hl.
Qed.

Lemma download_one_exists (url name : string) (st : DlState) :
  lock_acquire w (length (events st)) lock_file 1200 = true ->
  is_Some (fs st !! os_path_join models_dir name) ->
  download_one w models_dir lock_file url name st =
    ({| fs := touch_lock_file lock_file (fs st);
        events := (events st ++ [EvLockAcquire lock_file 1200 true;
                                 EvLockRelease lock_file])%list |},
     Ok (success_status url)).
Proof.
  intros Hl Hs. apply touch_lock_file_is_Some in Hs.
  unfold download_one, try_except_Timeout, with_lock, lock_timeout_seconds.
  rewrite Hl. unfold StateExn.bind, StateExn.get, os_path_exists.
  cbn [fs events]. rewrite bool_decide_eq_true_2 by done. cbn.
  by rewrite <- app_assoc.
Qed.

Lemma download_one_downloads (url name : string) (st : DlState) (size : Z) :
  lock_acquire w (length (events st)) lock_file 1200 = true ->
  touch_lock_file lock_file (fs st) !! os_path_join models_dir name = None ->
  urllib_request_urlretrieve w (S (length (events st))) url
    (os_path_join models_dir name) = Ok size ->
  let filename := os_path_join models_dir name in
  let fs1 := touch_lock_file lock_file (fs st) in
  download_one w models_dir lock_file url name st =
    if (size <? minimum_size_in_bytes)%Z then
      ({| fs := delete filename (<[filename := File size None]> fs1);
          events := (events st ++ [EvLockAcquire lock_file 1200 true;
                                   EvDownload url filename;
                                   EvRemove filename;
                                   EvLockRelease lock_file])%list |},
       Ok (too_small_status url))
    else
      ({| fs := <[filename := File size None]> fs1;
          events := (events st ++ [EvLockAcquire lock_file 1200 true;
                                   EvDownload url filename;
                                   EvLockRelease lock_file])%list |},
       Ok (success_status url)).
Proof.
  intros Hl Hn Hu filename fs1.
  rewrite <- file_too_small_spec.
  unfold download_one, try_except_Timeout, with_lock, lock_timeout_seconds.
  rewrite Hl. unfold StateExn.bind, StateExn.get, os_path_exists.
  cbn [fs events]. fold filename fs1. fold filename in Hn, Hu. fold fs1 in Hn.
  rewrite bool_decide_eq_false_2 by (rewrite Hn; by intros [? ?]).
  cbn [negb]. unfold urlretrieve. cbn [fs events].
  rewrite length_app. cbn [length].
  replace (length (events st) + 1)%nat with (S (length (events st))) by lia.
  rewrite Hu. unfold os_path_getsize. cbn [fs events].
  rewrite lookup_insert_eq.
  destruct (file_too_small size).
  - unfold os_remove, StateExn.ret. cbn [fs events].
    rewrite lookup_insert_eq. cbn.
    by rewrite <- !app_assoc.
  - unfold StateExn.ret. cbn. by rewrite <- !app_assoc.
Qed.
End DownloadLoop.

(** Membership in a list that is written out. *)
Ltac list_mem :=
  unfold not; intros;
  repeat match goal with
         | H : _ ∈ _ :: _ |- _ => apply elem_of_cons in H; destruct H as [H|H]
         | H : _ ∈ [] |- _ => by apply elem_of_nil in H
         end;
  try discriminate; try congruence; repeat constructor.

Section DownloadClaims.
Context (w : DlWorld) (models_dir lock_file : string).

Lemma new_events_app (st st' : DlState) (evs : list Event) :
  events st' = (events st ++ evs)%list -> new_events st st' = evs.
Proof. unfold new_events. intros ->. apply drop_app_length. Qed.

(** What one turn of the loop appends to the record of events: a failed
    attempt to take the lock; or the lock taken and released around
    nothing, the file being there; or the lock taken and released around
    a download, the file not being there. *)
Lemma download_one_events (url name : string) (st : DlState) :
  let filename := os_path_join models_dir name in
  let st' := fst (download_one w models_dir lock_file url name st) in
  new_events st st' = [EvLockAcquire lock_file 1200 false] \/
  (is_Some (touch_lock_file lock_file (fs st) !! filename) /\
   new_events st st' =
     [EvLockAcquire lock_file 1200 true; EvLockRelease lock_file]) \/
  (touch_lock_file lock_file (fs st) !! filename = None /\
   exists evs,
     (forall u f, EvDownload u f ∉ evs) /\
     new_events st st' =
       EvLockAcquire lock_file 1200 true :: EvDownload url filename :: evs).
Proof.
  intros filename st'. subst st'.
  destruct (lock_acquire w (length (events st)) lock_file 1200) eqn:Hl.
  2:{ left. rewrite download_one_timeout by done.
      by apply new_events_app. }
  right.
  destruct (touch_lock_file lock_file (fs st) !! filename) as [nd|] eqn:Hf.
  { left. split; [eauto|].
    unfold download_one, try_except_Timeout, with_lock, lock_timeout_seconds.
    rewrite Hl. unfold StateExn.bind, StateExn.get, os_path_exists.
    cbn [fs events]. fold filename.
    rewrite bool_decide_eq_true_2 by (rewrite Hf; eauto). cbn.
    apply new_events_app. cbn. by rewrite <- app_assoc. }
  right. split; [done|].
  destruct (urllib_request_urlretrieve w (S (length (events st))) url filename)
    as [size|e] eqn:Hu.
  - rewrite (download_one_downloads w models_dir lock_file url name st size)
      by done.
    fold filename.
    destruct (size <? minimum_size_in_bytes)%Z.
    + exists [EvRemove filename; EvLockRelease lock_file].
      split; [|by apply new_events_app].
      intros u f. list_mem.
    + exists [EvLockRelease lock_file].
      split; [|by apply new_events_app].
      intros u f. list_mem.
  - exists [EvLockRelease lock_file].
    split; [intros u f; list_mem|].
    unfold download_one, try_except_Timeout, with_lock, lock_timeout_seconds.
    rewrite Hl. unfold StateExn.bind, StateExn.get, os_path_exists.
    cbn [fs events]. fold filename.
    rewrite bool_decide_eq_false_2 by (rewrite Hf; by intros [? ?]).
    cbn [negb]. unfold urlretrieve. cbn [fs events].
    rewrite length_app. cbn [length].
    replace (length (events st) + 1)%nat with (S (length (events st))) by lia.
    rewrite Hu. cbn [fs events].
    apply new_events_app.
    destruct (is_Timeout e); cbn; by rewrite <- !app_assoc.
Qed.

(** C4. When the loop of [download_models] comes to a URL and downloads
    it (the lock is obtained, the target file is not there, the transfer
    completes): if the file written is smaller than 100 MB it is deleted
    again and the status appended for the URL is a failure; otherwise the
    file is kept and the status is a success. Either way the turn returns
    without raising. *)
Theorem download_checks_minimum_size (done_ : list (string * string))
    (url name : string) (st0 st1 : DlState) (ss : list Status) (size : Z) :
  download_loop w models_dir lock_file done_ [] st0 = (st1, Ok ss) ->
  let filename := os_path_join models_dir name in
  lock_acquire w (length (events st1)) lock_file 1200 = true ->
  touch_lock_file lock_file (fs st1) !! filename = None ->
  urllib_request_urlretrieve w (S (length (events st1))) url filename
    = Ok size ->
  let st2 :=
    fst (download_loop w models_dir lock_file (done_ ++ [(url, name)]) [] st0) in
  let res :=
    snd (download_loop w models_dir lock_file (done_ ++ [(url, name)]) [] st0) in
  if (size <? 100 * 1024 * 1024)%Z then
    (fs st2 !! filename = None /\
     EvRemove filename ∈ new_events st1 st2 /\
     res = Ok ((ss ++ [too_small_status url])%list) /\
     too_small_status url !! "url" = Some url /\
     too_small_status url !! "status" = Some "failure")
  else
    (fs st2 !! filename = Some (File size None) /\
     (EvRemove filename ∉ new_events st1 st2) /\
     res = Ok ((ss ++ [success_status url])%list) /\
     success_status url !! "url" = Some url /\
     success_status url !! "status" = Some "success").
Proof.
  intros Hloop filename Hl Hn Hu st2 res. subst st2 res.
  rewrite (download_loop_snoc w models_dir lock_file done_ url name st0 st1 ss)
    by done.
  rewrite (download_one_downloads w models_dir lock_file url name st1 size)
    by done.
  fold filename. change (100 * 1024 * 1024)%Z with minimum_size_in_bytes.
  destruct (size <? minimum_size_in_bytes)%Z; cbn [fst snd fs].
  - split; [apply lookup_delete_eq|].
    split; [erewrite new_events_app by reflexivity; list_mem|].
    split; [reflexivity|]. split; reflexivity.
  - split; [apply lookup_insert_eq|].
    split; [erewrite new_events_app by reflexivity; list_mem|].
    split; [reflexivity|]. split; reflexivity.
Qed.

(** C7, as the code has it. When the loop of [download_models] comes to
    a URL whose target file exists, nothing is downloaded; the status
    appended for the URL is a success when the lock is obtained within
    1200 seconds and a failure when it is not. In any turn, a download
    happens only if the target file does not exist, and it comes right
    after the lock was obtained with a timeout of 1200 seconds. *)
Theorem download_only_when_absent (done_ : list (string * string))
    (url name : string) (st0 st1 : DlState) (ss : list Status) :
  download_loop w models_dir lock_file done_ [] st0 = (st1, Ok ss) ->
  let filename := os_path_join models_dir name in
  let acquired := lock_acquire w (length (events st1)) lock_file 1200 in
  let st2 :=
    fst (download_loop w models_dir lock_file (done_ ++ [(url, name)]) [] st0) in
  let res :=
    snd (download_loop w models_dir lock_file (done_ ++ [(url, name)]) [] st0) in
  (is_Some (fs st1 !! filename) ->
     (forall u f, EvDownload u f ∉ new_events st1 st2) /\
     is_Some (fs st2 !! filename) /\
     res = Ok ((ss ++ [if acquired then success_status url
                       else lock_timeout_status url])%list)) /\
  (forall u f, EvDownload u f ∈ new_events st1 st2 ->
     fs st1 !! filename = None /\
     exists evs,
       new_events st1 st2 =
         EvLockAcquire lock_file 1200 true :: EvDownload url filename :: evs).
Proof.
  intros Hloop filename acquired st2 res. subst st2 res.
  rewrite (download_loop_snoc w models_dir lock_file done_ url name st0 st1 ss)
    by done.
  split.
  - intros Hs. subst acquired.
    destruct (lock_acquire w (length (events st1)) lock_file 1200) eqn:Hl.
    + rewrite download_one_exists by done. cbn [fst snd fs].
      split; [|split; [by apply touch_lock_file_is_Some | reflexivity]].
      intros u f. erewrite new_events_app by reflexivity. list_mem.
    + rewrite download_one_timeout by done. cbn [fst snd fs].
      split; [|split; [by apply touch_lock_file_is_Some | reflexivity]].
      intros u f. erewrite new_events_app by reflexivity. list_mem.
  - intros u f Hin.
    pose proof (download_one_events url name st1) as Hev. cbn zeta in Hev.
    fold filename in Hev.
    assert (Heq : new_events st1
              (fst (download_one w models_dir lock_file url name st1))
            = new_events st1
                (let (st2, r) := download_one w models_dir lock_file url name st1 in
                 match r with
                 | Ok status => (st2, Ok (ss ++ [status])%list)
                 | Raise e => (st2, Raise e)
                 end).1).
    { by destruct (download_one w models_dir lock_file url name st1)
        as [? [?|?]]. }
    rewrite <- Heq in Hin |- *.
    destruct Hev as [Hev|[[_ Hev]|(Hn & evs & Hno & Hev)]].
    + rewrite Hev in Hin. list_mem.
    + rewrite Hev in Hin. list_mem.
    + split; [by apply (touch_lock_file_None lock_file)|]. eauto.
Qed.
End DownloadClaims.

Lemma download_checks_minimum_size_witness :
  fs (fst (download_loop (DemoDl.world 5000 true) DemoDl.models_dir
             DemoDl.lock_file [(DemoDl.url, "bge-m3-q8_0.gguf")] []
             DemoDl.st_empty)) !! DemoDl.filename = None /\
  snd (download_loop (DemoDl.world 5000 true) DemoDl.models_dir
         DemoDl.lock_file [(DemoDl.url, "bge-m3-q8_0.gguf")] []
         DemoDl.st_empty) = Ok [too_small_status DemoDl.url].
Proof.
  assert (Hn : touch_lock_file DemoDl.lock_file (fs DemoDl.st_empty)
               !! os_path_join DemoDl.models_dir "bge-m3-q8_0.gguf" = None)
    by (vm_compute; reflexivity).
  pose proof (download_checks_minimum_size (DemoDl.world 5000 true)
                DemoDl.models_dir DemoDl.lock_file [] DemoDl.url
                "bge-m3-q8_0.gguf" DemoDl.st_empty DemoDl.st_empty [] 5000
                eq_refl eq_refl Hn eq_refl) as H.
  cbn zeta in H.
  change (5000 <? 100 * 1024 * 1024)%Z with true in H. cbv iota in H.
  destruct H as (H1 & _ & H3 & _). split; [exact H1 | exact H3].
Defined.

Lemma download_only_when_absent_witness :
  snd (download_loop (DemoDl.world 5000 true) DemoDl.models_dir
         DemoDl.lock_file [(DemoDl.url, "bge-m3-q8_0.gguf")] []
         DemoDl.st_present) = Ok [success_status DemoDl.url].
Proof.
  assert (Hs : is_Some (fs DemoDl.st_present
                        !! os_path_join DemoDl.models_dir "bge-m3-q8_0.gguf"))
    by (vm_compute; eauto).
  pose proof (download_only_when_absent (DemoDl.world 5000 true)
                DemoDl.models_dir DemoDl.lock_file [] DemoDl.url
                "bge-m3-q8_0.gguf" DemoDl.st_present DemoDl.st_present []
                eq_refl) as H.
  cbn zeta in H. destruct H as [H _].
  destruct (H Hs) as (_ & _ & H3). exact H3.
Defined.

(** The whole of [download_models] on a download of 5000 bytes: the file
    is gone again, the status is a failure, nothing is raised. *)
Example download_models_too_small :
  fs (fst (download_models Demo.cfg (DemoDl.world 5000 true) DemoDl.st_empty))
    !! DemoDl.filename = None /\
  snd (download_models Demo.cfg (DemoDl.world 5000 true) DemoDl.st_empty)
  = Ok (["bge-m3-q8_0.gguf"], [too_small_status DemoDl.url]).
Proof. split; vm_compute; reflexivity. Qed.

(** The same with exactly 100 MB: the file is kept, the status a success. *)
Example download_models_at_threshold :
  fs (fst (download_models Demo.cfg (DemoDl.world 104857600 true)
             DemoDl.st_empty))
    !! DemoDl.filename = Some (File 104857600 None) /\
  snd (download_models Demo.cfg (DemoDl.world 104857600 true) DemoDl.st_empty)
  = Ok (["bge-m3-q8_0.gguf"], [success_status DemoDl.url]).
Proof. split; vm_compute; reflexivity. Qed.

(** C7 as stated fails: the target file exists, the lock is not obtained
    within the timeout, and the status recorded for the URL is a failure. *)
Lemma download_existing_file_lock_timeout_counterexample :
  is_Some (fs DemoDl.st_present !! DemoDl.filename) /\
  snd (download_models Demo.cfg (DemoDl.world 5000 false) DemoDl.st_present)
  = Ok (["bge-m3-q8_0.gguf"], [lock_timeout_status DemoDl.url]) /\
  lock_timeout_status DemoDl.url !! "status" = Some "failure".
Proof.
  split; [vm_compute; eauto|]. split; vm_compute; reflexivity.
Qed.

(** [download_models] without a RAM disk, on a list of URLs already on
    disk: the loop over the URLs and their file names, and nothing else. *)
Lemma download_models_runs_loop (cfg : Config) (w : DlWorld) (st : DlState)
    (sz : Z) (urls : list string) :
  USE_RAMDISK cfg = false ->
  fs st !! os_path_join (BASE_DIRECTORY cfg) "model_urls.json"
    = Some (File sz (Some urls)) ->
  download_models cfg w st =
    match download_loop w (models_dir_of cfg) (lock_file_of cfg)
            (zip urls (map os_path_basename urls)) []
            (state_before_loop cfg st) with
    | (st', Ok download_status) =>
        (st', Ok (map os_path_basename urls, download_status))
    | (st', Raise e) => (st', Raise e)
    end.
Proof.
  intros Hr Hj.
  unfold download_models, state_before_loop, StateExn.bind, StateExn.get,
    read_urls, os_makedirs, set_fs, StateExn.modify, StateExn.ret,
    os_path_exists.
  rewrite bool_decide_eq_true_2 by (rewrite Hj; eauto).
  cbn [negb]. rewrite Hj, Hr.
  destruct (bool_decide (is_Some (fs st !! models_dir_of cfg))); cbn [negb fs];
    by destruct (download_loop _ _ _ _ _ _) as [st' [ss|e]].
Qed.

(** ** [initialize_globals] *)

Lemma writer_after_init_sound (evs : list StartupEvent) (seen : bool) :
  writer_after_init seen evs = true ->
  forall pre post c,
    evs = (pre ++ TaskCreated c :: post)%list ->
    seen = true \/ Returned initialize_processing_hashes ∈ pre.
Proof.
  revert seen. induction evs as [|ev evs IH]; intros seen Hc pre post c Heq.
  - by destruct pre.
  - destruct pre as [|p pre]; simpl in Heq; injection Heq as -> ->.
    + simpl in Hc. apply andb_true_iff in Hc as [-> _]. by left.
    + destruct p as [s|s|c'].
      * destruct s; simpl in Hc;
          try (destruct (IH _ Hc _ _ _ eq_refl) as [?|?];
               [by left | right; by apply list_elem_of_further]).
        right. apply list_elem_of_here.
      * simpl in Hc. destruct (IH _ Hc _ _ _ eq_refl) as [?|?];
          [by left | right; by apply list_elem_of_further].
      * simpl in Hc. apply andb_true_iff in Hc as [-> _]. by left.
Qed.

Lemma no_task_created_sound (evs : list StartupEvent) :
  no_task_created evs = true -> forall c, TaskCreated c ∉ evs.
Proof.
  induction evs as [|ev evs IH]; intros Hc c Hin.
  - by apply elem_of_nil in Hin.
  - apply elem_of_cons in Hin as [<-|Hin]; [discriminate|].
    destruct ev; simpl in Hc; try discriminate; by apply (IH Hc c).
Qed.

Lemma new_trace_app (g g' : Globals) (evs : list StartupEvent) :
  trace g' = (trace g ++ evs)%list -> new_trace g g' = evs.
Proof. unfold new_trace. intros ->. apply drop_app_length. Qed.

(** Unfolds the startup sequence, so that it runs by computation once the
    answers of the world are known. *)
Ltac unfold_startup :=
  unfold initialize_globals, call, on_disk, lock_manager_setattr,
    set_lock_manager, set_redis, set_db_writer, set_USE_RAMDISK, set_faiss,
    log_startup, StateExn.bind, StateExn.ret, StateExn.raise, StateExn.get,
    StateExn.modify.

(** Closes a case in which the sequence has run to its end or to an
    exception: the events appended are then written out. *)
Ltac startup_leaf :=
  eexists; split; [by rewrite <- ?app_assoc|];
  split; [reflexivity|]; intros; first [congruence | by split].

(** What startup appends to its record, whatever the world answers:
    nothing is handed to the event loop before
    [initialize_processing_hashes] has returned, and nothing at all if it
    raised. *)
Lemma initialize_globals_trace (w : StartupWorld) (g : Globals) :
  exists evs,
    trace (fst (initialize_globals w g)) = (trace g ++ evs)%list /\
    writer_after_init false evs = true /\
    (forall e, initialize_processing_hashes_result w = Raise e ->
               no_task_created evs = true /\
               raises (snd (initialize_globals w g))).
Proof.
  unfold_startup.
  destruct (is_redis_running w); cbn -[download_models run_on_fs];
    [|destruct (start_redis_server_result w) as [[]|e];
      cbn -[download_models run_on_fs]; [|startup_leaf]].
  all: destruct (create_redis_pool_result w _) as [pool|e0];
    cbn -[download_models run_on_fs]; [|startup_leaf].
  all: destruct (initialize_db_result w) as [[]|e1];
    cbn -[download_models run_on_fs]; [|startup_leaf].
  all: destruct (initialize_processing_hashes_result w) as [[]|e2] eqn:Hh;
    cbn -[download_models run_on_fs]; [|startup_leaf].
  all: destruct (USE_RAMDISK (config_now g)),
         (check_that_user_has_required_permissions_to_manage_ramdisks w);
    cbn -[download_models run_on_fs].
  all: try (destruct (run_on_fs _ _) as [d0 [[]|e3]];
            cbn -[download_models run_on_fs]; [|startup_leaf]).
  all: destruct (download_models _ _ _) as [d1 [names|e4]];
    cbn -[download_models run_on_fs]; [|startup_leaf].
  all: destruct (build_faiss_indexes_result w) as [[i t]|e5];
    cbn -[download_models run_on_fs]; startup_leaf.
Qed.

(** When the steps before it succeed, startup gets to
    [initialize_processing_hashes]; what follows is written out by the
    answer of that call. *)
Lemma initialize_globals_reaches_dedup_index (w : StartupWorld) (g : Globals)
    (pool : RedisPool) :
  is_redis_running w = true \/ start_redis_server_result w = Ok tt ->
  create_redis_pool_result w "redis://localhost" = Ok pool ->
  initialize_db_result w = Ok tt ->
  match initialize_processing_hashes_result w with
  | Ok _ =>
      exists post,
        trace (fst (initialize_globals w g))
        = (trace g
           ++ steps_before_dedup_index w
           ++ Returned initialize_processing_hashes
              :: TaskCreated "dedicated_db_writer" :: post)%list /\
        no_task_created post = true
  | Raise e =>
      trace (fst (initialize_globals w g))
      = (trace g
         ++ steps_before_dedup_index w
         ++ [Raised initialize_processing_hashes])%list /\
      snd (initialize_globals w g) = Raise e
  end.
Proof.
  intros Hrun Hpool Hdb.
  unfold steps_before_dedup_index. unfold_startup.
  destruct (is_redis_running w); cbn -[download_models run_on_fs];
    [|destruct Hrun as [?|Hs]; [done|];
      rewrite Hs; cbn -[download_models run_on_fs]].
  all: rewrite Hpool; cbn -[download_models run_on_fs].
  all: rewrite Hdb; cbn -[download_models run_on_fs].
  all: destruct (initialize_processing_hashes_result w) as [[]|e2];
    cbn -[download_models run_on_fs];
    [|split; [by rewrite <- ?app_assoc | reflexivity]].
  all: destruct (USE_RAMDISK (config_now g)),
         (check_that_user_has_required_permissions_to_manage_ramdisks w);
    cbn -[download_models run_on_fs].
  all: try (destruct (run_on_fs _ _) as [d0 [[]|e3]];
            cbn -[download_models run_on_fs]).
  all: try (destruct (download_models _ _ _) as [d1 [names|e4]];
            cbn -[download_models run_on_fs]).
  all: try (destruct (build_faiss_indexes_result w) as [[i t]|e5];
            cbn -[download_models run_on_fs]).
  all: eexists; split; [by rewrite <- ?app_assoc | reflexivity].
Qed.

(** C2. In [initialize_globals], whatever the world answers: the writer
    task is handed to the event loop only after
    [initialize_processing_hashes] has returned; if
    [initialize_processing_hashes] raises, no task is created at all and
    [initialize_globals] itself raises; and when the steps before it
    succeed, [initialize_processing_hashes] is called: if it returns, the
    writer task is created right after its return, and only once, and if
    it raises, startup stops there with that error. *)
Theorem writer_starts_after_dedup_index (w : StartupWorld) (g : Globals) :
  let g' := fst (initialize_globals w g) in
  (forall pre post,
     new_trace g g' = (pre ++ TaskCreated "dedicated_db_writer" :: post)%list ->
     Returned initialize_processing_hashes ∈ pre) /\
  (forall e,
     initialize_processing_hashes_result w = Raise e ->
     (forall c, TaskCreated c ∉ new_trace g g') /\
     raises (snd (initialize_globals w g))) /\
  (forall pool,
     is_redis_running w = true \/ start_redis_server_result w = Ok tt ->
     create_redis_pool_result w "redis://localhost" = Ok pool ->
     initialize_db_result w = Ok tt ->
     match initialize_processing_hashes_result w with
     | Ok _ =>
         exists post,
           new_trace g g'
           = (steps_before_dedup_index w
              ++ Returned initialize_processing_hashes
                 :: TaskCreated "dedicated_db_writer" :: post)%list /\
           (forall c, TaskCreated c ∉ steps_before_dedup_index w) /\
           (forall c, TaskCreated c ∉ post)
     | Raise e =>
         new_trace g g'
         = (steps_before_dedup_index w
            ++ [Raised initialize_processing_hashes])%list /\
         snd (initialize_globals w g) = Raise e
     end).
Proof.
  intros g'. subst g'.
  destruct (initialize_globals_trace w g) as (evs & Ht & Hw & Hn).
  split; [|split].
  - rewrite (new_trace_app _ _ _ Ht). intros pre post Heq.
    destruct (writer_after_init_sound evs false Hw pre post _ Heq); done.
  - rewrite (new_trace_app _ _ _ Ht).
    intros e He. destruct (Hn e He) as [Hno Hr].
    split; [by apply no_task_created_sound | exact Hr].
  - intros pool Hrun Hpool Hdb.
    pose proof (initialize_globals_reaches_dedup_index w g pool
                  Hrun Hpool Hdb) as Hreach.
    destruct (initialize_processing_hashes_result w) as [[]|e].
    + destruct Hreach as (post & Hpost & Hno). exists post.
      split; [by apply new_trace_app|].
      split; [|by apply no_task_created_sound].
      apply no_task_created_sound. unfold steps_before_dedup_index.
      by destruct (is_redis_running w).
    + destruct Hreach as [Hpost Hres].
      split; [by apply new_trace_app | exact Hres].
Qed.

(** Startup in a world where every collaborator answers: the writer task
    is created, right after the return of [initialize_processing_hashes]. *)
Lemma writer_starts_after_dedup_index_witness :
  exists post,
    new_trace DemoStartup.g0
      (fst (initialize_globals (DemoStartup.world (Ok tt)) DemoStartup.g0))
    = (steps_before_dedup_index (DemoStartup.world (Ok tt))
       ++ Returned initialize_processing_hashes
          :: TaskCreated "dedicated_db_writer" :: post)%list /\
    (forall c,
       TaskCreated c ∉ steps_before_dedup_index (DemoStartup.world (Ok tt))) /\
    (forall c, TaskCreated c ∉ post).
Proof.
  exact (proj2 (proj2 (writer_starts_after_dedup_index
                         (DemoStartup.world (Ok tt)) DemoStartup.g0))
           {| address := "redis://localhost" |}
           (or_intror eq_refl) eq_refl eq_refl).
Defined.

(** C8. When [initialize_globals] completes, the global lock manager
    carries the attributes default_lock_timeout = 20000, retry_count = 5,
    retry_delay_min = 100 and retry_delay_max = 1000. *)
Theorem lock_manager_defaults (w : StartupWorld) (g g' : Globals) :
  initialize_globals w g = (g', Ok tt) ->
  exists lm,
    lock_manager g' = Some lm /\ lock_manager_configured lm.
Proof.
  assert (Hc : forall lm0,
             lock_manager_configured
               (setattr "retry_delay_max" (SInt 1000)
                  (setattr "retry_delay_min" (SInt 100)
                     (setattr "retry_count" (SInt 5)
                        (setattr "default_lock_timeout" (SInt 20000) lm0))))).
  { intros lm0. unfold lock_manager_configured, setattr. cbn.
    repeat split; by simplify_map_eq. }
  unfold_startup.
  destruct (is_redis_running w); cbn -[download_models run_on_fs setattr];
    [|destruct (start_redis_server_result w) as [[]|e];
      cbn -[download_models run_on_fs setattr]; [|discriminate]].
  all: destruct (create_redis_pool_result w _) as [pool|e0];
    cbn -[download_models run_on_fs setattr]; [|discriminate].
  all: destruct (initialize_db_result w) as [[]|e1];
    cbn -[download_models run_on_fs setattr]; [|discriminate].
  all: destruct (initialize_processing_hashes_result w) as [[]|e2];
    cbn -[download_models run_on_fs setattr]; [|discriminate].
  all: destruct (USE_RAMDISK (config_now g)),
         (check_that_user_has_required_permissions_to_manage_ramdisks w);
    cbn -[download_models run_on_fs setattr].
  all: try (destruct (run_on_fs _ _) as [d0 [[]|e3]];
            cbn -[download_models run_on_fs setattr]; [|discriminate]).
  all: destruct (download_models _ _ _) as [d1 [names|e4]];
    cbn -[download_models run_on_fs setattr]; [|discriminate].
  all: destruct (build_faiss_indexes_result w) as [[i t]|e5];
    cbn -[download_models run_on_fs setattr]; [|discriminate].
  all: intros [= <-]; eexists; split; [reflexivity | apply Hc].
Qed.

Lemma lock_manager_defaults_witness :
  exists lm,
    lock_manager
      (fst (initialize_globals (DemoStartup.world (Ok tt)) DemoStartup.g0))
    = Some lm /\ lock_manager_configured lm.
Proof.
  apply (lock_manager_defaults (DemoStartup.world (Ok tt)) DemoStartup.g0).
  vm_compute. reflexivity.
Defined.

(** ** The registration of the expiry sweep *)

Section ExpirySweepFacts.
Context {SessionFactory : Type}
        (delete_expired_rows : SessionFactory -> list Effect * PyObject)
        (AsyncSessionLocal : SessionFactory).

(** From the code alone: [delete_expired_rows(AsyncSessionLocal)] is
    evaluated when the job is registered, whatever it does takes place
    then, and what it returns is what the scheduler is given, to run
    every 3600 seconds. *)
Lemma register_expiry_sweep_evaluates_argument :
  register_expiry_sweep delete_expired_rows AsyncSessionLocal true =
    (map (fun e => (0, e)) (fst (delete_expired_rows AsyncSessionLocal)),
     match snd (delete_expired_rows AsyncSessionLocal) with
     | PyCallable body =>
         Ok (Some {| jobs := [{| func := body; interval_seconds := 3600 |}];
                     running := true |})
     | _ => Raise (TypeError
                     "func must be a callable or a textual reference to one")
     end).
Proof.
  unfold register_expiry_sweep.
  destruct (delete_expired_rows AsyncSessionLocal) as [effects [|body|body]];
    reflexivity.
Qed.

Lemma flat_map_singleton {A B} (f : A -> B) (l : list A) :
  flat_map (fun a => [f a]) l = map f l.
Proof. induction l as [|a l IH]; simpl; congruence. Qed.

(** If [delete_expired_rows] deletes nothing when called and returns the
    operation that does, rows are deleted at the end of each hour and at
    no other time. *)
Lemma sweep_timeline_of_factory (n : nat) :
  delete_expired_rows AsyncSessionLocal = ([], PyCallable [DeleteExpiredRows]) ->
  sweep_timeline delete_expired_rows AsyncSessionLocal true n =
    map (fun k => (Z.of_nat k * 3600, DeleteExpiredRows)) (seq 1 n).
Proof.
  intros H. unfold sweep_timeline.
  rewrite register_expiry_sweep_evaluates_argument, H. cbn.
  rewrite app_nil_r. unfold job_runs. cbn.
  apply flat_map_singleton.
Qed.
End ExpirySweepFacts.


(** * Further properties of the module *)

(** ** [is_gpu_available] *)

Lemma int_add_spec (acc : Z) (v : Scalar) :
  int_add acc v = match scalar_int v with
                  | Some n => Ok (acc + n)
                  | None => Raise (TypeError
                      "unsupported operand type(s) for +: 'int' and 'str'")
                  end.
Proof. by destruct v. Qed.

(** The sum over the entries succeeds exactly when every entry has a
    numeric 'mem_total', and is then the sum of these numbers. *)
Lemma sum_mem_total_ok (gpu_info : list GpuDict) (acc : Z) :
  Forall (fun gpu => is_Some (mem_total_of gpu)) gpu_info ->
  sum_mem_total acc gpu_info = Ok (acc + sum_Z (omap mem_total_of gpu_info)).
Proof.
  intros H. revert acc. induction H as [|gpu rest [m Hm] _ IH]; intros acc.
  - simpl. f_equal. unfold sum_Z. simpl. lia.
  - assert (Ho : omap mem_total_of (gpu :: rest)
                 = m :: omap mem_total_of rest) by (simpl; by rewrite Hm).
    rewrite Ho. clear Ho.
    cbn [sum_mem_total]. unfold mem_total_of in Hm. unfold getitem.
    destruct (gpu !! "mem_total") as [v|] eqn:Hv; [|done].
    cbn [ResultMonad.bind]. rewrite int_add_spec, Hm.
    cbn [ResultMonad.bind]. rewrite IH.
    f_equal. unfold sum_Z. cbn [foldr]. lia.
Qed.

Lemma sum_mem_total_Ok_inv (gpu_info : list GpuDict) (acc t : Z) :
  sum_mem_total acc gpu_info = Ok t ->
  Forall (fun gpu => is_Some (mem_total_of gpu)) gpu_info.
Proof.
  revert acc. induction gpu_info as [|gpu rest IH]; intros acc H; [done|].
  simpl in H. unfold getitem in H.
  destruct (gpu !! "mem_total") as [v|] eqn:Hv; [|done]. simpl in H.
  rewrite int_add_spec in H.
  destruct (scalar_int v) as [n|] eqn:Hn; [|done]. simpl in H.
  constructor; [|by eapply IH].
  unfold mem_total_of. rewrite Hv, Hn. eauto.
Qed.

(** X1. The probe reports a GPU exactly when nvgpu could be imported, its
    query returns a list that is not empty, and every entry of the list has
    a number under 'mem_total'. *)
Theorem gpu_detected_iff (g : GpuEnv) :
  gpu_detected g <->
  GPU_AVAILABLE g = true /\
  exists gpu_info,
    nvgpu_gpu_info g = Ok gpu_info /\ gpu_info <> [] /\
    Forall (fun gpu => is_Some (mem_total_of gpu)) gpu_info.
Proof.
  unfold gpu_detected, is_gpu_available. split.
  - intros (d & Hd & Hf).
    destruct (GPU_AVAILABLE g); simpl in Hd;
      [|injection Hd as <-; by simplify_map_eq].
    split; [done|].
    destruct (nvgpu_gpu_info g) as [gpu_info|e]; simpl in Hd;
      [|injection Hd as <-; by simplify_map_eq].
    exists gpu_info. split; [done|].
    destruct gpu_info as [|first rest];
      [injection Hd as <-; by simplify_map_eq|].
    split; [done|].
    destruct (sum_mem_total 0 (first :: rest)) as [t|e2] eqn:Hs;
      [by eapply sum_mem_total_Ok_inv|].
    exfalso.
    destruct (Z.of_nat (length (first :: rest)) =? 0)%Z;
      [injection Hd as <-; by simplify_map_eq|].
    cbn [getitem0 ResultMonad.bind] in Hd.
    destruct (getitem first "mem_total") as [v|e1];
      cbn [ResultMonad.bind ResultMonad.try_except] in Hd;
      injection Hd as <-; by simplify_map_eq.
  - intros (-> & gpu_info & -> & Hne & Hall). simpl.
    destruct gpu_info as [|first rest]; [done|].
    destruct (Z.of_nat (length (first :: rest)) =? 0)%Z eqn:Hz;
      [apply Z.eqb_eq in Hz; simpl in Hz; lia|].
    rewrite (sum_mem_total_ok _ _ Hall).
    inversion Hall as [|? ? [m Hm] _]; subst.
    unfold mem_total_of in Hm. cbn [getitem0 ResultMonad.bind]. unfold getitem.
    destruct (first !! "mem_total") as [v|]; [|done]. simpl.
    eexists. split; [reflexivity|]. by simplify_map_eq.
Qed.

(** The three answers of the probe. *)
Lemma is_gpu_available_cases (g : GpuEnv) :
  (exists gpu_info v t,
     nvgpu_gpu_info g = Ok gpu_info /\
     is_gpu_available g = Ok (gpu_dict gpu_info v t)) \/
  (GPU_AVAILABLE g = true /\ nvgpu_gpu_info g = Ok [] /\
   is_gpu_available g = Ok no_gpu_dict) \/
  (~ (GPU_AVAILABLE g = true /\ nvgpu_gpu_info g = Ok []) /\
   exists msg, is_gpu_available g = Ok (<["error" := VStr msg]> no_gpu_dict)).
Proof.
  unfold is_gpu_available.
  destruct (GPU_AVAILABLE g); cbn [negb];
    [|right; right; split; [by intros [? _] | eauto]].
  destruct (nvgpu_gpu_info g) as [gpu_info|e];
    cbn [ResultMonad.bind ResultMonad.try_except];
    [|right; right; split; [by intros [_ ?] | eauto]].
  destruct gpu_info as [|first rest]; [right; left; done|].
  destruct (Z.of_nat (length (first :: rest)) =? 0)%Z eqn:Hz;
    [apply Z.eqb_eq in Hz; simpl in Hz; lia|].
  cbn [getitem0 ResultMonad.bind].
  destruct (getitem first "mem_total") as [v|e1];
    cbn [ResultMonad.bind ResultMonad.try_except];
    [|right; right; split; [by intros [_ ?] | eauto]].
  destruct (sum_mem_total 0 (first :: rest)) as [t|e2];
    cbn [ResultMonad.bind ResultMonad.try_except];
    [|right; right; split; [by intros [_ ?] | eauto]].
  left. exists (first :: rest), v, t. done.
Qed.

(** X2. When nvgpu is there and every entry of its answer has a number
    under 'mem_total', the probe reports the number of entries, the memory
    of the first entry and the sum of the memories of all entries, and
    hands the entries back under 'gpu_info'. *)
Theorem gpu_report_values (g : GpuEnv) (first : GpuDict)
    (rest : list GpuDict) (v : Scalar) :
  GPU_AVAILABLE g = true ->
  nvgpu_gpu_info g = Ok (first :: rest) ->
  Forall (fun gpu => is_Some (mem_total_of gpu)) (first :: rest) ->
  first !! "mem_total" = Some v ->
  is_gpu_available g =
    Ok (gpu_dict (first :: rest) v
          (sum_Z (omap mem_total_of (first :: rest)))).
Proof.
  intros Ha Hq Hall Hv. unfold is_gpu_available. rewrite Ha, Hq.
  cbn [negb ResultMonad.bind].
  destruct (Z.of_nat (length (first :: rest)) =? 0)%Z eqn:Hz;
    [apply Z.eqb_eq in Hz; simpl in Hz; lia|].
  cbn [getitem0 ResultMonad.bind]. unfold getitem. rewrite Hv.
  cbn [ResultMonad.bind]. rewrite (sum_mem_total_ok _ _ Hall).
  reflexivity.
Qed.

Lemma gpu_report_values_witness :
  is_gpu_available DemoGpu.two_gpus =
    Ok (gpu_dict [ {[ "mem_total" := SInt 24576 ]};
                   {[ "mem_total" := SInt 8192 ]} ]
          (SInt 24576) 32768).
Proof.
  assert (Hall : Forall (fun gpu : GpuDict => is_Some (mem_total_of gpu))
                   [ {[ "mem_total" := SInt 24576 ]};
                     {[ "mem_total" := SInt 8192 ]} ])
    by (repeat constructor; vm_compute; eauto).
  exact (gpu_report_values DemoGpu.two_gpus
           {[ "mem_total" := SInt 24576 ]}
           [ {[ "mem_total" := SInt 8192 ]} ] (SInt 24576)
           eq_refl eq_refl Hall eq_refl).
Defined.

(** X3. The probe answers all or nothing. Either it reports a GPU, or
    the answer says 'gpu_found' false with 'num_gpus', 'first_gpu_vram' and
    'total_vram' all 0 and without 'gpu_info', however many well-formed
    entries the query listed before the one that made it fail. The key
    'error' is then absent only when the query succeeded with no entry. *)
Theorem gpu_report_all_or_nothing (g : GpuEnv) :
  gpu_detected g \/
  exists d,
    is_gpu_available g = Ok d /\
    d !! "gpu_found" = Some (VBool false) /\
    d !! "num_gpus" = Some (VInt 0) /\
    d !! "first_gpu_vram" = Some (VInt 0) /\
    d !! "total_vram" = Some (VInt 0) /\
    d !! "gpu_info" = None /\
    (d !! "error" = None <->
     GPU_AVAILABLE g = true /\ nvgpu_gpu_info g = Ok []).
Proof.
  destruct (is_gpu_available_cases g)
    as [(gpu_info & v & t & _ & H)|[(Ha & Hq & H)|(Hn & msg & H)]].
  - left. eexists. split; [exact H|]. unfold gpu_dict. by simplify_map_eq.
  - right. eexists. split; [exact H|]. unfold no_gpu_dict.
    do 5 (split; [by simplify_map_eq|]). split; [done|].
    intros _. by simplify_map_eq.
  - right. eexists. split; [exact H|]. unfold no_gpu_dict.
    do 5 (split; [by simplify_map_eq|]).
    split; [intros He; by simplify_map_eq | done].
Qed.

Example gpu_report_broken_entry :
  exists msg,
    is_gpu_available DemoGpu.broken_entry
    = Ok (<["error" := VStr msg]> no_gpu_dict).
Proof. eexists. vm_compute. reflexivity. Qed.

(** ** [load_model] *)

Lemma gpu_detected_found (g : GpuEnv) :
  gpu_detected g <-> gpu_found_now g = true.
Proof.
  unfold gpu_detected, gpu_found_now.
  destruct (is_gpu_available_cases g)
    as [(gpu_info & v & t & _ & H)|[(Ha & Hq & H)|(Hn & msg & H)]];
    rewrite H; unfold gpu_dict, no_gpu_dict.
  - split; [intros _; by simplify_map_eq|].
    intros _. eexists. split; [reflexivity | by simplify_map_eq].
  - split; [intros (d & [= <-] & Hf); by simplify_map_eq|].
    by simplify_map_eq.
  - split; [intros (d & [= <-] & Hf); by simplify_map_eq|].
    by simplify_map_eq.
Qed.

(** The construction step, written out. *)
Lemma construct_and_publish_outcome (cfg : Config) (w : World)
    (name : string) (st : ModelState) :
  construct_and_publish cfg w name st = construct_outcome cfg w name st.
Proof.
  assert (Hf : exists d b,
             is_gpu_available (gpu_env w) = Ok d /\
             d !! "gpu_found" = Some (VBool b)).
  { destruct (is_gpu_available_cases (gpu_env w))
      as [(gpu_info & v & t & _ & H)|[(Ha & Hq & H)|(Hn & msg & H)]];
      rewrite H; eexists _, _; (split; [reflexivity|]);
      unfold gpu_dict, no_gpu_dict; by simplify_map_eq. }
  destruct Hf as (d & b & Hd & Hb).
  unfold construct_and_publish, construct_outcome, gpu_found_now.
  unfold StateExn.bind at 1. unfold StateExn.lift at 1. rewrite Hd.
  unfold StateExn.bind at 1. unfold StateExn.lift at 1. unfold getitem.
  rewrite Hb. cbn [truthy VBool].
  unfold StateExn.bind, StateExn.try_except, construct, cache_store,
    StateExn.modify, StateExn.ret, after_calls.
  destruct b.
  - destruct (llama_cpp_Llama w _ (gpu_args _ _)); [|reflexivity].
    cbn. rewrite length_app. cbn [length].
    replace (length (llama_calls st) + 1)%nat
      with (S (length (llama_calls st))) by lia.
    destruct (llama_cpp_Llama w _ (cpu_args _ _));
      cbn; by rewrite <- app_assoc.
  - by destruct (llama_cpp_Llama w _ (cpu_args _ _)).
Qed.

Lemma load_model_written_out (cfg : Config) (w : World) (name : string)
    (r : bool) (st : ModelState) :
  load_model cfg w name r st = load_model_outcome cfg w name r st.
Proof.
  unfold load_model_outcome.
  destruct (embedding_model_cache st !! name) as [h|] eqn:Hc.
  { by apply load_model_cache_hit. }
  destruct (glob_glob w (model_pattern cfg name)) as [|f fs] eqn:Hg.
  { rewrite load_model_unfold, load_model_body_no_file by done.
    cbn. unfold not_found_error. reflexivity. }
  cbn [is_nil].
  destruct (matches_can_be_stated cfg w name) eqn:Hstat; cbn [negb].
  2:{ destruct (load_model_body_unstated cfg w name st Hc) as [p Hp];
        [by rewrite Hg | done |].
      by rewrite load_model_unfold, Hp. }
  rewrite load_model_unfold, load_model_body_miss;
    [|done|by rewrite Hg|done].
  destruct (contains "llava" name); [reflexivity|].
  rewrite construct_and_publish_outcome.
  by destruct (construct_outcome cfg w name st) as [st' [v|e]].
Qed.

Lemma new_calls_after (st : ModelState) (calls : list LlamaArgs)
    (entry : option (string * Llama)) :
  new_calls st (after_calls st calls entry) = calls.
Proof. unfold new_calls, after_calls. cbn. apply drop_app_length. Qed.

Lemma new_calls_same (st : ModelState) : new_calls st st = [].
Proof. unfold new_calls. apply drop_all. Qed.

(** X4. For a model name without 'llava' that is not in the cache and has
    a matching file, every matching file having a modification time that
    can be read, when no GPU is detected: the constructor is called once,
    without GPU acceleration. If it returns, the handle is stored
    under the name and returned; if it raises, nothing is stored, a
    [TypeError] leaves [load_model] as it is and any other error leaves it
    as the not-found error (HTTP 404 when [raise_http_exception] is true). *)
Theorem load_model_without_gpu (cfg : Config) (w : World) (name : string)
    (r : bool) (st : ModelState) :
  contains "llava" name = false ->
  embedding_model_cache st !! name = None ->
  glob_glob w (model_pattern cfg name) <> [] ->
  matches_can_be_stated cfg w name = true ->
  gpu_found_now (gpu_env w) = false ->
  let path := chosen_model_file cfg w name in
  let n := length (llama_calls st) in
  let st' := fst (load_model cfg w name r st) in
  let res := snd (load_model cfg w name r st) in
  new_calls st st' = [cpu_args cfg path] /\
  match llama_cpp_Llama w n (cpu_args cfg path) with
  | None =>
      let h := {| obj_id := n; llama_args := cpu_args cfg path |} in
      res = Ok (Some h) /\
      embedding_model_cache st' = <[name := h]> (embedding_model_cache st)
  | Some e =>
      res = Raise (if is_TypeError e then e else not_found_error name r) /\
      embedding_model_cache st' = embedding_model_cache st
  end.
Proof.
  intros Hl Hc Hg Hs Hgpu path n st' res. subst st' res.
  rewrite load_model_written_out. unfold load_model_outcome.
  rewrite Hc, (is_nil_false _ Hg), Hs, Hl. cbn [negb fst snd].
  unfold construct_outcome. rewrite Hgpu. fold path n.
  destruct (llama_cpp_Llama w n (cpu_args cfg path)) as [e|];
    cbn [fst snd]; rewrite new_calls_after; done.
Qed.

Lemma demo_no_gpu_found : gpu_found_now DemoCpu.no_gpu = false.
Proof. reflexivity. Qed.

Lemma load_model_without_gpu_witness :
  snd (load_model Demo.cfg (DemoCpu.world DemoCpu.out_of_memory) "bge-m3"
         true Demo.st0)
  = Raise (HTTPException 404 "Model file not found").
Proof.
  assert (Hg : glob_glob (DemoCpu.world DemoCpu.out_of_memory)
                 (model_pattern Demo.cfg "bge-m3") <> [])
    by (vm_compute; discriminate).
  exact (proj1 (proj2 (load_model_without_gpu Demo.cfg
                         (DemoCpu.world DemoCpu.out_of_memory) "bge-m3" true
                         Demo.st0 eq_refl eq_refl Hg eq_refl
                         demo_no_gpu_found))).
Defined.

(** X5. Whatever the state and the world, [load_model] calls the
    constructor at most twice, and only for a name without 'llava' that is
    not in the cache and has a matching file. Every call is for the chosen
    file, with [embedding] on and with the context size and verbosity of
    the configuration. *)
Theorem load_model_constructor_calls (cfg : Config) (w : World)
    (name : string) (r : bool) (st : ModelState) :
  let st' := fst (load_model cfg w name r st) in
  llama_calls st' = (llama_calls st ++ new_calls st st')%list /\
  (length (new_calls st st') <= 2)%nat /\
  Forall (fun a =>
            model_path a = chosen_model_file cfg w name /\
            embedding a = true /\
            n_ctx a = LLM_CONTEXT_SIZE_IN_TOKENS cfg /\
            verbose a = USE_VERBOSE cfg)
         (new_calls st st') /\
  (new_calls st st' <> [] ->
   contains "llava" name = false /\
   embedding_model_cache st !! name = None /\
   glob_glob w (model_pattern cfg name) <> []).
Proof.
  intros st'. subst st'.
  rewrite load_model_written_out. unfold load_model_outcome.
  assert (Hnone : llama_calls st = (llama_calls st ++ new_calls st st)%list /\
                  (length (new_calls st st) <= 2)%nat /\
                  Forall (fun a =>
                            model_path a = chosen_model_file cfg w name /\
                            embedding a = true /\
                            n_ctx a = LLM_CONTEXT_SIZE_IN_TOKENS cfg /\
                            verbose a = USE_VERBOSE cfg)
                         (new_calls st st) /\
                  (new_calls st st <> [] ->
                   contains "llava" name = false /\
                   embedding_model_cache st !! name = None /\
                   glob_glob w (model_pattern cfg name) <> [])).
  { rewrite new_calls_same, app_nil_r.
    split; [done|]. split; [cbn; lia|]. split; [constructor | done]. }
  destruct (embedding_model_cache st !! name) as [h|] eqn:Hc; [exact Hnone|].
  destruct (glob_glob w (model_pattern cfg name)) as [|f fs] eqn:Hg;
    [exact Hnone|].
  cbn [is_nil].
  destruct (matches_can_be_stated cfg w name); cbn [negb]; [|exact Hnone].
  destruct (contains "llava" name) eqn:Hl; [exact Hnone|]. clear Hnone.
  cbn [fst]. unfold construct_outcome.
  destruct (gpu_found_now (gpu_env w));
    repeat (destruct (llama_cpp_Llama w _ _)); cbn [fst];
    rewrite new_calls_after;
    (split; [reflexivity|]); (split; [cbn; lia|]);
    (split; [repeat constructor|done]).
Qed.

(** X6. [load_model] changes the cache in one way only: on the first
    successful construction for a name that was not there, it adds the
    handle it returns under that name. In every other case, and whenever it
    raises, the cache is left exactly as it was. *)
Theorem load_model_cache_change (cfg : Config) (w : World) (name : string)
    (r : bool) (st : ModelState) :
  let st' := fst (load_model cfg w name r st) in
  let res := snd (load_model cfg w name r st) in
  (embedding_model_cache st' = embedding_model_cache st \/
   (embedding_model_cache st !! name = None /\
    exists h,
      res = Ok (Some h) /\
      embedding_model_cache st' = <[name := h]> (embedding_model_cache st))) /\
  (raises res -> embedding_model_cache st' = embedding_model_cache st).
Proof.
  intros st' res. subst st' res.
  rewrite load_model_written_out. unfold load_model_outcome.
  destruct (embedding_model_cache st !! name) as [h|] eqn:Hc;
    [split; [by left | done]|].
  destruct (is_nil _); [split; [by left | done]|].
  destruct (matches_can_be_stated cfg w name); cbn [negb];
    [|split; [by left | done]].
  destruct (contains "llava" name); [split; [by left | done]|].
  cbn [fst snd]. unfold construct_outcome.
  destruct (gpu_found_now (gpu_env w));
    repeat (destruct (llama_cpp_Llama w _ _)); cbn;
    (split; [|done]);
    first [ by left | right; split; [done | eauto] ].
Qed.

(** X7. The only errors that leave [load_model] are the not-found error
    for the name (HTTP 404 or [FileNotFoundError], by the flag) and a
    [TypeError] that the constructor raised when called without GPU
    acceleration. A failed construction of any other kind is reported as
    the not-found error. *)
Theorem load_model_errors (cfg : Config) (w : World) (name : string)
    (r : bool) (st : ModelState) (e : PyExn) :
  snd (load_model cfg w name r st) = Raise e ->
  e = not_found_error name r \/
  (is_TypeError e = true /\
   exists i, llama_cpp_Llama w i
               (cpu_args cfg (chosen_model_file cfg w name)) = Some e).
Proof.
  rewrite load_model_written_out. unfold load_model_outcome.
  destruct (embedding_model_cache st !! name) as [h|]; [done|].
  destruct (is_nil _); [intros [= <-]; by left|].
  destruct (matches_can_be_stated cfg w name); cbn [negb];
    [|intros [= <-]; by left].
  destruct (contains "llava" name); [done|].
  cbn [snd]. unfold construct_outcome.
  destruct (gpu_found_now (gpu_env w)).
  - destruct (llama_cpp_Llama w _ (gpu_args _ _)); [|done].
    destruct (llama_cpp_Llama w _ (cpu_args _ _)) as [e2|] eqn:H2; [|done].
    cbn. intros [= <-]. destruct (is_TypeError e2) eqn:Ht; [right|by left].
    split; [done|eauto].
  - destruct (llama_cpp_Llama w _ (cpu_args _ _)) as [e2|] eqn:H2; [|done].
    cbn. intros [= <-]. destruct (is_TypeError e2) eqn:Ht; [right|by left].
    split; [done|eauto].
Qed.

Lemma load_model_errors_witness :
  HTTPException 404 "Model file not found" = not_found_error "bge-m3" true \/
  (is_TypeError (HTTPException 404 "Model file not found") = true /\
   exists i, llama_cpp_Llama (Demo.world Demo.always_fails) i
               (cpu_args Demo.cfg
                  (chosen_model_file Demo.cfg (Demo.world Demo.always_fails)
                     "bge-m3"))
             = Some (HTTPException 404 "Model file not found")).
Proof.
  apply (load_model_errors Demo.cfg (Demo.world Demo.always_fails) "bge-m3"
           true Demo.st0).
  vm_compute. reflexivity.
Defined.

Lemma load_model_keeps_no_llava (cfg : Config) (w : World) (name : string)
    (r : bool) (st : ModelState) :
  no_llava_cached st ->
  no_llava_cached (fst (load_model cfg w name r st)).
Proof.
  intros Hinv. rewrite load_model_written_out. unfold load_model_outcome.
  destruct (embedding_model_cache st !! name) as [h|]; [done|].
  destruct (is_nil _); [done|].
  destruct (matches_can_be_stated cfg w name); cbn [negb]; [|done].
  destruct (contains "llava" name) eqn:Hl; [done|].
  cbn [fst]. unfold construct_outcome.
  destruct (gpu_found_now (gpu_env w));
    repeat (destruct (llama_cpp_Llama w _ _)); cbn [fst];
    intros k; unfold after_calls; cbn [embedding_model_cache];
    try apply Hinv;
    (destruct (decide (name = k)) as [<-|Hne];
     [done | rewrite lookup_insert_ne by done; apply Hinv]).
Qed.

(** X8. Names containing 'llava' never enter the cache through
    [load_model]: if the cache holds none, it holds none after any sequence
    of [load_model] calls, and a call for such a name then returns [None]
    or raises the not-found error, never a handle. *)
Theorem llava_never_cached (calls : list Call) (st : ModelState)
    (cfg : Config) (w : World) (name : string) (r : bool) :
  no_llava_cached st ->
  no_llava_cached (run_calls calls st) /\
  (contains "llava" name = true ->
   snd (load_model cfg w name r (run_calls calls st)) = Ok None \/
   snd (load_model cfg w name r (run_calls calls st))
   = Raise (not_found_error name r)).
Proof.
  intros Hinv.
  assert (Hrun : no_llava_cached (run_calls calls st)).
  { revert st Hinv. induction calls as [|c rest IH]; intros st Hinv; [done|].
    simpl. apply IH. by apply load_model_keeps_no_llava. }
  split; [exact Hrun|].
  intros Hl. rewrite load_model_written_out. unfold load_model_outcome.
  destruct (embedding_model_cache (run_calls calls st) !! name) as [h|] eqn:Hc.
  { assert (contains "llava" name = false) by (apply Hrun; rewrite Hc; eauto).
    congruence. }
  destruct (is_nil _); [by right|].
  destruct (matches_can_be_stated cfg w name); cbn [negb]; [|by right].
  rewrite Hl. by left.
Qed.

Lemma demo_no_llava_cached : no_llava_cached Demo.st1.
Proof.
  intros k [h Hk]. unfold Demo.st1 in Hk. cbn in Hk.
  apply lookup_singleton_Some in Hk as [<- _]. reflexivity.
Qed.

Lemma llava_never_cached_witness :
  no_llava_cached
    (run_calls
       [ {| call_cfg := Demo.cfg; call_world := Demo.world Demo.gpu_fails;
            call_name := "llava-v1.5-7b"; call_raise_http_exception := true |} ]
       Demo.st1).
Proof.
  exact (proj1 (llava_never_cached
                  [ {| call_cfg := Demo.cfg;
                       call_world := Demo.world Demo.gpu_fails;
                       call_name := "llava-v1.5-7b";
                       call_raise_http_exception := true |} ]
                  Demo.st1 Demo.cfg (Demo.world Demo.gpu_fails)
                  "llava-v1.5-7b" true demo_no_llava_cached)).
Defined.

(** *** The file that is loaded *)

Lemma head_insert_desc {A} (key : A -> Z) (x : A) (l : list A) :
  head (insert_desc key x l) =
    Some (match head l with
          | Some y => if (key y <=? key x)%Z then x else y
          | None => x
          end).
Proof. destruct l as [|y ys]; [done|]. simpl. by destruct (key y <=? key x)%Z. Qed.

(** The first element of the sorted list splits the list it came from:
    everything before it has a smaller key, nothing after it a greater. *)
Lemma head_sort_desc {A} (key : A -> Z) (l : list A) (x : A) :
  head (sort_desc key l) = Some x ->
  exists l1 l2,
    l = (l1 ++ x :: l2)%list /\
    Forall (fun y => key y < key x)%Z l1 /\
    Forall (fun y => key y <= key x)%Z l2.
Proof.
  revert x. induction l as [|a l IH]; intros x Hx; [done|].
  unfold sort_desc in Hx. cbn [foldr] in Hx. fold (sort_desc key l) in Hx.
  rewrite head_insert_desc in Hx. injection Hx as Hx.
  destruct (head (sort_desc key l)) as [y|] eqn:Hy.
  - destruct (IH y eq_refl) as (l1 & l2 & -> & H1 & H2).
    destruct (key y <=? key a)%Z eqn:Hle; subst x.
    + apply Z.leb_le in Hle.
      exists [], (l1 ++ y :: l2)%list. split; [done|]. split; [constructor|].
      apply Forall_app. split.
      * eapply Forall_impl; [exact H1|]. simpl. intros; lia.
      * constructor; [done|].
        eapply Forall_impl; [exact H2|]. simpl. intros; lia.
    + apply Z.leb_gt in Hle.
      exists (a :: l1), l2. split; [done|]. split; [|done].
      constructor; [lia | done].
  - subst a. destruct l as [|b l].
    + exists [], []. repeat split; constructor.
    + exfalso. unfold sort_desc in Hy. cbn [foldr] in Hy.
      fold (sort_desc key l) in Hy. by rewrite head_insert_desc in Hy.
Qed.

(** X9. With at least one match, the file [load_model] loads is one of the
    matches; every match listed before it is strictly older and no match
    listed after it is newer: the newest file, the first of them in the
    listing if several are equally new. The times compared are those
    [load_model] sorts by, [mtime_of]: what [os.path.getmtime] returns for
    the file. *)
Theorem chosen_model_file_newest (cfg : Config) (w : World) (name : string) :
  glob_glob w (model_pattern cfg name) <> [] ->
  exists before after,
    glob_glob w (model_pattern cfg name)
    = (before ++ chosen_model_file cfg w name :: after)%list /\
    Forall (fun f => mtime_of w f
                     < mtime_of w (chosen_model_file cfg w name))%Z
           before /\
    Forall (fun f => mtime_of w f
                     <= mtime_of w (chosen_model_file cfg w name))%Z
           after.
Proof.
  intros Hg. apply head_sort_desc.
  unfold chosen_model_file.
  pose proof (sort_desc_nonempty (mtime_of w) _ Hg) as Hs.
  by destruct (sort_desc _ _).
Qed.

Lemma chosen_model_file_newest_witness :
  exists before after,
    glob_glob (Demo.world Demo.gpu_fails) (model_pattern Demo.cfg "bge-m3")
    = (before
       ++ chosen_model_file Demo.cfg (Demo.world Demo.gpu_fails) "bge-m3"
       :: after)%list /\
    Forall (fun f => mtime_of (Demo.world Demo.gpu_fails) f
                     < mtime_of (Demo.world Demo.gpu_fails)
                         (chosen_model_file Demo.cfg
                            (Demo.world Demo.gpu_fails) "bge-m3"))%Z
           before /\
    Forall (fun f => mtime_of (Demo.world Demo.gpu_fails) f
                     <= mtime_of (Demo.world Demo.gpu_fails)
                          (chosen_model_file Demo.cfg
                             (Demo.world Demo.gpu_fails) "bge-m3"))%Z
           after.
Proof.
  apply (chosen_model_file_newest Demo.cfg (Demo.world Demo.gpu_fails)
           "bge-m3").
  vm_compute. discriminate.
Defined.

(** ** [download_models] *)

Section DownloadMore.
Context (w : DlWorld) (models_dir lock_file : string).

Lemma download_one_written_out (url name : string) (st : DlState) :
  download_one w models_dir lock_file url name st
  = download_one_outcome w models_dir lock_file url name st.
Proof.
  unfold download_one_outcome.
  destruct (lock_acquire w (length (events st)) lock_file 1200) eqn:Hl;
    [|by apply download_one_timeout].
  unfold os_path_exists.
  destruct (touch_lock_file lock_file (fs st) !! os_path_join models_dir name)
    as [nd|] eqn:Hf.
  - rewrite bool_decide_eq_true_2 by eauto.
    unfold download_one, try_except_Timeout, with_lock, lock_timeout_seconds.
    rewrite Hl. unfold StateExn.bind, StateExn.get, os_path_exists.
    cbn [fs events].
    rewrite bool_decide_eq_true_2 by (rewrite Hf; eauto). cbn.
    by rewrite <- app_assoc.
  - rewrite bool_decide_eq_false_2 by (by intros [? ?]).
    destruct (urllib_request_urlretrieve w (S (length (events st))) url
                (os_path_join models_dir name)) as [size|e] eqn:Hu.
    + by rewrite (download_one_downloads w models_dir lock_file url name st size).
    + unfold download_one, try_except_Timeout, with_lock, lock_timeout_seconds.
      rewrite Hl. unfold StateExn.bind, StateExn.get, os_path_exists.
      cbn [fs events].
      rewrite bool_decide_eq_false_2 by (rewrite Hf; by intros [? ?]).
      cbn [negb]. unfold urlretrieve. cbn [fs events].
      rewrite length_app. cbn [length].
      replace (length (events st) + 1)%nat with (S (length (events st)))
        by lia.
      rewrite Hu. cbn [fs events].
      destruct (is_Timeout e); cbn; by rewrite <- !app_assoc.
Qed.
End DownloadMore.

Section DownloadLoopFacts.
Context (w : DlWorld) (models_dir lock_file : string).

(** A relation between states that holds across every turn holds across
    the loop, whether the loop returns or raises. *)
Lemma download_loop_across (P : DlState -> DlState -> Prop) :
  (forall st, P st st) ->
  (forall a b c, P a b -> P b c -> P a c) ->
  (forall url name st,
     P st (fst (download_one w models_dir lock_file url name st))) ->
  forall todo acc st,
    P st (fst (download_loop w models_dir lock_file todo acc st)).
Proof.
  intros Hrefl Htrans Hturn todo.
  induction todo as [|[url name] rest IH]; intros acc st; [apply Hrefl|].
  cbn [download_loop]. unfold StateExn.bind.
  pose proof (Hturn url name st) as H1.
  destruct (download_one w models_dir lock_file url name st) as [st1 [s|e]];
    cbn [fst] in *; [|exact H1].
  eapply Htrans; [exact H1 | apply IH].
Qed.

Lemma status_url (url : string) :
  success_status url !! "url" = Some url /\
  too_small_status url !! "url" = Some url /\
  lock_timeout_status url !! "url" = Some url.
Proof. repeat split; reflexivity. Qed.

(** The status of a turn is one of three, each for the URL of the turn. *)
Lemma download_one_status (url name : string) (st st' : DlState) (s : Status) :
  download_one w models_dir lock_file url name st = (st', Ok s) ->
  s = success_status url \/ s = too_small_status url \/
  s = lock_timeout_status url.
Proof.
  rewrite download_one_written_out. unfold download_one_outcome.
  destruct (lock_acquire w _ _ _); [|intros [= _ <-]; auto].
  destruct (os_path_exists _ _); [intros [= _ <-]; auto|].
  destruct (urllib_request_urlretrieve w _ _ _) as [size|e].
  - destruct (size <? minimum_size_in_bytes)%Z; intros [= _ <-]; auto.
  - destruct (is_Timeout e); [intros [= _ <-]; auto | done].
Qed.

(** When the loop returns, it has appended one status for each URL, in
    the order of the URLs. *)
Lemma download_loop_statuses (todo : list (string * string))
    (acc : list Status) (st st' : DlState) (ss : list Status) :
  download_loop w models_dir lock_file todo acc st = (st', Ok ss) ->
  exists new,
    ss = (acc ++ new)%list /\
    (fun s : Status => s !! "url") <$> new
    = (fun p : string * string => Some (fst p)) <$> todo /\
    Forall (fun s : Status =>
              s !! "status" = Some "success" \/
              s !! "status" = Some "failure") new.
Proof.
  revert acc st. induction todo as [|[url name] rest IH]; intros acc st H.
  - injection H as _ <-. exists []. by rewrite app_nil_r.
  - cbn [download_loop] in H. unfold StateExn.bind in H.
    destruct (download_one w models_dir lock_file url name st)
      as [st1 [s|e1]] eqn:H1; [|done].
    destruct (IH _ _ H) as (new & -> & Hurls & Hst).
    exists (s :: new). split; [by rewrite <- app_assoc|].
    apply download_one_status in H1.
    split.
    + cbn. f_equal; [|exact Hurls].
      destruct H1 as [-> | [-> | ->]]; reflexivity.
    + constructor; [|exact Hst].
      destruct H1 as [-> | [-> | ->]]; [left|right|right]; reflexivity.
Qed.
End DownloadLoopFacts.



Lemma ramdisk_statuses (urls : list string) :
  (fun s : Status => s !! "url")
    <$> map (fun url => status_dict url "success" "Model found in RAM Disk.")
            urls
  = Some <$> urls /\
  Forall (fun s : Status =>
            s !! "status" = Some "success" \/ s !! "status" = Some "failure")
         (map (fun url => status_dict url "success" "Model found in RAM Disk.")
              urls).
Proof.
  split.
  - induction urls as [|u urls IH]; [done|]. cbn. by f_equal.
  - induction urls as [|u urls IH]; [constructor|].
    constructor; [by left | exact IH].
Qed.

Lemma zip_with_basename (urls : list string) :
  (fun p : string * string => Some (fst p))
    <$> zip urls (map os_path_basename urls)
  = Some <$> urls.
Proof. induction urls as [|u urls IH]; [done|]. cbn. by f_equal. Qed.

(** What [download_models] returns once the URLs are read. *)
Lemma download_models_statuses_from (cfg : Config) (w : DlWorld)
    (urls : list string) (sz : Z) (st st' : DlState)
    (names : list string) (ss : list Status) :
  fs st !! os_path_join (BASE_DIRECTORY cfg) "model_urls.json"
    = Some (File sz (Some urls)) ->
  download_models cfg w st = (st', Ok (names, ss)) ->
  names = map os_path_basename urls /\
  (fun s : Status => s !! "url") <$> ss = Some <$> urls /\
  Forall (fun s : Status =>
            s !! "status" = Some "success" \/
            s !! "status" = Some "failure") ss.
Proof.
  intros Hj H.
  unfold download_models in H.
  unfold StateExn.bind at 1 in H. unfold StateExn.get at 1 in H.
  unfold StateExn.bind at 1 in H. unfold os_path_exists at 1 in H.
  rewrite bool_decide_eq_true_2 in H by (rewrite Hj; eauto).
  cbn [negb] in H.
  unfold StateExn.ret at 1 in H. unfold StateExn.bind at 1 in H.
  unfold read_urls at 1 in H. rewrite Hj in H.
  unfold StateExn.bind, StateExn.get, StateExn.ret, run_on_fs, os_makedirs,
    set_fs, StateExn.modify in H.
  repeat case_match; simplify_eq.
  all: split; [reflexivity|].
  all: try apply ramdisk_statuses.
  all: match goal with
       | Hloop : download_loop _ _ _ _ _ _ = (_, Ok _) |- _ =>
           destruct (download_loop_statuses _ _ _ _ _ _ _ _ Hloop)
             as (new & -> & Hu & Hs)
       end.
  all: cbn [app]; by rewrite Hu, zip_with_basename.
Qed.

(** Without model_urls.json, [download_models] goes on as if the file with
    the three initial URLs had been there. *)
Lemma download_models_writes_urls (cfg : Config) (w : DlWorld) (st : DlState) :
  fs st !! os_path_join (BASE_DIRECTORY cfg) "model_urls.json" = None ->
  download_models cfg w st =
  download_models cfg w
    {| fs := <[os_path_join (BASE_DIRECTORY cfg) "model_urls.json" :=
                 File (Z.of_nat (String.length (json_dump initial_model_urls)))
                      (Some initial_model_urls)]> (fs st);
       events := events st |}.
Proof.
  intros Hj. unfold download_models.
  unfold StateExn.bind at 1. unfold StateExn.get at 1.
  unfold StateExn.bind at 1. unfold os_path_exists at 1.
  rewrite bool_decide_eq_false_2 by (rewrite Hj; by intros [? ?]).
  cbn [negb]. unfold write_initial_urls, set_fs. unfold StateExn.modify at 1.
  symmetry.
  unfold StateExn.bind at 1. unfold StateExn.get at 1.
  unfold StateExn.bind at 1. unfold os_path_exists at 1. cbn [fs].
  rewrite bool_decide_eq_true_2 by (rewrite lookup_insert_eq; eauto).
  cbn [negb]. unfold StateExn.ret at 1. reflexivity.
Qed.



Lemma lock_discipline_app (held : bool) (l1 l2 : list Event) :
  lock_discipline held (l1 ++ l2) =
    match lock_discipline held l1 with
    | Some held' => lock_discipline held' l2
    | None => None
    end.
Proof.
  revert held. induction l1 as [|ev l1 IH]; intros held; [done|].
  destruct ev, held; cbn; try done; apply IH.
Qed.

Lemma lock_kept_refl (lock_file : string) (st : DlState) :
  lock_kept lock_file st st.
Proof. exists []. by rewrite app_nil_r. Qed.

Lemma lock_kept_trans (lock_file : string) (a b c : DlState) :
  lock_kept lock_file a b -> lock_kept lock_file b c -> lock_kept lock_file a c.
Proof.
  intros (e1 & H1 & D1 & F1) (e2 & H2 & D2 & F2).
  exists (e1 ++ e2)%list. split; [by rewrite H2, H1, app_assoc|].
  split; [by rewrite lock_discipline_app, D1 | by apply Forall_app].
Qed.

Lemma lock_kept_same_events (lock_file : string) (st st' : DlState) :
  events st' = events st -> lock_kept lock_file st st'.
Proof. intros H. exists []. by rewrite H, app_nil_r. Qed.

Lemma download_one_lock_kept (w : DlWorld) (models_dir lock_file : string)
    (url name : string) (st : DlState) :
  lock_kept lock_file st
    (fst (download_one w models_dir lock_file url name st)).
Proof.
  rewrite download_one_written_out. unfold download_one_outcome, lock_kept.
  destruct (lock_acquire w _ _ _);
    [|eexists; split; [reflexivity|]; split; [done|]; by repeat constructor].
  destruct (os_path_exists _ _);
    [eexists; split; [reflexivity|]; split; [done|]; by repeat constructor|].
  destruct (urllib_request_urlretrieve w _ _ _) as [size|e];
    [destruct (size <? minimum_size_in_bytes)%Z|];
    (eexists; split; [reflexivity|]; split; [done|]; by repeat constructor).
Qed.

(** X12. Throughout [download_models], whether it returns or raises: the
    lock is asked for with a timeout of 1200 seconds, always on the file
    download.lock of the models directory; it is never asked for while
    held; every download and every removal of a file happens while it is
    held; and it is released again after every turn, also when the
    transfer raised, so that it is free when [download_models] ends. *)
Theorem download_models_lock_discipline (cfg : Config) (w : DlWorld)
    (st : DlState) :
  let st' := fst (download_models cfg w st) in
  exists evs,
    events st' = (events st ++ evs)%list /\
    lock_discipline false evs = Some false /\
    Forall (on_lock (lock_file_of cfg)) evs.
Proof.
  intros st'. subst st'. fold (lock_kept (lock_file_of cfg) st
                                 (fst (download_models cfg w st))).
  unfold download_models.
  unfold StateExn.bind, StateExn.get, StateExn.ret, run_on_fs, os_makedirs,
    write_initial_urls, read_urls, set_fs, StateExn.modify.
  repeat case_match; simplify_eq; cbn [fst].
  all: try (apply lock_kept_same_events; reflexivity).
  all: match goal with
       | H : download_loop ?w0 ?md ?lf ?todo ?acc ?s0 = (_, _) |- _ =>
           pose proof (download_loop_across w0 md lf (lock_kept lf)
                         (lock_kept_refl lf) (lock_kept_trans lf)
                         (download_one_lock_kept w0 md lf) todo acc s0) as HP;
           rewrite H in HP; cbn [fst] in HP;
           destruct HP as (evs & He & Hd & Hf)
       end.
  all: exists evs; split; [exact He | done].
Qed.

Lemma files_kept_refl (but : string) (st : DlState) : files_kept but st st.
Proof. by intros p node. Qed.

Lemma files_kept_trans (but : string) (a b c : DlState) :
  files_kept but a b -> files_kept but b c -> files_kept but a c.
Proof. intros H1 H2 p node Hp Ha. apply H2, H1; done. Qed.

Lemma touch_lock_file_other (lock_file p : string) (fs0 : FS) :
  p <> lock_file -> touch_lock_file lock_file fs0 !! p = fs0 !! p.
Proof.
  intros Hp. unfold touch_lock_file.
  destruct (fs0 !! lock_file) as [[|sz js]|]; [done| |];
    by rewrite lookup_insert_ne.
Qed.

Lemma download_one_files_kept (w : DlWorld) (models_dir lock_file : string)
    (url name : string) (st : DlState) :
  files_kept lock_file st
    (fst (download_one w models_dir lock_file url name st)).
Proof.
  intros p node Hp Hs.
  assert (H1 : touch_lock_file lock_file (fs st) !! p = Some node)
    by (by rewrite touch_lock_file_other).
  rewrite download_one_written_out. unfold download_one_outcome.
  destruct (lock_acquire w _ _ _); [|done].
  unfold os_path_exists.
  destruct (touch_lock_file lock_file (fs st) !! os_path_join models_dir name)
    as [nd|] eqn:Hf.
  { by rewrite bool_decide_eq_true_2 by eauto. }
  rewrite bool_decide_eq_false_2 by (by intros [? ?]).
  assert (Hne : os_path_join models_dir name <> p) by (intros <-; congruence).
  destruct (urllib_request_urlretrieve w _ _ _) as [size|e]; [|done].
  destruct (size <? minimum_size_in_bytes)%Z; cbn [fst fs].
  - by rewrite lookup_delete_ne, lookup_insert_ne.
  - by rewrite lookup_insert_ne.
Qed.

Lemma insert_fresh_kept (m : FS) (q p : string) (nd node : Node) :
  m !! q = None -> m !! p = Some node -> <[q := nd]> m !! p = Some node.
Proof. intros Hq Hp. rewrite lookup_insert_ne; [done|]. intros <-. congruence. Qed.

(** Follows a path that holds something through [download_models] run
    without a RAM disk. *)
Ltac download_models_kept Hr Hp :=
  unfold download_models;
  unfold StateExn.bind, StateExn.get, StateExn.ret, run_on_fs, os_makedirs,
    write_initial_urls, read_urls, set_fs, StateExn.modify;
  rewrite Hr;
  repeat case_match; simplify_eq; cbn [fst fs];
  try done;
  repeat match goal with
         | H : negb (os_path_exists _ _) = true |- _ =>
             apply negb_true_iff, bool_decide_eq_false in H;
             rewrite <- eq_None_not_Some in H
         end;
  cbn [fs] in *;
  try match goal with
      | H : download_loop ?w0 ?md ?lf ?todo ?acc ?s0 = (_, _) |- _ =>
          let HP := fresh "HP" in
          pose proof (download_loop_across w0 md lf (files_kept lf)
                        (files_kept_refl lf) (files_kept_trans lf)
                        (download_one_files_kept w0 md lf) todo acc s0) as HP;
          rewrite H in HP; cbn [fst] in HP;
          apply HP; [exact Hp|]; cbn [fs]
      end;
  repeat (apply insert_fresh_kept; [assumption|]); assumption.

(** X13. Without a RAM disk, [download_models] never removes or
    overwrites what was on disk before it ran: every path that held a file
    or a directory, its own lock file apart, holds the same afterwards,
    whether [download_models] returns or raises. *)
Theorem download_models_keeps_files (cfg : Config) (w : DlWorld)
    (st : DlState) (p : string) (node : Node) :
  USE_RAMDISK cfg = false ->
  p <> lock_file_of cfg ->
  fs st !! p = Some node ->
  fs (fst (download_models cfg w st)) !! p = Some node.
Proof.
  intros Hr Hp Hs.
  download_models_kept Hr Hp.
Qed.

Lemma download_models_keeps_files_witness :
  fs (fst (download_models Demo.cfg (DemoDl.world 5000 true)
             DemoDl.st_present)) !! DemoDl.filename
  = Some (File 635000000 None).
Proof.
  apply (download_models_keeps_files Demo.cfg (DemoDl.world 5000 true)
           DemoDl.st_present DemoDl.filename (File 635000000 None)).
  - reflexivity.
  - vm_compute. discriminate.
  - vm_compute. reflexivity.
Defined.

(** X14. A download that was refused for being too small leaves nothing
    behind: at the next attempt for the same file, in the same run or a
    later one, once the lock is obtained the file is downloaded again
    rather than taken as already there, and with a transfer of at least
    100 MB it is kept and the status is a success. *)
Theorem download_again_after_too_small (w1 w2 : DlWorld)
    (models_dir lock_file url name : string) (st : DlState) (size1 size2 : Z) :
  let filename := os_path_join models_dir name in
  let n := length (events st) in
  lock_acquire w1 n lock_file 1200 = true ->
  touch_lock_file lock_file (fs st) !! filename = None ->
  urllib_request_urlretrieve w1 (S n) url filename = Ok size1 ->
  (size1 < minimum_size_in_bytes)%Z ->
  let st1 := fst (download_one w1 models_dir lock_file url name st) in
  let n1 := length (events st1) in
  lock_acquire w2 n1 lock_file 1200 = true ->
  urllib_request_urlretrieve w2 (S n1) url filename = Ok size2 ->
  (minimum_size_in_bytes <= size2)%Z ->
  fs st1 !! filename = None /\
  snd (download_one w2 models_dir lock_file url name st1)
  = Ok (success_status url) /\
  new_events st1 (fst (download_one w2 models_dir lock_file url name st1))
  = [EvLockAcquire lock_file 1200 true; EvDownload url filename;
     EvLockRelease lock_file] /\
  fs (fst (download_one w2 models_dir lock_file url name st1)) !! filename
  = Some (File size2 None).
Proof.
  intros filename n Hl1 Hn Hu1 Hs1 st1 n1 Hl2 Hu2 Hs2.
  assert (Hne : filename <> lock_file).
  { intros Heq. rewrite Heq in Hn. unfold touch_lock_file in Hn.
    destruct (fs st !! lock_file) as [[|sz js]|] eqn:Hlf;
      [congruence | by rewrite lookup_insert_eq in Hn
                  | by rewrite lookup_insert_eq in Hn]. }
  assert (Hst1 : st1 =
            {| fs := delete filename
                       (<[filename := File size1 None]>
                          (touch_lock_file lock_file (fs st)));
               events := events st ++ [EvLockAcquire lock_file 1200 true;
                                       EvDownload url filename;
                                       EvRemove filename;
                                       EvLockRelease lock_file] |}).
  { subst st1. rewrite download_one_written_out. unfold download_one_outcome.
    fold filename n. rewrite Hl1. unfold os_path_exists.
    rewrite bool_decide_eq_false_2 by (rewrite Hn; by intros [? ?]).
    rewrite Hu1.
    by destruct (size1 <? minimum_size_in_bytes)%Z eqn:Hlt;
      [|apply Z.ltb_ge in Hlt; lia]. }
  assert (Hgone : fs st1 !! filename = None)
    by (rewrite Hst1; cbn [fs]; apply lookup_delete_eq).
  assert (Hgone' : touch_lock_file lock_file (fs st1) !! filename = None)
    by (by rewrite touch_lock_file_other).
  split; [exact Hgone|].
  rewrite download_one_written_out. unfold download_one_outcome.
  fold filename n1. rewrite Hl2. unfold os_path_exists.
  rewrite bool_decide_eq_false_2 by (rewrite Hgone'; by intros [? ?]).
  rewrite Hu2.
  destruct (size2 <? minimum_size_in_bytes)%Z eqn:Hlt;
    [apply Z.ltb_lt in Hlt; lia|].
  cbn [fst snd fs]. split; [done|].
  split; [by apply new_events_app | apply lookup_insert_eq].
Qed.

Lemma download_again_after_too_small_witness :
  snd (download_one DemoFail.second_try DemoDl.models_dir DemoDl.lock_file
         DemoDl.url "bge-m3-q8_0.gguf"
         (fst (download_one DemoFail.second_try DemoDl.models_dir
                 DemoDl.lock_file DemoDl.url "bge-m3-q8_0.gguf"
                 DemoDl.st_empty)))
  = Ok (success_status DemoDl.url).
Proof.
  assert (Hn : touch_lock_file DemoDl.lock_file (fs DemoDl.st_empty)
               !! os_path_join DemoDl.models_dir "bge-m3-q8_0.gguf" = None)
    by (vm_compute; reflexivity).
  assert (H1 : (5000 < minimum_size_in_bytes)%Z) by (vm_compute; reflexivity).
  assert (H2 : (minimum_size_in_bytes <= 635000000)%Z)
    by (vm_compute; discriminate).
  exact (proj1 (proj2 (download_again_after_too_small
                         DemoFail.second_try DemoFail.second_try
                         DemoDl.models_dir DemoDl.lock_file DemoDl.url
                         "bge-m3-q8_0.gguf" DemoDl.st_empty 5000 635000000
                         eq_refl Hn eq_refl H1 eq_refl eq_refl H2))).
Defined.

(** The way out of [download_models] through the RAM disk, with
    model_urls.json in place. *)
Lemma download_models_ramdisk_hit (cfg : Config) (w : DlWorld)
    (st : DlState) (sz : Z) (urls : list string) :
  USE_RAMDISK cfg = true ->
  fs st !! os_path_join (BASE_DIRECTORY cfg) "model_urls.json"
    = Some (File sz (Some urls)) ->
  is_Some (fs st !! RAMDISK_PATH cfg) ->
  Forall (fun url =>
            is_Some (fs st !! os_path_join
                                (os_path_join (RAMDISK_PATH cfg) "models")
                                (os_path_basename url))) urls ->
  download_models cfg w st =
    (st, Ok (map os_path_basename urls,
             map (fun url =>
                    status_dict url "success" "Model found in RAM Disk.")
                 urls)).
Proof.
  intros Hr Hj Hd Hall.
  unfold download_models.
  unfold StateExn.bind, StateExn.get, StateExn.ret, run_on_fs, os_makedirs,
    write_initial_urls, read_urls, set_fs, StateExn.modify.
  unfold os_path_exists at 1.
  rewrite bool_decide_eq_true_2 by (rewrite Hj; eauto). cbn [negb].
  rewrite Hj, Hr. unfold os_path_exists at 1.
  rewrite bool_decide_eq_true_2 by done. cbn [negb].
  assert (Hf : forallb
                 (fun llm_model_name =>
                    os_path_exists (fs st)
                      (os_path_join (os_path_join (RAMDISK_PATH cfg) "models")
                         llm_model_name))
                 (map os_path_basename urls) = true).
  { apply forallb_forall. intros nm Hin. apply in_map_iff in Hin
      as (url & <- & Hin). rewrite Forall_forall in Hall.
    apply bool_decide_eq_true_2, Hall. by apply list_elem_of_In. }
  by rewrite Hf.
Qed.

Lemma is_Some_lookup_insert (m : FS) (k k' : string) (v : Node) :
  is_Some (m !! k') -> is_Some (<[k := v]> m !! k').
Proof.
  intros H. destruct (decide (k = k')) as [->|Hne].
  - rewrite lookup_insert_eq. eauto.
  - by rewrite lookup_insert_ne.
Qed.

(** X15. With the RAM disk in use and present, and every model file found
    in its models directory, [download_models] returns at once: one success
    status per URL with the message 'Model found in RAM Disk.', no lock
    taken, nothing downloaded or removed, and nothing on disk changed but
    model_urls.json, which is written with the three initial URLs when it
    was not there. *)
Theorem download_models_found_in_ramdisk (cfg : Config) (w : DlWorld)
    (st : DlState) (urls : list string) :
  USE_RAMDISK cfg = true ->
  configured_urls cfg st = Some urls ->
  is_Some (fs st !! RAMDISK_PATH cfg) ->
  Forall (fun url =>
            is_Some (fs st !! os_path_join
                                (os_path_join (RAMDISK_PATH cfg) "models")
                                (os_path_basename url))) urls ->
  download_models cfg w st =
    (state_with_url_list cfg st,
     Ok (map os_path_basename urls,
         map (fun url =>
                status_dict url "success" "Model found in RAM Disk.")
             urls)) /\
  events (state_with_url_list cfg st) = events st /\
  (is_Some (fs st !! os_path_join (BASE_DIRECTORY cfg) "model_urls.json") ->
   state_with_url_list cfg st = st).
Proof.
  intros Hr Hu Hd Hall.
  unfold state_with_url_list, os_path_exists, configured_urls in *.
  destruct (fs st !! os_path_join (BASE_DIRECTORY cfg) "model_urls.json")
    as [[|sz [l|]]|] eqn:Hj; try done; injection Hu as <-.
  - rewrite bool_decide_eq_true_2 by eauto.
    split; [by eapply download_models_ramdisk_hit | done].
  - rewrite bool_decide_eq_false_2 by (by intros [? ?]).
    split; [|split; [reflexivity | by intros [? ?]]].
    rewrite (download_models_writes_urls cfg w st Hj).
    eapply download_models_ramdisk_hit; cbn [fs].
    + exact Hr.
    + apply lookup_insert_eq.
    + by apply is_Some_lookup_insert.
    + eapply Forall_impl; [exact Hall|].
      intros url. apply is_Some_lookup_insert.
Qed.

Lemma download_models_found_in_ramdisk_witness :
  download_models DemoRam.cfg DemoFail.world DemoRam.st =
    (state_with_url_list DemoRam.cfg DemoRam.st,
     Ok (map os_path_basename [DemoDl.url],
         map (fun url =>
                status_dict url "success" "Model found in RAM Disk.")
             [DemoDl.url])) /\
  events (state_with_url_list DemoRam.cfg DemoRam.st) = events DemoRam.st /\
  (is_Some (fs DemoRam.st
              !! os_path_join (BASE_DIRECTORY DemoRam.cfg) "model_urls.json") ->
   state_with_url_list DemoRam.cfg DemoRam.st = DemoRam.st).
Proof.
  apply (download_models_found_in_ramdisk DemoRam.cfg DemoFail.world
           DemoRam.st [DemoDl.url]).
  - reflexivity.
  - vm_compute. reflexivity.
  - vm_compute. eauto.
  - repeat constructor. vm_compute. eauto.
Defined.

(** The last component of a path has no separator in it. *)
Lemma os_path_basename_no_sep (p : string) :
  has_sep (os_path_basename p) = false.
Proof.
  induction p as [|c p IH]; [done|].
  cbn [os_path_basename].
  destruct (Ascii.eqb c slash) eqn:Hc; [exact IH|].
  destruct (has_sep p) eqn:Hp; [exact IH|].
  cbn [has_sep]. by rewrite Hc, Hp.
Qed.

Lemma targets_of_mono (models_dir : string) (l l' : list (string * string))
    (ev : Event) :
  (forall x, x ∈ l -> x ∈ l') ->
  targets_of models_dir l ev -> targets_of models_dir l' ev.
Proof.
  intros Hsub. destruct ev; cbn; try done.
  - intros (name & Hin & ->). eauto.
  - intros (u & name & Hin & ->). eauto.
Qed.

Lemma download_loop_targets (w : DlWorld) (models_dir lock_file : string)
    (todo : list (string * string)) (acc : list Status) (st : DlState) :
  exists evs,
    events (fst (download_loop w models_dir lock_file todo acc st))
    = (events st ++ evs)%list /\
    Forall (targets_of models_dir todo) evs.
Proof.
  revert acc st. induction todo as [|[url name] rest IH]; intros acc st.
  - exists []. split; [by rewrite app_nil_r | constructor].
  - cbn [download_loop]. unfold StateExn.bind.
    assert (Hturn : exists evs,
              events (fst (download_one w models_dir lock_file url name st))
              = (events st ++ evs)%list /\
              Forall (targets_of models_dir ((url, name) :: rest)) evs).
    { rewrite download_one_written_out. unfold download_one_outcome.
      assert (Hin : (url, name) ∈ (url, name) :: rest) by constructor.
      destruct (lock_acquire w _ _ _);
        [|eexists; split; [reflexivity | by repeat constructor]].
      destruct (os_path_exists _ _);
        [eexists; split; [reflexivity | by repeat constructor]|].
      destruct (urllib_request_urlretrieve w _ _ _) as [size|e];
        [destruct (size <? minimum_size_in_bytes)%Z|];
        (eexists; split; [reflexivity|]);
        repeat (constructor; cbn; eauto). }
    destruct Hturn as (e1 & H1 & F1).
    destruct (download_one w models_dir lock_file url name st)
      as [st1 [s|e]]; cbn [fst] in H1 |- *; [|eauto].
    destruct (IH (acc ++ [s])%list st1) as (e2 & H2 & F2).
    exists (e1 ++ e2)%list. split; [by rewrite H2, H1, app_assoc|].
    apply Forall_app. split; [exact F1|].
    eapply Forall_impl; [exact F2|]. intros ev.
    apply targets_of_mono. intros x Hx. by constructor.
Qed.

Lemma elem_of_zip_basename (urls : list string) (u name : string) :
  (u, name) ∈ zip urls (map os_path_basename urls) ->
  u ∈ urls /\ name = os_path_basename u.
Proof.
  induction urls as [|a urls IH]; cbn; [by intros ?%elem_of_nil|].
  intros [[= -> ->]|Hin]%elem_of_cons.
  - split; [constructor | done].
  - destruct (IH Hin) as [? ?]. split; [by constructor | done].
Qed.

(** X16. Whatever the URLs, everything the loop of [download_models]
    downloads or removes lies directly in the models directory: the path is
    the models directory joined with the last component of the URL it is
    for, and that component has no separator in it. *)
Theorem download_loop_stays_in_models_dir (w : DlWorld)
    (models_dir lock_file : string) (urls : list string)
    (acc : list Status) (st : DlState) :
  Forall (in_models_dir models_dir urls)
    (new_events st
       (fst (download_loop w models_dir lock_file
               (zip urls (map os_path_basename urls)) acc st))).
Proof.
  destruct (download_loop_targets w models_dir lock_file
              (zip urls (map os_path_basename urls)) acc st)
    as (evs & He & Hf).
  rewrite (new_events_app _ _ _ He).
  eapply Forall_impl; [exact Hf|].
  intros [f t a|f|u f|f]; cbn; try done.
  - intros (name & Hin & ->).
    apply elem_of_zip_basename in Hin as [Hu ->].
    split; [done|]. split; [done | apply os_path_basename_no_sep].
  - intros (u & name & Hin & ->).
    apply elem_of_zip_basename in Hin as [Hu ->].
    exists u. split; [done|]. split; [done | apply os_path_basename_no_sep].
Qed.

(** ** [initialize_globals] *)

(** Takes the startup sequence apart by the answers of the world; [leaf]
    closes the cases in which a collaborator raised. *)
Ltac startup_cases w g leaf :=
  unfold_startup;
  destruct (is_redis_running w) eqn:Hrun;
  cbn -[download_models run_on_fs setattr];
  [|destruct (start_redis_server_result w) as [[]|?e] eqn:Hstart;
    cbn -[download_models run_on_fs setattr]; [|leaf]];
  (destruct (create_redis_pool_result w _) as [pool|?e] eqn:Hpool;
   cbn -[download_models run_on_fs setattr]; [|leaf]);
  (destruct (initialize_db_result w) as [[]|?e] eqn:Hdb;
   cbn -[download_models run_on_fs setattr]; [|leaf]);
  (destruct (initialize_processing_hashes_result w) as [[]|?e] eqn:Hhashes;
   cbn -[download_models run_on_fs setattr]; [|leaf]);
  destruct (USE_RAMDISK (config_now g)) eqn:Hram,
    (check_that_user_has_required_permissions_to_manage_ramdisks w) eqn:Hperm;
  cbn -[download_models run_on_fs setattr];
  try (destruct (run_on_fs _ _) as [?d [[]|?e]] eqn:Hsetup;
       cbn -[download_models run_on_fs setattr]; [|leaf]);
  (destruct (download_models _ _ _) as [?d [?names|?e]] eqn:Hdl;
   cbn -[download_models run_on_fs setattr]; [|leaf]);
  (destruct (build_faiss_indexes_result w) as [[idx txt]|?e] eqn:Hfaiss;
   cbn -[download_models run_on_fs setattr]; [|leaf]).

(** X17. When [initialize_globals] completes, every collaborator has
    answered and every global holds what its collaborator answered: the
    Redis connection made to redis://localhost, the lock manager built over
    that one connection and configured, the writer built over a new, empty
    queue, on which [initialize_processing_hashes] has returned, and the
    two results of [build_faiss_indexes]. *)
Theorem initialize_globals_completed (w : StartupWorld) (g g' : Globals) :
  initialize_globals w g = (g', Ok tt) ->
  exists pool idx txt,
    create_redis_pool_result w "redis://localhost" = Ok pool /\
    initialize_db_result w = Ok tt /\
    initialize_processing_hashes_result w = Ok tt /\
    build_faiss_indexes_result w = Ok (idx, txt) /\
    redis g' = Some pool /\
    lock_manager g' = Some (configured_lock_manager w pool) /\
    db_writer g' = Some {| queue := [] |} /\
    faiss_indexes g' = Some idx /\
    associated_texts_by_model_and_pooling_method g' = Some txt.
Proof.
  startup_cases w g ltac:(discriminate).
  all: intros [= <-]; exists pool, idx, txt; cbn; repeat split; done.
Qed.

Lemma initialize_globals_completed_witness :
  exists pool idx txt,
    create_redis_pool_result DemoStartup2.world "redis://localhost" = Ok pool /\
    initialize_db_result DemoStartup2.world = Ok tt /\
    initialize_processing_hashes_result DemoStartup2.world = Ok tt /\
    build_faiss_indexes_result DemoStartup2.world = Ok (idx, txt) /\
    redis (fst (initialize_globals DemoStartup2.world DemoStartup2.g0))
    = Some pool /\
    lock_manager (fst (initialize_globals DemoStartup2.world DemoStartup2.g0))
    = Some (configured_lock_manager DemoStartup2.world pool) /\
    db_writer (fst (initialize_globals DemoStartup2.world DemoStartup2.g0))
    = Some {| queue := [] |} /\
    faiss_indexes (fst (initialize_globals DemoStartup2.world DemoStartup2.g0))
    = Some idx /\
    associated_texts_by_model_and_pooling_method
      (fst (initialize_globals DemoStartup2.world DemoStartup2.g0))
    = Some txt.
Proof.
  apply (initialize_globals_completed DemoStartup2.world DemoStartup2.g0).
  vm_compute. reflexivity.
Defined.

Lemma no_failure_sound (evs : list StartupEvent) :
  no_failure evs = true -> Forall (fun ev => ~ is_failure ev) evs.
Proof.
  induction evs as [|ev evs IH]; intros H; [constructor|].
  destruct ev; cbn in H; try done; constructor; auto.
Qed.

Lemma ends_in_failure_sound (evs : list StartupEvent) :
  ends_in_failure evs = true ->
  exists pre s,
    evs = (pre ++ [Raised s])%list /\ Forall (fun ev => ~ is_failure ev) pre.
Proof.
  induction evs as [|ev evs IH]; intros H; [done|].
  destruct ev as [s|s|c]; cbn in H.
  - destruct (IH H) as (pre & s' & -> & Hf).
    exists (Returned s :: pre), s'. split; [done|]. constructor; auto.
  - destruct evs; [|done]. exists [], s. split; [done | constructor].
  - destruct (IH H) as (pre & s' & -> & Hf).
    exists (TaskCreated c :: pre), s'. split; [done|]. constructor; auto.
Qed.

Lemma no_redis_start_sound (evs : list StartupEvent) :
  no_redis_start evs = true ->
  Forall (fun ev => ~ about_starting_redis ev) evs.
Proof.
  induction evs as [|ev evs IH]; intros H; [constructor|].
  destruct ev as [[]|[]|c]; cbn in H; try done; constructor; auto.
Qed.

Lemma no_ramdisk_setup_sound (evs : list StartupEvent) :
  no_ramdisk_setup evs = true ->
  Forall (fun ev => ~ about_ramdisk_setup ev) evs.
Proof.
  induction evs as [|ev evs IH]; intros H; [constructor|].
  destruct ev as [[]|[]|c]; cbn in H; try done; constructor; auto.
Qed.

(** Closes a case of the startup sequence for a property of the events
    that is checked by computation on the events written out. *)
Ltac startup_record_leaf :=
  eexists; split; [by rewrite <- ?app_assoc|];
  cbn; repeat split; try reflexivity;
  try (eexists; split; [reflexivity|]; cbn; first [assumption | done]).

Lemma initialize_globals_record (w : StartupWorld) (g : Globals) :
  exists evs,
    trace (fst (initialize_globals w g)) = (trace g ++ evs)%list /\
    fails_fast w evs (snd (initialize_globals w g)).
Proof.
  unfold fails_fast.
  startup_cases w g ltac:(startup_record_leaf).
  all: startup_record_leaf.
Qed.

(** X18. [initialize_globals] fails fast and hides nothing. If it returns,
    no collaborator raised. If it raises, the failure of one collaborator
    is the last thing that happened, no other had failed before it, and
    for Redis, the database, the index of keys and the FAISS indexes the
    error raised is the very error of that collaborator. *)
Theorem initialize_globals_fails_fast (w : StartupWorld) (g : Globals) :
  let evs := new_trace g (fst (initialize_globals w g)) in
  match snd (initialize_globals w g) with
  | Ok _ => Forall (fun ev => ~ is_failure ev) evs
  | Raise e =>
      exists pre s,
        evs = (pre ++ [Raised s])%list /\
        Forall (fun ev => ~ is_failure ev) pre /\
        blamed w s e
  end.
Proof.
  intros evs. subst evs.
  destruct (initialize_globals_record w g) as (evs & Ht & Hf).
  rewrite (new_trace_app _ _ _ Ht). unfold fails_fast in Hf.
  destruct (snd (initialize_globals w g)) as [[]|e].
  - by apply no_failure_sound.
  - destruct Hf as (He & s & Hlast & Hb).
    destruct (ends_in_failure_sound _ He) as (pre & s' & -> & Hpre).
    rewrite last_snoc in Hlast. injection Hlast as ->. eauto.
Qed.

Lemma initialize_globals_redis_record (w : StartupWorld) (g : Globals) :
  exists evs,
    trace (fst (initialize_globals w g)) = (trace g ++ evs)%list /\
    redis_start_as_needed w evs.
Proof.
  unfold redis_start_as_needed.
  startup_cases w g ltac:(startup_record_leaf).
  all: startup_record_leaf.
Qed.

(** X19. The Redis server is started only when it is not running. If it
    is running, [initialize_globals] neither starts it nor waits. If it is
    not, starting it is the first thing done, followed by the wait of one
    second, and never again; if starting it fails, nothing else is done. *)
Theorem redis_started_only_if_needed (w : StartupWorld) (g : Globals) :
  let evs := new_trace g (fst (initialize_globals w g)) in
  if is_redis_running w then
    Forall (fun ev => ~ about_starting_redis ev) evs
  else
    match start_redis_server_result w with
    | Ok _ =>
        exists rest,
          evs = Returned start_redis_server :: Returned asyncio_sleep :: rest /\
          Forall (fun ev => ~ about_starting_redis ev) rest
    | Raise _ => evs = [Raised start_redis_server]
    end.
Proof.
  intros evs. subst evs.
  destruct (initialize_globals_redis_record w g) as (evs & Ht & Hr).
  rewrite (new_trace_app _ _ _ Ht). unfold redis_start_as_needed in Hr.
  destruct (is_redis_running w); [by apply no_redis_start_sound|].
  destruct (start_redis_server_result w); [|done].
  destruct Hr as (rest & -> & Hrest). exists rest.
  split; [done | by apply no_redis_start_sound].
Qed.

Lemma initialize_globals_ramdisk_record (w : StartupWorld) (g : Globals) :
  exists evs,
    trace (fst (initialize_globals w g)) = (trace g ++ evs)%list /\
    same_but_ramdisk (config_now g)
      (config_now (fst (initialize_globals w g))) /\
    (USE_RAMDISK (config_now (fst (initialize_globals w g))) = true ->
     USE_RAMDISK (config_now g) = true) /\
    (no_task_created evs = false ->
     USE_RAMDISK (config_now (fst (initialize_globals w g)))
     = USE_RAMDISK (config_now g) &&
       check_that_user_has_required_permissions_to_manage_ramdisks w) /\
    (USE_RAMDISK (config_now g) &&
     check_that_user_has_required_permissions_to_manage_ramdisks w = false ->
     no_ramdisk_setup evs = true).
Proof.
  unfold same_but_ramdisk.
  startup_cases w g
    ltac:(eexists; split; [by rewrite <- ?app_assoc|];
          cbn; rewrite ?Hram, ?Hperm; repeat split; done).
  all: eexists; split; [by rewrite <- ?app_assoc|];
    cbn; rewrite ?Hram, ?Hperm; repeat split; done.
Qed.

(** X20. Startup can switch the RAM disk off, never on, and changes no
    other setting. Once the writer task has been created, the RAM disk is
    in use exactly if it was configured and the user may manage RAM disks;
    and unless both hold, the RAM disk is never set up. *)
Theorem ramdisk_only_switched_off (w : StartupWorld) (g : Globals) :
  let g' := fst (initialize_globals w g) in
  let evs := new_trace g g' in
  same_but_ramdisk (config_now g) (config_now g') /\
  (USE_RAMDISK (config_now g') = true -> USE_RAMDISK (config_now g) = true) /\
  ((exists c, TaskCreated c ∈ evs) ->
   USE_RAMDISK (config_now g')
   = USE_RAMDISK (config_now g) &&
     check_that_user_has_required_permissions_to_manage_ramdisks w) /\
  (USE_RAMDISK (config_now g) &&
   check_that_user_has_required_permissions_to_manage_ramdisks w = false ->
   Forall (fun ev => ~ about_ramdisk_setup ev) evs).
Proof.
  intros g' evs. subst g' evs.
  destruct (initialize_globals_ramdisk_record w g)
    as (evs & Ht & Hsame & Hon & Hafter & Hsetup).
  rewrite (new_trace_app _ _ _ Ht).
  split; [exact Hsame|]. split; [exact Hon|]. split.
  - intros [c Hc]. apply Hafter.
    destruct (no_task_created evs) eqn:Hn; [|done].
    by destruct (no_task_created_sound _ Hn c).
  - intros H. by apply no_ramdisk_setup_sound, Hsetup.
Qed.

Lemma string_last_app (a b : string) :
  b <> EmptyString -> string_last (a ++ b) = string_last b.
Proof.
  intros Hb. induction a as [|c a IH]; [done|].
  change (String c a ++ b) with (String c (a ++ b)).
  cbn [string_last]. rewrite IH.
  destruct (a ++ b) eqn:Hab; [|done].
  destruct a; [done | discriminate].
Qed.

Lemma string_last_join (a b : string) :
  b <> EmptyString -> String.prefix "/" b = false ->
  string_last (os_path_join a b) = string_last b.
Proof.
  intros Hb Hp. unfold os_path_join. rewrite Hp.
  destruct (_ || _); [by apply string_last_app|].
  rewrite string_last_app by done. by apply (string_last_app "/").
Qed.

(** The list of URLs and the lock are two different files. *)
Lemma json_path_not_lock_file (cfg : Config) :
  os_path_join (BASE_DIRECTORY cfg) "model_urls.json" <> lock_file_of cfg.
Proof.
  intros Heq. apply (f_equal string_last) in Heq.
  unfold lock_file_of in Heq.
  rewrite !string_last_join in Heq by done. discriminate.
Qed.

(** X21. Without a RAM disk, a run of [download_models] that finds no
    model_urls.json leaves one behind that holds the three initial URLs,
    whether the run returns or raises; the next run reads these same URLs
    from it. *)
Theorem download_models_creates_url_list (cfg : Config) (w : DlWorld)
    (st : DlState) :
  USE_RAMDISK cfg = false ->
  fs st !! os_path_join (BASE_DIRECTORY cfg) "model_urls.json" = None ->
  configured_urls cfg st = Some initial_model_urls /\
  fs (fst (download_models cfg w st))
    !! os_path_join (BASE_DIRECTORY cfg) "model_urls.json"
  = Some (File (Z.of_nat (String.length (json_dump initial_model_urls)))
               (Some initial_model_urls)) /\
  configured_urls cfg (fst (download_models cfg w st))
  = Some initial_model_urls.
Proof.
  intros Hr Hj.
  assert (Hkept : fs (fst (download_models cfg w st))
                    !! os_path_join (BASE_DIRECTORY cfg) "model_urls.json"
                  = Some (File (Z.of_nat (String.length
                                            (json_dump initial_model_urls)))
                               (Some initial_model_urls))).
  { rewrite (download_models_writes_urls cfg w st Hj).
    pose proof (json_path_not_lock_file cfg) as Hp.
    assert (Hs : fs {| fs := <[os_path_join (BASE_DIRECTORY cfg)
                                 "model_urls.json" :=
                                 File (Z.of_nat (String.length
                                         (json_dump initial_model_urls)))
                                      (Some initial_model_urls)]> (fs st);
                        events := events st |}
                   !! os_path_join (BASE_DIRECTORY cfg) "model_urls.json"
                 = Some (File (Z.of_nat (String.length
                                           (json_dump initial_model_urls)))
                              (Some initial_model_urls)))
      by (cbn [fs]; apply lookup_insert_eq).
    revert Hs. generalize ({| fs := <[os_path_join (BASE_DIRECTORY cfg)
                                 "model_urls.json" :=
                                 File (Z.of_nat (String.length
                                         (json_dump initial_model_urls)))
                                      (Some initial_model_urls)]> (fs st);
                        events := events st |}).
    intros st0 Hs. download_models_kept Hr Hp. }
  split; [unfold configured_urls; by rewrite Hj|].
  split; [exact Hkept|].
  unfold configured_urls. by rewrite Hkept.
Qed.

Lemma download_models_creates_url_list_witness :
  configured_urls Demo.cfg {| fs := ∅; events := [] |}
  = Some initial_model_urls /\
  fs (fst (download_models Demo.cfg (DemoDl.world 5000 true)
             {| fs := ∅; events := [] |}))
    !! os_path_join (BASE_DIRECTORY Demo.cfg) "model_urls.json"
  = Some (File (Z.of_nat (String.length (json_dump initial_model_urls)))
               (Some initial_model_urls)) /\
  configured_urls Demo.cfg
    (fst (download_models Demo.cfg (DemoDl.world 5000 true)
            {| fs := ∅; events := [] |}))
  = Some initial_model_urls.
Proof.
  apply (download_models_creates_url_list Demo.cfg (DemoDl.world 5000 true)
           {| fs := ∅; events := [] |}); reflexivity.
Defined.
